(** * bi-tools-supply-chain: the scraping parsers, the crawl loop and the
    data-quality validator, embedded from

      - [src/scraping/parsers.py]
      - [src/scraping/run_scraper.py]
      - [src/quality/validations.py]

    Conventions of the embedding.

    - A Python [str] is a Rocq [string]; its characters are the code points
      0..255, which covers the non-breaking space U+00A0 the parsers mention.
      In that range [\d] is exactly [0-9].
    - A Python [float] is an IEEE-754 binary64 value, a [spec_float] of the
      standard library with [prec = 53] and [emax = 1024].
    - A call that may raise returns a [result]; [try]/[except] is [catch].
    - A [WebElement] is the record of what its methods answer; every method
      may raise, as a Selenium call on a stale element does. *)

From Stdlib Require Import ZArith List Bool Ascii String Lia Btauto.
From Stdlib Require Import Permutation.
From Stdlib Require Import Floats.SpecFloat.
Import ListNotations.

Open Scope string_scope.
Open Scope Z_scope.

(** ** Exceptions and results *)

Inductive exn : Type :=
| InvalidOperation
| ValueError
| OverflowError
| KeyError
| NoSuchElementException
| StaleElementReferenceException
| InvalidSelectorException
| JavascriptException
| TimeoutException
| WebDriverException.

Inductive result (A : Type) : Type :=
| Ok (a : A)
| Raise (e : exn).

Arguments Ok {A} a.
Arguments Raise {A} e.

Definition bind {A B : Type} (m : result A) (f : A -> result B) : result B :=
  match m with
  | Ok a => f a
  | Raise e => Raise e
  end.

(** [try: body except <handled>: handler] *)
Definition catch {A : Type} (body : result A) (handled : exn -> bool)
  (handler : result A) : result A :=
  match body with
  | Ok a => Ok a
  | Raise e => if handled e then handler else Raise e
  end.

(** [except Exception] *)
Definition Exception (_ : exn) : bool := true.

Declare Scope py_scope.
Delimit Scope py_scope with py.
Notation "x <- m ;; k" := (bind m (fun x => k))
  (at level 61, m at next level, right associativity) : py_scope.
Open Scope py_scope.

(** ** Python strings *)

Module pystr.

Definition code (c : ascii) : N := N_of_ascii c.

(** [str.isspace] on one character, code points below 256. *)
Definition isspace (c : ascii) : bool :=
  let n := code c in
  ((9 <=? n) && (n <=? 13) || (28 <=? n) && (n <=? 32)
   || (n =? 133) || (n =? 160))%N.

(** [\d] and [str.isdigit] on one character, code points below 256. *)
Definition isdigit (c : ascii) : bool :=
  let n := code c in ((48 <=? n) && (n <=? 57))%N.

Definition digit_value (c : ascii) : Z := Z.of_N (code c) - 48.

Fixpoint lstrip (s : string) : string :=
  match s with
  | String c s' => if isspace c then lstrip s' else s
  | EmptyString => EmptyString
  end.

Fixpoint rstrip (s : string) : string :=
  match s with
  | String c s' =>
      match rstrip s' with
      | EmptyString => if isspace c then EmptyString else String c EmptyString
      | t => String c t
      end
  | EmptyString => EmptyString
  end.

(** [s.strip()] *)
Definition strip (s : string) : string := rstrip (lstrip s).

(** [s.replace(a, b)] for one-character [a]. *)
Fixpoint replace_char (a : ascii) (b : string) (s : string) : string :=
  match s with
  | String c s' =>
      if Ascii.eqb c a then b ++ replace_char a b s'
      else String c (replace_char a b s')
  | EmptyString => EmptyString
  end.

(** [s.startswith(p)] *)
Definition startswith (p s : string) : bool := String.prefix p s.

(** [p in s] *)
Fixpoint contains (p s : string) : bool :=
  String.prefix p s ||
  match s with
  | String _ s' => contains p s'
  | EmptyString => false
  end.

(** [not s] for a string. *)
Definition is_empty (s : string) : bool :=
  match s with
  | EmptyString => true
  | String _ _ => false
  end.

(** [(x or "")] where [x] is a string or [None]. *)
Definition or_empty (x : option string) : string :=
  match x with
  | Some s => s
  | None => ""
  end.

Definition nbsp : ascii := ascii_of_N 160.

(** Some character of [s] is a digit: [s] has a numeric substring. *)
Fixpoint has_digit (s : string) : bool :=
  match s with
  | String c s' => isdigit c || has_digit s'
  | EmptyString => false
  end.

End pystr.

(** ** Regular expressions: the fragment the two patterns use, matched the
    way [re] does it (leftmost, greedy, backtracking). *)

Module re.

Inductive regex : Type :=
| Cls (p : ascii -> bool)            (* one character of a class *)
| Cat (r1 r2 : regex)                (* r1 r2 *)
| Opt (r : regex)                    (* r?  *)
| Star (p : ascii -> bool).          (* [class]* *)

(** [r+] over a class. *)
Definition Plus (p : ascii -> bool) : regex := Cat (Cls p) (Star p).

Section Match.
Context {A : Type}.

Fixpoint star_match (p : ascii -> bool) (s : string)
  (k : string -> option A) : option A :=
  match s with
  | String c s' =>
      if p c then
        match star_match p s' k with
        | Some r => Some r
        | None => k s
        end
      else k s
  | EmptyString => k s
  end.

(** [match_at r s k]: match [r] at the head of [s], then go on with [k] on
    what is left; [None] makes the matcher backtrack. *)
Fixpoint match_at (r : regex) (s : string) (k : string -> option A)
  : option A :=
  match r with
  | Cls p =>
      match s with
      | String c s' => if p c then k s' else None
      | EmptyString => None
      end
  | Cat r1 r2 => match_at r1 s (fun s1 => match_at r2 s1 k)
  | Opt r1 =>
      match match_at r1 s k with
      | Some x => Some x
      | None => k s
      end
  | Star p => star_match p s k
  end.

End Match.

(** The first [n] characters. *)
Fixpoint take (n : nat) (s : string) : string :=
  match n, s with
  | S n', String c s' => String c (take n' s')
  | _, _ => EmptyString
  end.

(** [r.search(s)], answering [m.group(1)] for a pattern that is one group. *)
Fixpoint search (r : regex) (s : string) : option string :=
  match match_at r s Some with
  | Some rest => Some (take (String.length s - String.length rest) s)
  | None =>
      match s with
      | String _ s' => search r s'
      | EmptyString => None
      end
  end.

End re.

(** ** Numbers: [int], [decimal.Decimal], [float], [round] *)

Module pynum.

Import pystr.

(** The digits of [s], or [None] when a character is not a digit. *)
Fixpoint digits_value (acc : Z) (s : string) : option Z :=
  match s with
  | String c s' =>
      if isdigit c then digits_value (10 * acc + digit_value c) s' else None
  | EmptyString => Some acc
  end.

(** [sys.int_info.default_max_str_digits]: a longer digit string makes
    [int] raise [ValueError]. *)
Definition int_max_str_digits : nat := 4300.

(** [int(s)] on a run of digits (the integer pattern yields nothing else). *)
Definition py_int (s : string) : result Z :=
  if is_empty s then Raise ValueError
  else if (int_max_str_digits <? String.length s)%nat then Raise ValueError
  else
    match digits_value 0 s with
    | Some n => Ok n
    | None => Raise ValueError
    end.

(** A finite [Decimal]: (-1)^sign * coefficient * 10^exponent. *)
Record Decimal : Type := mkDecimal {
  dec_sign : bool;
  dec_coeff : Z;
  dec_exp : Z
}.

Definition split_sign (s : string) : bool * string :=
  match s with
  | String "-" s' => (true, s')
  | String "+" s' => (false, s')
  | _ => (false, s)
  end.

(** The longest run of digits at the head of [s], and what follows. *)
Fixpoint span_digits (s : string) : string * string :=
  match s with
  | String c s' =>
      if isdigit c then
        let (d, rest) := span_digits s' in (String c d, rest)
      else (EmptyString, s)
  | EmptyString => (EmptyString, EmptyString)
  end.

(** [Decimal(s)] on a text made of a sign, digits, commas and dots (the
    numeric pattern yields nothing else): an optional sign, an integer part,
    an optional point and fraction, one digit at least; anything else is
    [InvalidOperation]. *)
Definition py_Decimal (s : string) : result Decimal :=
  let (sign, s1) := split_sign s in
  let (intpart, s2) := span_digits s1 in
  let (fracpart, s3) :=
    match s2 with
    | String "." t => span_digits t
    | _ => (EmptyString, s2)
    end in
  if is_empty s3 && negb (is_empty intpart && is_empty fracpart) then
    match digits_value 0 (intpart ++ fracpart) with
    | Some n =>
        Ok (mkDecimal sign n (- Z.of_nat (String.length fracpart)))
    | None => Raise InvalidOperation
    end
  else Raise InvalidOperation.

(** binary64 *)
Definition prec : Z := 53.
Definition emax : Z := 1024.
Definition float : Type := spec_float.

(** The binary64 nearest to [(-1)^s * p / q] (ties to even), for positive
    integers of any size: the quotient and its location as the standard
    library's division computes them, then its rounding. *)
Definition round_quotient (s : bool) (p q : positive) : float :=
  let '(mz, ez, lz) := SFdiv_core_binary prec emax (Zpos p) 0 (Zpos q) 0 in
  binary_round_aux prec emax s mz ez lz.

(** [float(d)] for a [Decimal]: the nearest binary64, an infinity when the
    magnitude is out of range (no exception). *)
Definition float_of_Decimal (d : Decimal) : float :=
  match dec_coeff d with
  | Zpos p =>
      if 0 <=? dec_exp d
      then round_quotient (dec_sign d) (p * Z.to_pos (10 ^ dec_exp d)) 1
      else round_quotient (dec_sign d) p (Z.to_pos (10 ^ (- dec_exp d)))
  | _ => S754_zero (dec_sign d)
  end.

(** [float(n)] for the integer literals of the source. *)
Definition float_of_int (n : Z) : float :=
  float_of_Decimal (mkDecimal (n <? 0) (Z.abs n) 0).

(** Comparing a float with an integer, by value, as Python does; [None]
    for a NaN, which compares false with everything. *)
Definition compare_int (x : float) (n : Z) : option comparison :=
  match x with
  | S754_nan => None
  | S754_infinity s => Some (if s then Lt else Gt)
  | S754_zero _ => Some (0 ?= n)
  | S754_finite s m e =>
      let sm := cond_Zopp s (Zpos m) in
      Some (if 0 <=? e then (sm * 2 ^ e ?= n) else (sm ?= n * 2 ^ (- e)))
  end.

(** [x < n], [x > n], [x <= n] *)
Definition lt_int (x : float) (n : Z) : bool :=
  match compare_int x n with Some Lt => true | _ => false end.
Definition gt_int (x : float) (n : Z) : bool :=
  match compare_int x n with Some Gt => true | _ => false end.
Definition le_int (x : float) (n : Z) : bool :=
  match compare_int x n with Some (Lt | Eq) => true | _ => false end.
Definition ge_int (x : float) (n : Z) : bool :=
  match compare_int x n with Some (Gt | Eq) => true | _ => false end.

(** The integer nearest to [p / q], ties to even, for [q > 0]. *)
Definition round_half_even (p q : Z) : Z :=
  let d := p / q in
  match 2 * (p mod q) ?= q with
  | Lt => d
  | Gt => d + 1
  | Eq => if Z.even d then d else d + 1
  end.

(** [round(x, ndigits)] for [ndigits >= 0]: the decimal with [ndigits]
    places nearest to the exact value of [x] (ties to even), converted back
    to the nearest binary64; the sign is kept, and a NaN, an infinity and a
    zero round to themselves. *)
Definition py_round (x : float) (ndigits : nat) : float :=
  match x with
  | S754_finite s m e =>
      let scaled := Zpos m * 10 ^ Z.of_nat ndigits in
      let n := if 0 <=? e then scaled * 2 ^ e
               else round_half_even scaled (2 ^ (- e)) in
      float_of_Decimal (mkDecimal s n (- Z.of_nat ndigits))
  | _ => x
  end.

End pynum.

(** ** The browser, as far as the scraper talks to it

    A [WebElement] and a [WebDriver] are what their methods answer; every
    answer is a [result], since any Selenium call may raise.  A click moves
    the session on, so [click] answers the driver as it is afterwards.
    [execute_script driver script el] is answered by [el]: what [script]
    returns when run with [el] as [arguments[0]] ([None] for [null]). *)

#[warnings="-register-all"]
Inductive WebElement : Type := mkWebElement {
  find_element : string -> result WebElement;          (* By.CSS_SELECTOR *)
  find_elements : string -> result (list WebElement);  (* By.CSS_SELECTOR *)
  get_attribute : string -> result (option string);
  text : result string;
  run_script : string -> result (option string);
  click : result WebDriver
}
with WebDriver : Type := mkWebDriver {
  get : string -> result WebDriver;
  wait_presence : string -> result unit;
  driver_find_element : string -> result WebElement;
  driver_find_elements : string -> result (list WebElement);
  quit : result unit
}.

Definition execute_script (driver : WebDriver) (script : string)
  (el : WebElement) : result (option string) :=
  run_script el script.

(** ** [src/scraping/parsers.py] *)

Module parsers.

Import pystr pynum.

Definition get_text_content (driver : WebDriver) (el : WebElement)
  : result string :=
  catch
    (txt <- execute_script driver "return arguments[0].textContent;" el ;;
     Ok (strip (or_empty txt)))
    Exception
    (t <- text el ;; Ok (strip t)).

Record ProductRecord : Type := mkProductRecord {
  sku : string;
  name : string;
  price_list : option float;
  price_sale : option float;
  rating : option float;
  reviews_count : option Z;
  product_url : string
}.

Record Selectors : Type := mkSelectors {
  product_card : string;
  sel_product_url : string;
  product_name : string;
  product_id : string;
  product_sku : string;
  product_sale_price : string;
  product_list_price : string;
  product_rating : string;
  product_reviews_count : string;
  bv_aria_source : string;
  next_page_button : string
}.

(** The defaults of the dataclass. *)
Definition default_selectors : Selectors := {|
  product_card := "div.cc-product-card";
  sel_product_url := "";
  product_name := ".cc-product-card-title .cc-text-overflow";
  product_id := "@data-oe-item-id";
  product_sku := ".cc-product-sku-container small span:nth-of-type(2)";
  product_sale_price := "@data-oe-item-sale-price";
  product_list_price := "@data-oe-item-list-price";
  product_rating := ".bv_averageRating_component_container .bv_text";
  product_reviews_count := ".bv_numReviews_component_container .bv_text";
  bv_aria_source := "a.bv_main_container";
  next_page_button := "span.cc-pagination-button.cc-next"
|}.

Definition is_sign (c : ascii) : bool :=
  Ascii.eqb c "-" || Ascii.eqb c "+".
Definition is_dot (c : ascii) : bool := Ascii.eqb c ".".
Definition digit_or_comma (c : ascii) : bool :=
  isdigit c || Ascii.eqb c ",".

(** The pattern [( [-+]? \d [\d,]* \.? \d* )], written here with blanks
    between its parts. *)
Definition _money_re : re.regex :=
  re.Cat (re.Opt (re.Cls is_sign))
    (re.Cat (re.Cls isdigit)
       (re.Cat (re.Star digit_or_comma)
          (re.Cat (re.Opt (re.Cls is_dot)) (re.Star isdigit)))).

(** The pattern [( \d+ )]. *)
Definition _int_re : re.regex := re.Plus isdigit.

Definition _safe_text (el : option WebElement) : result string :=
  match el with
  | Some e => t <- text e ;; Ok (strip t)
  | None => Ok ""
  end.

Definition _find_optional (parent : WebElement) (selector : string)
  : result (option WebElement) :=
  catch (e <- find_element parent selector ;; Ok (Some e))
    Exception (Ok None).

Definition decimal_errors (e : exn) : bool :=
  match e with
  | InvalidOperation | ValueError => true
  | _ => false
  end.

Definition value_error (e : exn) : bool :=
  match e with
  | ValueError => true
  | _ => false
  end.

Definition parse_price (text : string) : result (option float) :=
  let text := strip text in
  if is_empty text then Ok None
  else
    match re.search _money_re (replace_char nbsp " " text) with
    | None => Ok None
    | Some g1 =>
        let raw := replace_char "," "" g1 in
        catch (d <- py_Decimal raw ;; Ok (Some (float_of_Decimal d)))
          decimal_errors (Ok None)
    end.

(** The literals [0.0] and [5.0]. *)
Definition float_0_0 : float := S754_zero false.
Definition float_5_0 : float := float_of_Decimal (mkDecimal false 50 (-1)).

Definition parse_rating (text : string) : result (option float) :=
  let text := strip text in
  if is_empty text then Ok None
  else
    match re.search _money_re text with
    | None => Ok None
    | Some g1 =>
        catch
          (d <- py_Decimal g1 ;;
           let val := float_of_Decimal d in
           (* clamp to 0..5 *)
           let val := if lt_int val 0 then float_0_0 else val in
           let val := if gt_int val 5 then float_5_0 else val in
           Ok (Some (py_round val 1)))
          decimal_errors (Ok None)
    end.

Definition parse_reviews_count (text : string) : result (option Z) :=
  let text := strip text in
  if is_empty text then Ok None
  else
    match re.search _int_re (replace_char "," "" text) with
    | None => Ok None
    | Some g1 =>
        catch (n <- py_int g1 ;; Ok (Some n)) value_error (Ok None)
    end.

(** What the rating is promised to be: within [0, 5], and the float of a
    decimal with one place. *)
Definition in_rating_range (v : float) : Prop :=
  ge_int v 0 = true /\ le_int v 5 = true.
Definition one_decimal (v : float) : Prop :=
  exists s n, v = float_of_Decimal (mkDecimal s n (-1)).

(** [selector_or_attr[1:]] *)
Definition tail (s : string) : string :=
  match s with
  | String _ s' => s'
  | EmptyString => EmptyString
  end.

Definition extract_value (card : WebElement) (selector_or_attr : string)
  : result string :=
  if is_empty selector_or_attr then Ok ""
  else if startswith "@" selector_or_attr then
    let attr_name := tail selector_or_attr in
    a <- get_attribute card attr_name ;; Ok (strip (or_empty a))
  else
    el <- _find_optional card selector_or_attr ;;
    _safe_text el.

(** The [for link in links] loop: the first [href] containing
    ["/product/"], or the initial [""]. *)
Fixpoint first_product_link (links : list WebElement) : result string :=
  match links with
  | link :: rest =>
      h <- get_attribute link "href" ;;
      let href := strip (or_empty h) in
      if contains "/product/" href then Ok href
      else first_product_link rest
  | [] => Ok ""
  end.

(** [x if x is not None else y] *)
Definition if_not_none {A : Type} (x : option A) (y : result (option A))
  : result (option A) :=
  match x with
  | Some _ => Ok x
  | None => y
  end.

Definition parse_product_card (driver : WebDriver) (card : WebElement)
  (selectors : Selectors) : result ProductRecord :=
  name_el <- _find_optional card (product_name selectors) ;;
  name <- match name_el with
          | Some el => get_text_content driver el
          | None => Ok ""
          end ;;
  sku <- extract_value card (product_sku selectors) ;;
  sale_price_text <- extract_value card (product_sale_price selectors) ;;
  list_price_text <- extract_value card (product_list_price selectors) ;;
  price_list <- (if is_empty list_price_text then Ok None
                 else parse_price list_price_text) ;;
  price_sale <- (if is_empty sale_price_text then Ok None
                 else parse_price sale_price_text) ;;
  let price_sale := match price_sale with
                    | None => price_list
                    | Some _ => price_sale
                    end in
  rating_text <- extract_value card (product_rating selectors) ;;
  rating <- parse_rating rating_text ;;
  reviews_text <- extract_value card (product_reviews_count selectors) ;;
  reviews_count <- parse_reviews_count reviews_text ;;
  rr <- match rating, reviews_count with
        | Some _, Some _ => Ok (rating, reviews_count)
        | _, _ =>
            a <- _find_optional card (bv_aria_source selectors) ;;
            match a with
            | Some a =>
                l <- get_attribute a "aria-label" ;;
                let aria := strip (or_empty l) in
                rating <- if_not_none rating (parse_rating aria) ;;
                reviews_count <-
                  if_not_none reviews_count (parse_reviews_count aria) ;;
                Ok (rating, reviews_count)
            | None => Ok (rating, reviews_count)
            end
        end ;;
  let '(rating, reviews_count) := rr in
  (* product_url optional: best effort via links *)
  product_url <- catch
                   (links <- find_elements card "a[href]" ;;
                    first_product_link links)
                   Exception (Ok "") ;;
  let sku := if is_empty sku then "UNKNOWN" else sku in
  Ok (mkProductRecord sku name price_list price_sale rating reviews_count
        product_url).

End parsers.

(** ** [src/quality/validations.py] *)

Module validations.

Import pystr pynum.

(** One row of the frame.  A text cell is a string or missing ([None] for
    NaN/None); a float64 cell is a float, NaN when missing; the review count
    is a nullable integer.  A cell of a column the frame does not have is
    never read. *)
Record Row : Type := mkRow {
  sku : option string;
  name : option string;
  price_list : float;
  price_sale : float;
  rating : float;
  reviews_count : option Z;
  product_url : option string
}.

Record DataFrame : Type := mkDataFrame {
  columns : list string;
  rows : list Row
}.

(** A dict with string keys, in insertion order. *)
Definition dict : Type := list (string * Z).

Fixpoint dict_get (d : dict) (k : string) (default : Z) : Z :=
  match d with
  | (k', v) :: d' => if String.eqb k' k then v else dict_get d' k default
  | [] => default
  end.

Fixpoint dict_set (d : dict) (k : string) (v : Z) : dict :=
  match d with
  | (k', v') :: d' =>
      if String.eqb k' k then (k', v) :: d' else (k', v') :: dict_set d' k v
  | [] => [(k, v)]
  end.

Record ValidationReport : Type := mkValidationReport {
  total_rows : Z;
  valid_rows : Z;
  invalid_rows : Z;
  invalid_reasons : dict
}.

(** A boolean Series over the rows of the frame. *)
Definition mask : Type := list bool.

(** [a | b], [a & b], [~a] *)
Fixpoint mask_or (a b : mask) : mask :=
  match a, b with
  | x :: a', y :: b' => (x || y) :: mask_or a' b'
  | _, _ => []
  end.

Fixpoint mask_and (a b : mask) : mask :=
  match a, b with
  | x :: a', y :: b' => (x && y) :: mask_and a' b'
  | _, _ => []
  end.

Definition mask_not (a : mask) : mask := map negb a.

(** [mask.sum()] *)
Fixpoint mask_sum (a : mask) : Z :=
  match a with
  | b :: a' => (if b then 1 else 0) + mask_sum a'
  | [] => 0
  end.

(** [work.loc[m]] *)
Fixpoint loc (rs : list Row) (m : mask) : list Row :=
  match rs, m with
  | r :: rs', b :: m' => if b then r :: loc rs' m' else loc rs' m'
  | _, _ => []
  end.

(** [name in work.columns] *)
Definition has_column (df : DataFrame) (c : string) : bool :=
  existsb (String.eqb c) (columns df).

(** [work[c]] for a text column and for a numeric one: [KeyError] when the
    frame has no such column. *)
Definition column {A : Type} (df : DataFrame) (c : string) (cell : Row -> A)
  : result (list A) :=
  if has_column df c then Ok (map cell (rows df)) else Raise KeyError.

(** [.isna()] and [.notna()] *)
Definition isna {A : Type} (x : option A) : bool :=
  match x with
  | None => true
  | Some _ => false
  end.

Definition float_notna (x : float) : bool :=
  match x with
  | S754_nan => false
  | _ => true
  end.

(** [.astype(str)] on a text cell. *)
Definition astype_str (x : option string) : string :=
  match x with
  | Some s => s
  | None => "nan"
  end.

(** [isna() | (astype(str).str.strip() == "")] over a text column. *)
Definition text_invalid (col : list (option string)) : mask :=
  mask_or (map isna col)
    (map (fun x => String.eqb (strip (astype_str x)) "") col).

(** [add_reason] with the enclosing [reasons] passed along. *)
Definition add_reason (reasons : dict) (m : mask) (reason : string) : dict :=
  let count := mask_sum m in
  if 0 <? count
  then dict_set reasons reason (dict_get reasons reason 0 + count)
  else reasons.

Definition validate_products (df : DataFrame)
  : result (DataFrame * ValidationReport) :=
  let work := df in
  let reasons : dict := [] in
  (* name *)
  name_col <- column work "name" name ;;
  let name_invalid := text_invalid name_col in
  let reasons := add_reason reasons name_invalid "invalid_name" in
  (* sku *)
  sku_col <- column work "sku" sku ;;
  let sku_invalid := text_invalid sku_col in
  let reasons := add_reason reasons sku_invalid "invalid_sku" in
  (* price_list; a mask of an optional column is read only under the test
     that the frame has the column *)
  let price_list_invalid :=
    mask_and (map (fun r => float_notna (price_list r)) (rows work))
      (map (fun r => le_int (price_list r) 0) (rows work)) in
  let reasons :=
    if has_column work "price_list"
    then add_reason reasons price_list_invalid "invalid_price_list"
    else reasons in
  (* price_sale *)
  let price_sale_invalid :=
    mask_and (map (fun r => float_notna (price_sale r)) (rows work))
      (map (fun r => le_int (price_sale r) 0) (rows work)) in
  let reasons :=
    if has_column work "price_sale"
    then add_reason reasons price_sale_invalid "invalid_price_sale"
    else reasons in
  (* rating *)
  let rating_invalid :=
    mask_and (map (fun r => float_notna (rating r)) (rows work))
      (mask_or (map (fun r => lt_int (rating r) 0) (rows work))
         (map (fun r => gt_int (rating r) 5) (rows work))) in
  let reasons :=
    if has_column work "rating"
    then add_reason reasons rating_invalid "invalid_rating"
    else reasons in
  (* reviews_count *)
  let reviews_invalid :=
    mask_and (map (fun r => negb (isna (reviews_count r))) (rows work))
      (map (fun r => match reviews_count r with
                     | Some n => n <? 0
                     | None => false
                     end) (rows work)) in
  let reasons :=
    if has_column work "reviews_count"
    then add_reason reasons reviews_invalid "invalid_reviews_count"
    else reasons in
  let invalid_mask := mask_or name_invalid sku_invalid in
  let invalid_mask :=
    if has_column work "price_sale"
    then mask_or invalid_mask price_sale_invalid else invalid_mask in
  let invalid_mask :=
    if has_column work "price_list"
    then mask_or invalid_mask price_list_invalid else invalid_mask in
  let invalid_mask :=
    if has_column work "rating"
    then mask_or invalid_mask rating_invalid else invalid_mask in
  let invalid_mask :=
    if has_column work "reviews_count"
    then mask_or invalid_mask reviews_invalid else invalid_mask in
  let valid_df :=
    mkDataFrame (columns work) (loc (rows work) (mask_not invalid_mask)) in
  let report := {|
    total_rows := Z.of_nat (List.length (rows work));
    valid_rows := Z.of_nat (List.length (rows valid_df));
    invalid_rows := mask_sum invalid_mask;
    invalid_reasons := reasons
  |} in
  Ok (valid_df, report).

(** *** The rules, row by row (what the theorems compare the masks with) *)

Definition name_rule (r : Row) : bool :=
  isna (name r) || String.eqb (strip (astype_str (name r))) "".
Definition sku_rule (r : Row) : bool :=
  isna (sku r) || String.eqb (strip (astype_str (sku r))) "".
Definition price_list_rule (r : Row) : bool :=
  float_notna (price_list r) && le_int (price_list r) 0.
Definition price_sale_rule (r : Row) : bool :=
  float_notna (price_sale r) && le_int (price_sale r) 0.
Definition rating_rule (r : Row) : bool :=
  float_notna (rating r) && (lt_int (rating r) 0 || gt_int (rating r) 5).
Definition reviews_rule (r : Row) : bool :=
  negb (isna (reviews_count r)) &&
  match reviews_count r with
  | Some n => n <? 0
  | None => false
  end.

(** The reason codes and their rules. *)
Definition rules : list (string * (Row -> bool)) :=
  [("invalid_name", name_rule);
   ("invalid_sku", sku_rule);
   ("invalid_price_list", price_list_rule);
   ("invalid_price_sale", price_sale_rule);
   ("invalid_rating", rating_rule);
   ("invalid_reviews_count", reviews_rule)].

(** The column a reason code reads. *)
Definition rule_column (reason : string) : string :=
  substring 8 (String.length reason - 8) reason.

(** A row triggers at least one rule whose column the frame has. *)
Definition triggers_any (df : DataFrame) (r : Row) : bool :=
  existsb (fun cr => has_column df (rule_column (fst cr)) && snd cr r) rules.

(** How many rows of [rs] trigger [rule]. *)
Definition count_rows (rule : Row -> bool) (rs : list Row) : Z :=
  Z.of_nat (List.length (filter rule rs)).

End validations.

(** ** [src/scraping/run_scraper.py] *)

Module run_scraper.

Import pystr pynum parsers.

(** What the logger is given: the level, the format string and its
    arguments. *)
Inductive log_arg : Type :=
| ArgStr (s : string)
| ArgInt (n : Z)
| ArgExn (e : exn).

Inductive log_record : Type :=
| INFO (fmt : string) (args : list log_arg)
| WARNING (fmt : string) (args : list log_arg).

Definition log : Type := list log_record.

(** [range(a, b)] *)
Definition range (a b : Z) : list Z :=
  map (fun i => a + Z.of_nat i) (seq 0 (Z.to_nat (b - a))).

(** The interpreter keeps a delay as a signed 64-bit count of nanoseconds. *)
Definition SEC_TO_NS : Z := 1000000000.
Definition PyTime_MIN : Z := - 2 ^ 63.

(** [time.sleep(s)], as the interpreter's [timemodule.c] and [pytime.c] have
    it.  A NaN is a [ValueError].  The delay is turned into nanoseconds, the
    binary64 product [s * 1e9] rounded away from zero to an integer, which
    has to lie in [-2^63, 2^63): it is an [OverflowError] otherwise, so for
    an infinite delay and for one of 1e10 seconds.  A negative count is a
    [ValueError]; the product of a delay below 0 is below 0 and rounds to -1
    or less, so the sign is read off the delay.  (A product of 2^63 itself is
    let through by older interpreters, whose conversion then wraps to a
    negative count: a [ValueError] there.)  The wait itself is taken to
    return: a signal, and a delay the system's own clock or timer refuses,
    are left out. *)
Definition time_sleep (s : float) : result unit :=
  match s with
  | S754_nan => Raise ValueError
  | _ =>
      let d := SFmul prec emax s (float_of_int SEC_TO_NS) in
      if ge_int d PyTime_MIN && lt_int d (- PyTime_MIN)
      then if lt_int s 0 then Raise ValueError else Ok tt
      else Raise OverflowError
  end.

(** [if record.name or record.product_url] *)
Definition accepted (record : ProductRecord) : bool :=
  negb (is_empty (name record)) || negb (is_empty (product_url record)).

(** The [for card in cards] loop, on the results and the log so far. *)
Fixpoint scrape_cards (driver : WebDriver) (selectors : Selectors)
  (cards : list WebElement) (results : list ProductRecord) (lg : log)
  : list ProductRecord * log :=
  match cards with
  | card :: rest =>
      match parse_product_card driver card selectors with
      | Ok record =>
          (* Basic sanity: require URL or name; keep SKU always *)
          if accepted record
          then scrape_cards driver selectors rest (results ++ [record])%list lg
          else scrape_cards driver selectors rest results lg
      | Raise e =>
          scrape_cards driver selectors rest results
            (lg ++ [WARNING "Failed parsing a card: %s" [ArgExn e]])%list
      end
  | [] => (results, lg)
  end.

(** The [for page in range(1, max_pages + 1)] loop over the pages still to
    come; the value is what [scrape_listing] returns or raises from inside
    its [try]. *)
Fixpoint scrape_pages (pages : list Z) (max_pages : Z) (sleep_s : float)
  (selectors : Selectors) (driver : WebDriver)
  (results : list ProductRecord) (lg : log)
  : log * result (list ProductRecord) :=
  match pages with
  | page :: later =>
      let lg := (lg ++ [INFO "Scraping page %d/%d"
                          [ArgInt page; ArgInt max_pages]])%list in
      (* wait until at least one card appears *)
      match wait_presence driver (product_card selectors) with
      | Raise e => (lg, Raise e)
      | Ok _ =>
      match driver_find_elements driver (product_card selectors) with
      | Raise e => (lg, Raise e)
      | Ok cards =>
          let lg := (lg ++ [INFO "Found %d product cards"
                              [ArgInt (Z.of_nat (List.length cards))]])%list in
          let '(results, lg) :=
            scrape_cards driver selectors cards results lg in
          if page =? 0 then
            ((lg ++ [INFO "No next page button found. Stopping." []])%list,
             Ok results)
          else
            (* pagination *)
            let next_btn :=
              match driver_find_element driver (next_page_button selectors)
              with
              | Ok b => Some b
              | Raise _ => None
              end in
            match next_btn with
            | None =>
                ((lg ++ [INFO "No next page button found. Stopping." []])%list,
                 Ok results)
            | Some next_btn =>
                (* click next and wait a moment *)
                match
                  catch
                    (_ <- execute_script driver
                            "arguments[0].scrollIntoView(true);" next_btn ;;
                     _ <- time_sleep (float_of_Decimal (mkDecimal false 2 (-1))) ;;
                     driver' <- click next_btn ;;
                     _ <- time_sleep sleep_s ;;
                     Ok (Some driver'))
                    Exception (Ok None)
                with
                | Ok (Some driver') =>
                    scrape_pages later max_pages sleep_s selectors driver'
                      results lg
                | _ =>
                    ((lg ++ [INFO "Pagination ended or failed to click next" []])%list,
                     Ok results)
                end
            end
      end
      end
  | [] => (lg, Ok results)
  end.

(** [build_chrome_driver(SeleniumConfig(headless=True))] is an argument:
    the driver it returns, or what it raises. *)
Definition scrape_listing (build_chrome_driver : result WebDriver)
  (start_url : string) (selectors : Selectors) (max_pages : Z)
  (sleep_s : float) : log * result (list ProductRecord) :=
  match build_chrome_driver with
  | Raise e => ([], Raise e)
  | Ok driver =>
      let results : list ProductRecord := [] in
      let lg := [INFO "Opening: %s" [ArgStr start_url]] in
      let out :=
        match get driver start_url with
        | Raise e => (lg, Raise e)
        | Ok driver =>
            scrape_pages (range 1 (max_pages + 1)) max_pages sleep_s
              selectors driver results lg
        end in
      (* finally: driver.quit(), whatever it raises is dropped *)
      let _ := catch (quit driver) Exception (Ok tt) in
      out
  end.

(** *** Reading a log and a batch (what the theorems speak of) *)

Definition is_page_record (r : log_record) : bool :=
  match r with
  | INFO fmt _ => String.eqb fmt "Scraping page %d/%d"
  | WARNING _ _ => false
  end.

(** How many pages the loop entered. *)
Definition pages_scraped (lg : log) : Z :=
  Z.of_nat (List.length (filter is_page_record lg)).

(** The records of the cards whose parsing did not raise, in order. *)
Fixpoint parsed_records (driver : WebDriver) (selectors : Selectors)
  (cards : list WebElement) : list ProductRecord :=
  match cards with
  | card :: rest =>
      match parse_product_card driver card selectors with
      | Ok record => record :: parsed_records driver selectors rest
      | Raise _ => parsed_records driver selectors rest
      end
  | [] => []
  end.

(** The frame row that holds a record: the texts as they are, an absent
    number as NaN or NA. *)
Definition row_of_record (r : ProductRecord) : validations.Row :=
  let cell (x : option float) :=
    match x with
    | Some v => v
    | None => S754_nan
    end in
  validations.mkRow (Some (parsers.sku r)) (Some (parsers.name r))
    (cell (parsers.price_list r)) (cell (parsers.price_sale r))
    (cell (parsers.rating r)) (parsers.reviews_count r)
    (Some (parsers.product_url r)).

(** The columns of the raw file. *)
Definition record_columns : list string :=
  ["sku"; "name"; "price_list"; "price_sale"; "rating"; "reviews_count";
   "product_url"].

(** The frame that holds a batch of records. *)
Definition frame_of_records (rs : list ProductRecord)
  : validations.DataFrame :=
  validations.mkDataFrame record_columns (map row_of_record rs).

End run_scraper.

(** ** [src/pipelines/transform.py]: [dedupe_latest] *)

Module transform.

Import validations.

(** Two cells of a text column are duplicates of each other when they hold
    the same text, or are both missing. *)
Definition cell_eqb (a b : option string) : bool :=
  match a, b with
  | Some x, Some y => String.eqb x y
  | None, None => true
  | _, _ => false
  end.

(** [df.drop_duplicates(subset=["sku"], keep="last")] on the rows: a row
    stays when no later row has its SKU. *)
Fixpoint drop_duplicates_last (rs : list Row) : list Row :=
  match rs with
  | r :: rest =>
      if existsb (fun r' => cell_eqb (sku r') (sku r)) rest
      then drop_duplicates_last rest
      else r :: drop_duplicates_last rest
  | [] => []
  end.

Definition dedupe_latest (df : DataFrame) : DataFrame :=
  if negb (has_column df "sku") then df
  else mkDataFrame (columns df) (drop_duplicates_last (rows df)).

End transform.

(** ** Cards, pages and batches the statements are tried on *)

Module examples.

Import pystr pynum parsers.

Fixpoint lookup {A : Type} (kvs : list (string * A)) (k : string)
  : option A :=
  match kvs with
  | (k', v) :: kvs' => if String.eqb k' k then Some v else lookup kvs' k
  | [] => None
  end.

(** An element with children by selector, hyperlinks, attributes and a
    text; it cannot be clicked. *)
Definition element (children : list (string * WebElement))
  (links : list WebElement) (attrs : list (string * string)) (txt : string)
  : WebElement :=
  mkWebElement
    (fun sel => match lookup children sel with
                | Some e => Ok e
                | None => Raise NoSuchElementException
                end)
    (fun sel => if String.eqb sel "a[href]" then Ok links else Ok [])
    (fun a => Ok (lookup attrs a))
    (Ok txt)
    (fun _ => Ok (Some txt))
    (Raise WebDriverException).

Definition leaf (attrs : list (string * string)) (txt : string)
  : WebElement :=
  element [] [] attrs txt.

(** An element that went stale: every call on it raises. *)
Definition stale_element : WebElement :=
  mkWebElement
    (fun _ => Raise StaleElementReferenceException)
    (fun _ => Raise StaleElementReferenceException)
    (fun _ => Raise StaleElementReferenceException)
    (Raise StaleElementReferenceException)
    (fun _ => Raise StaleElementReferenceException)
    (Raise StaleElementReferenceException).

(** A driver showing a page: its cards, and its pagination control if any. *)
Definition page (cards : list WebElement) (next : option WebElement)
  : WebDriver :=
  mkWebDriver
    (fun _ => Raise WebDriverException)
    (fun _ => match cards with
              | [] => Raise TimeoutException
              | _ => Ok tt
              end)
    (fun _ => match next with
              | Some b => Ok b
              | None => Raise NoSuchElementException
              end)
    (fun _ => Ok cards)
    (Ok tt).

(** A pagination control leading to [target]. *)
Definition next_button (target : WebDriver) : WebElement :=
  mkWebElement
    (fun _ => Raise NoSuchElementException)
    (fun _ => Ok [])
    (fun _ => Ok None)
    (Ok "")
    (fun _ => Ok None)
    (Ok target).

(** A fresh browser that opens [first] whatever the URL. *)
Definition browser (first : WebDriver) : WebDriver :=
  mkWebDriver
    (fun _ => Ok first)
    (fun _ => Raise TimeoutException)
    (fun _ => Raise NoSuchElementException)
    (fun _ => Ok [])
    (Ok tt).

(** No rating and no review count by the primary selectors; the fallback
    element carries the label. *)
Definition card_fallback_label : WebElement :=
  element
    [(".cc-product-card-title .cc-text-overflow", leaf [] "Bench Vise");
     ("a.bv_main_container",
      leaf [("aria-label", "4.6 out of 5 stars, 812 reviews")] "")]
    [] [] "".

(** No sale price, list price "$10.00". *)
Definition card_list_price_only : WebElement :=
  element
    [(".cc-product-card-title .cc-text-overflow", leaf [] "Bench Vise")]
    [] [("data-oe-item-sale-price", "");
        ("data-oe-item-list-price", "$10.00")] "".

(** Nothing at all on the card. *)
Definition card_empty : WebElement := element [] [] [] "".

(** No name, SKU "ABC123", a product link. *)
Definition card_no_name : WebElement :=
  element
    [(".cc-product-sku-container small span:nth-of-type(2)",
      leaf [] "ABC123")]
    [leaf [("href", "https://shop.example/product/abc123")] ""]
    [] "".

(** A name and nothing else. *)
Definition card_name_only : WebElement :=
  element
    [(".cc-product-card-title .cc-text-overflow", leaf [] "Bench Vise")]
    [] [] "".

(** Two pages, the first with a pagination control to the second. *)
Definition page_two : WebDriver := page [card_no_name] None.
Definition page_one : WebDriver :=
  page [card_name_only; card_empty] (Some (next_button page_two)).

Definition float_1_0 : float := float_of_Decimal (mkDecimal false 10 (-1)).

(** [priceList = -5], [rating = 6.0], the rest valid. *)
Definition row_two_reasons : validations.Row :=
  validations.mkRow (Some "ABC123") (Some "Bench Vise")
    (float_of_int (-5)) (float_of_int 20)
    (float_of_Decimal (mkDecimal false 60 (-1))) (Some 12)
    (Some "https://shop.example/product/abc123").

Definition row_valid : validations.Row :=
  validations.mkRow (Some "XYZ789") (Some "Hammer")
    (float_of_int 15) (float_of_int 12)
    (float_of_Decimal (mkDecimal false 45 (-1))) (Some 3)
    (Some "https://shop.example/product/xyz789").

End examples.

(** ** Steps of the source functions, named for the proofs *)

Module steps.

Import pystr pynum parsers.

(** What [parse_rating] does to the float it parsed. *)
Definition clamp_round (val : float) : float :=
  let val := if lt_int val 0 then float_0_0 else val in
  let val := if gt_int val 5 then float_5_0 else val in
  py_round val 1.

(** The fallback step of [parse_product_card], on the rating and the review
    count the primary selectors gave. *)
Definition aria_fallback (card : WebElement) (selectors : Selectors)
  (rating : option float) (reviews_count : option Z)
  : result (option float * option Z) :=
  match rating, reviews_count with
  | Some _, Some _ => Ok (rating, reviews_count)
  | _, _ =>
      a <- _find_optional card (bv_aria_source selectors) ;;
      match a with
      | Some a =>
          l <- get_attribute a "aria-label" ;;
          let aria := strip (or_empty l) in
          rating <- if_not_none rating (parse_rating aria) ;;
          reviews_count <-
            if_not_none reviews_count (parse_reviews_count aria) ;;
          Ok (rating, reviews_count)
      | None => Ok (rating, reviews_count)
      end
  end.

(** The hyperlink step. *)
Definition link_step (card : WebElement) : result string :=
  catch (links <- find_elements card "a[href]" ;; first_product_link links)
    Exception (Ok "").

End steps.

(** ** More cards, pages and rows the further properties are tried on *)

Module more_examples.

Import pystr pynum parsers examples.

(** Blanks around the name, the SKU and the link. *)
Definition card_blanks : WebElement :=
  element
    [(".cc-product-card-title .cc-text-overflow", leaf [] "  Bench Vise ");
     (".cc-product-sku-container small span:nth-of-type(2)",
      leaf [] " 8507667  ")]
    [leaf [("href", " https://shop.example/product/8507667 ")] ""]
    [] "".

(** Three hyperlinks: a category page, then two product pages. *)
Definition card_three_links : WebElement :=
  element []
    [leaf [("href", "https://shop.example/category/sale")] "";
     leaf [("href", "https://shop.example/product/1")] "";
     leaf [("href", "https://shop.example/product/2")] ""]
    [] "".

(** A category link, then a link that went stale, then a product link. *)
Definition card_faulty_link : WebElement :=
  element []
    [leaf [("href", "https://shop.example/category/sale")] "";
     stale_element;
     leaf [("href", "https://shop.example/product/1")] ""]
    [] "".

(** A page whose pagination control leads to a page where no card ever
    appears. *)
Definition page_then_timeout : WebDriver :=
  page [card_name_only] (Some (next_button (page [] None))).

(** A page whose pagination control cannot be clicked. *)
Definition page_dead_button : WebDriver :=
  page [card_name_only] (Some (leaf [] "Next")).

(** The product of [row_valid] seen again, at another price. *)
Definition row_repriced : validations.Row :=
  validations.mkRow (Some "XYZ789") (Some "Hammer")
    (float_of_int 15) (float_of_int 9)
    (float_of_Decimal (mkDecimal false 45 (-1))) (Some 4)
    (Some "https://shop.example/product/xyz789").

End more_examples.

(** ** The two patterns read as scanners (what the matcher is compared
    with) *)

Module scan.

Import pystr parsers.

Fixpoint take_while (p : ascii -> bool) (s : string) : string :=
  match s with
  | String c s' => if p c then String c (take_while p s') else EmptyString
  | EmptyString => EmptyString
  end.

Fixpoint drop_while (p : ascii -> bool) (s : string) : string :=
  match s with
  | String c s' => if p c then drop_while p s' else s
  | EmptyString => EmptyString
  end.

(** After the first digit of a number: digits and commas, then a point and
    digits if a point comes next. *)
Definition number_tail (s : string) : string :=
  let a := take_while digit_or_comma s in
  match drop_while digit_or_comma s with
  | String c t => if is_dot c then a ++ String c (take_while isdigit t) else a
  | EmptyString => a
  end.

(** What is left of [s] after [number_tail s]. *)
Definition number_rest (s : string) : string :=
  match drop_while digit_or_comma s with
  | String c t => if is_dot c then drop_while isdigit t else String c t
  | EmptyString => EmptyString
  end.

(** The leftmost number of a text: a digit, with the sign right before it if
    there is one, and its tail. *)
Fixpoint first_number (s : string) : option string :=
  match s with
  | String c s' =>
      if isdigit c then Some (String c (number_tail s'))
      else
        match s' with
        | String d s'' =>
            if is_sign c && isdigit d
            then Some (String c (String d (number_tail s'')))
            else first_number s'
        | EmptyString => None
        end
  | EmptyString => None
  end.

(** The leftmost run of digits of a text. *)
Fixpoint first_digit_run (s : string) : option string :=
  match s with
  | String c s' =>
      if isdigit c then Some (String c (take_while isdigit s'))
      else first_digit_run s'
  | EmptyString => None
  end.

Fixpoint all_digits (s : string) : bool :=
  match s with
  | String c s' => isdigit c && all_digits s'
  | EmptyString => true
  end.

Fixpoint has_comma (s : string) : bool :=
  match s with
  | String c s' => Ascii.eqb c "," || has_comma s'
  | EmptyString => false
  end.

End scan.

(** ** Reading a reasons dict (what the further properties compare it
    with) *)

Module reasons.

Import validations.

(** The reason codes with a non-zero count, in the order of the rules, for
    the columns the frame has. *)
Definition listed (df : DataFrame) : dict :=
  flat_map
    (fun cr : string * (Row -> bool) =>
       let n := count_rows (snd cr) (rows df) in
       if has_column df (rule_column (fst cr)) && (0 <? n)
       then [(fst cr, n)] else [])
    rules.

(** The sum of the counters. *)
Definition dict_sum (d : dict) : Z :=
  fold_right (fun kv acc => snd kv + acc) 0 d.

End reasons.

(** ** A listing as a chain of pages (what the crawl is followed along) *)

Module site.

Import parsers run_scraper.

Definition scroll_script : string := "arguments[0].scrollIntoView(true);".

(** [chain selectors driver pages]: [driver] shows the first page of
    [pages]; each page shows its cards and, but for the last, a pagination
    control whose scroll and click go through and lead to the next page; the
    last page has no pagination control. *)
Fixpoint chain (selectors : Selectors) (driver : WebDriver)
  (pages : list (WebDriver * list WebElement)) : Prop :=
  match pages with
  | [] => False
  | (d, cards) :: rest =>
      d = driver /\
      wait_presence d (product_card selectors) = Ok tt /\
      driver_find_elements d (product_card selectors) = Ok cards /\
      match rest with
      | [] =>
          exists e,
            driver_find_element d (next_page_button selectors) = Raise e
      | (d', _) :: _ =>
          exists btn v,
            driver_find_element d (next_page_button selectors) = Ok btn /\
            run_script btn scroll_script = Ok v /\
            click btn = Ok d' /\
            chain selectors d' rest
      end
  end.

(** The records the crawl keeps of a page. *)
Definition page_records (selectors : Selectors)
  (p : WebDriver * list WebElement) : list ProductRecord :=
  filter accepted (parsed_records (fst p) selectors (snd p)).

(** The warnings of a log. *)
Definition is_warning (r : log_record) : bool :=
  match r with
  | WARNING _ _ => true
  | INFO _ _ => false
  end.

(** The warnings the card loop logs for the cards of a page: one for each
    card whose extraction raises, in the order of the cards. *)
Definition card_warnings (driver : WebDriver) (selectors : Selectors)
  (cards : list WebElement) : log :=
  flat_map
    (fun card =>
       match parse_product_card driver card selectors with
       | Ok _ => []
       | Raise e => [WARNING "Failed parsing a card: %s" [ArgExn e]]
       end)
    cards.

End site.

(** * Properties *)

(** ** Results *)

Lemma bind_ok_inv {A B : Type} (m : result A) (f : A -> result B) (b : B) :
  bind m f = Ok b -> exists a, m = Ok a /\ f a = Ok b.
Proof.
  destruct m as [a | e]; simpl; intros H; [eauto | discriminate].
Qed.


(** ** Floats: a conversion never yields a NaN *)

Module float_facts.

Import pynum.

Lemma shr_1_nonneg (mrs : shr_record) :
  0 <= shr_m mrs -> 0 <= shr_m (shr_1 mrs).
Proof.
  destruct mrs as [m r s]; simpl.
  destruct m as [| p | p]; simpl; try lia;
    destruct p; simpl; lia.
Qed.

Lemma iter_pos_invariant {A : Type} (P : A -> Prop) (f : A -> A) :
  (forall x, P x -> P (f x)) ->
  forall n x, P x -> P (iter_pos f n x).
Proof.
  intros Hf. induction n as [n IH | n IH |]; simpl; intros x Hx; auto.
Qed.

Lemma shr_nonneg (mrs : shr_record) (e n : Z) :
  0 <= shr_m mrs -> 0 <= shr_m (fst (shr mrs e n)).
Proof.
  intros H. unfold shr. destruct n as [| p | p]; simpl; auto.
  apply (iter_pos_invariant (fun x => 0 <= shr_m x)); auto.
  apply shr_1_nonneg.
Qed.

Lemma shr_record_of_loc_m (m : Z) (l : location) :
  shr_m (shr_record_of_loc m l) = m.
Proof.
  destruct l as [| []]; reflexivity.
Qed.

Lemma shr_fexp_nonneg (m e : Z) (l : location) :
  0 <= m -> 0 <= shr_m (fst (shr_fexp prec emax m e l)).
Proof.
  intros H. unfold shr_fexp. apply shr_nonneg.
  now rewrite shr_record_of_loc_m.
Qed.

Lemma round_nearest_even_nonneg (m : Z) (l : location) :
  0 <= m -> 0 <= round_nearest_even m l.
Proof.
  intros H. destruct l as [| []]; simpl; try lia.
  destruct (Z.even m); lia.
Qed.

Lemma binary_round_aux_not_nan (s : bool) (m e : Z) (l : location) :
  0 <= m -> binary_round_aux prec emax s m e l <> S754_nan.
Proof.
  intros H. unfold binary_round_aux.
  pose proof (shr_fexp_nonneg m e l H) as H1.
  destruct (shr_fexp prec emax m e l) as [mrs' e']. simpl in H1.
  pose proof (shr_fexp_nonneg _ e' loc_Exact
                (round_nearest_even_nonneg _ (loc_of_shr_record mrs') H1))
    as H2.
  destruct (shr_fexp prec emax
              (round_nearest_even (shr_m mrs') (loc_of_shr_record mrs'))
              e' loc_Exact) as [mrs'' e''].
  simpl in H2.
  destruct (shr_m mrs'') as [| p | p]; try discriminate.
  - destruct (e'' <=? emax - prec); discriminate.
  - lia.
Qed.

Lemma round_quotient_not_nan (s : bool) (p q : positive) :
  round_quotient s p q <> S754_nan.
Proof.
  unfold round_quotient, SFdiv_core_binary.
  set (e' := Z.min _ _). set (m' := match 0 - 0 - e' with
                                    | 0 => Zpos p
                                    | Zpos _ => Z.shiftl (Zpos p) (0 - 0 - e')
                                    | Zneg _ => 0
                                    end).
  assert (Hm : 0 <= m').
  { subst m'. destruct (0 - 0 - e'); try lia. apply Z.shiftl_nonneg. lia. }
  pose proof (Z_div_mod m' (Zpos q) eq_refl) as Hd.
  destruct (Z.div_eucl m' (Zpos q)) as [d r].
  apply binary_round_aux_not_nan. nia.
Qed.

Lemma float_of_Decimal_not_nan (d : Decimal) :
  float_of_Decimal d <> S754_nan.
Proof.
  unfold float_of_Decimal.
  destruct (dec_coeff d); try discriminate.
  destruct (0 <=? dec_exp d); apply round_quotient_not_nan.
Qed.

End float_facts.

(** ** The clamp and the rounding of [parse_rating] *)

Module rating_facts.

Import pynum parsers steps.

Lemma round_half_even_bounds (p q b : Z) :
  0 <= p -> 0 < q -> p <= b * q ->
  0 <= round_half_even p q <= b.
Proof.
  intros Hp Hq Hb. unfold round_half_even.
  pose proof (Z.div_mod p q ltac:(lia)) as Hd.
  pose proof (Z.mod_pos_bound p q Hq) as Hr.
  assert (H0 : 0 <= p / q) by (apply Z.div_pos; lia).
  assert (Hle : p / q <= b) by (apply Z.div_le_upper_bound; lia).
  destruct (Z.eq_dec (p / q) b) as [E | E].
  - assert (Hz : p mod q = 0) by nia.
    assert (C : (2 * (p mod q) ?= q) = Lt) by (apply Z.compare_lt_iff; lia).
    rewrite C. lia.
  - destruct (2 * (p mod q) ?= q); [destruct (Z.even (p / q)) | |]; lia.
Qed.

(** The floats of 0.0, 0.1, ..., 5.0 are within [0, 5]. *)
Lemma tenths_in_range (n : Z) :
  0 <= n <= 50 ->
  in_rating_range (float_of_Decimal (mkDecimal false n (-1))).
Proof.
  intros Hn.
  assert (Hall :
    forallb (fun k =>
               let v := float_of_Decimal
                          (mkDecimal false (Z.of_nat k) (-1)) in
               ge_int v 0 && le_int v 5) (seq 0 51) = true)
    by (vm_compute; reflexivity).
  rewrite forallb_forall in Hall.
  specialize (Hall (Z.to_nat n)).
  rewrite Z2Nat.id in Hall by lia.
  apply andb_prop. apply Hall. apply in_seq. lia.
Qed.

Lemma clamp_round_five : clamp_round float_5_0 = float_5_0.
Proof. vm_compute. reflexivity. Qed.

Lemma five_is_tenths :
  float_5_0 = float_of_Decimal (mkDecimal false 50 (-1)).
Proof. reflexivity. Qed.

Lemma pos_mul_pow2 (m : positive) (e : Z) :
  0 <= e -> 0 < Z.pos m * 2 ^ e.
Proof.
  intros He. apply Z.mul_pos_pos; [lia |].
  apply Z.pow_pos_nonneg; lia.
Qed.

Lemma clamp_round_tenths (val : float) :
  val <> S754_nan ->
  exists s n, 0 <= n <= 50 /\ (s = true -> n = 0) /\
              clamp_round val = float_of_Decimal (mkDecimal s n (-1)).
Proof.
  intros Hnan.
  destruct val as [s | s | | s m e].
  - (* a zero stays, with its sign *)
    exists s, 0. repeat split; lia.
  - (* an infinity is clamped *)
    destruct s.
    + exists false, 0. repeat split; try lia; try discriminate.
    + exists false, 50. repeat split; try lia; try discriminate.
  - contradiction.
  - destruct s.
    + (* negative: clamped to 0.0 *)
      exists false, 0. repeat split; try lia; try discriminate.
      unfold clamp_round, lt_int, compare_int. simpl cond_Zopp.
      replace (if 0 <=? e then Z.neg m * 2 ^ e ?= 0
               else Z.neg m ?= 0 * 2 ^ (- e)) with Lt; [reflexivity |].
      destruct (0 <=? e) eqn:He.
      * symmetry. apply Z.compare_lt_iff.
        apply Z.leb_le in He.
        pose proof (pos_mul_pow2 m e He).
        change (Z.neg m) with (- Z.pos m). lia.
      * reflexivity.
    + unfold clamp_round.
      assert (Hlt : lt_int (S754_finite false m e) 0 = false).
      { unfold lt_int, compare_int. simpl cond_Zopp.
        destruct (0 <=? e) eqn:He.
        - apply Z.leb_le in He.
          pose proof (pos_mul_pow2 m e He).
          destruct (Z.pos m * 2 ^ e ?= 0) eqn:C; try reflexivity.
          apply -> Z.compare_lt_iff in C. lia.
        - reflexivity. }
      rewrite Hlt. cbv zeta.
      destruct (gt_int (S754_finite false m e) 5) eqn:Hgt.
      * exists false, 50. repeat split; try lia; try discriminate.
      * exists false.
        unfold gt_int, compare_int in Hgt. simpl cond_Zopp in Hgt.
        unfold py_round. change (10 ^ Z.of_nat 1) with 10.
        change (- Z.of_nat 1) with (-1).
        destruct (0 <=? e) eqn:He.
        -- apply Z.leb_le in He.
           pose proof (pos_mul_pow2 m e He).
           exists (Z.pos m * 10 * 2 ^ e).
           assert (Z.pos m * 2 ^ e <= 5).
           { destruct (Z.pos m * 2 ^ e ?= 5) eqn:C; try discriminate.
             - apply -> Z.compare_eq_iff in C. lia.
             - apply -> Z.compare_lt_iff in C. lia. }
           repeat split; try discriminate; try lia.
        -- apply Z.leb_gt in He.
           pose proof (Z.pow_pos_nonneg 2 (- e) ltac:(lia) ltac:(lia)).
           assert (Hm : Z.pos m <= 5 * 2 ^ (- e)).
           { destruct (Z.pos m ?= 5 * 2 ^ (- e)) eqn:C; try discriminate.
             - apply -> Z.compare_eq_iff in C. lia.
             - apply -> Z.compare_lt_iff in C. lia. }
           pose proof (round_half_even_bounds (Z.pos m * 10) (2 ^ (- e)) 50
                         ltac:(lia) H ltac:(lia)) as Hb.
           exists (round_half_even (Z.pos m * 10) (2 ^ (- e))).
           repeat split; try discriminate; lia.
Qed.

Lemma clamp_round_ok (val : float) :
  val <> S754_nan ->
  in_rating_range (clamp_round val) /\ one_decimal (clamp_round val).
Proof.
  intros H. destruct (clamp_round_tenths val H) as (s & n & Hn & Hs & E).
  rewrite E. split.
  - destruct s.
    + rewrite (Hs eq_refl). vm_compute. auto.
    + now apply tenths_in_range.
  - now exists s, n.
Qed.

(** A float below 0 is not above 5. *)
Lemma lt_zero_not_gt_five (val : float) :
  lt_int val 0 = true -> gt_int val 5 = false.
Proof.
  unfold lt_int, gt_int, compare_int.
  destruct val as [s | s | | s m e]; try discriminate.
  - now destruct s.
  - destruct (Z.leb_spec 0 e) as [He | He].
    + assert (P : 0 < 2 ^ e) by (apply Z.pow_pos_nonneg; lia).
      destruct (Z.compare_spec (cond_Zopp s (Zpos m) * 2 ^ e) 0);
        try discriminate.
      destruct (Z.compare_spec (cond_Zopp s (Zpos m) * 2 ^ e) 5);
        try reflexivity; lia.
    + assert (P : 0 < 2 ^ (- e)) by (apply Z.pow_pos_nonneg; lia).
      destruct (Z.compare_spec (cond_Zopp s (Zpos m)) (0 * 2 ^ (- e)));
        try discriminate.
      destruct (Z.compare_spec (cond_Zopp s (Zpos m)) (5 * 2 ^ (- e)));
        try reflexivity; lia.
Qed.

(** The clamp, case by case: below 0, above 5, in between. *)
Lemma clamp_round_cases (val : float) :
  (lt_int val 0 = true -> clamp_round val = float_0_0) /\
  (gt_int val 5 = true -> clamp_round val = float_5_0) /\
  (lt_int val 0 = false -> gt_int val 5 = false ->
   clamp_round val = py_round val 1).
Proof.
  unfold clamp_round. split; [| split].
  - intros H. rewrite H. reflexivity.
  - intros H. destruct (lt_int val 0) eqn:L.
    + apply lt_zero_not_gt_five in L. congruence.
    + rewrite H. exact clamp_round_five.
  - intros L G. now rewrite L, G.
Qed.

End rating_facts.

(** ** Texts without a digit, and the two patterns *)

Module text_facts.

Import pystr pynum parsers.

Lemma has_digit_app (a b : string) :
  has_digit (a ++ b) = has_digit a || has_digit b.
Proof.
  induction a as [| c a IH]; simpl; [reflexivity |].
  now rewrite IH, orb_assoc.
Qed.

Lemma no_digit_lstrip (s : string) :
  has_digit s = false -> has_digit (lstrip s) = false.
Proof.
  induction s as [| c s IH]; simpl; intros H; [reflexivity |].
  apply orb_false_elim in H as [Hc Hs].
  destruct (isspace c); simpl; auto. now rewrite Hc.
Qed.

Lemma no_digit_rstrip (s : string) :
  has_digit s = false -> has_digit (rstrip s) = false.
Proof.
  induction s as [| c s IH]; simpl; intros H; [reflexivity |].
  apply orb_false_elim in H as [Hc Hs]. specialize (IH Hs).
  destruct (rstrip s) as [| c' t].
  - destruct (isspace c); simpl; auto. now rewrite Hc.
  - simpl in *. now rewrite Hc.
Qed.

Lemma no_digit_strip (s : string) :
  has_digit s = false -> has_digit (strip s) = false.
Proof.
  intros H. unfold strip. now apply no_digit_rstrip, no_digit_lstrip.
Qed.

Lemma no_digit_replace_char (a : ascii) (b s : string) :
  has_digit b = false -> has_digit s = false ->
  has_digit (replace_char a b s) = false.
Proof.
  intros Hb. induction s as [| c s IH]; simpl; intros H; [reflexivity |].
  apply orb_false_elim in H as [Hc Hs].
  destruct (Ascii.eqb c a).
  - rewrite has_digit_app, Hb. simpl. auto.
  - simpl. rewrite Hc. simpl. auto.
Qed.

(** A pattern that needs a digit right after an optional sign does not
    match where the text has no digit. *)
Lemma money_no_match_at {A : Type} (s : string) (k : string -> option A) :
  has_digit s = false -> re.match_at _money_re s k = None.
Proof.
  intros H. unfold _money_re. simpl.
  destruct s as [| c s]; simpl; [reflexivity |].
  simpl in H. apply orb_false_elim in H as [Hc Hs].
  rewrite Hc.
  destruct (is_sign c); [| reflexivity].
  destruct s as [| c' s]; simpl; [reflexivity |].
  simpl in Hs. apply orb_false_elim in Hs as [Hc' _].
  now rewrite Hc'.
Qed.

Lemma int_no_match_at {A : Type} (s : string) (k : string -> option A) :
  has_digit s = false -> re.match_at _int_re s k = None.
Proof.
  intros H. unfold _int_re, re.Plus. simpl.
  destruct s as [| c s]; simpl; [reflexivity |].
  simpl in H. apply orb_false_elim in H as [Hc _]. now rewrite Hc.
Qed.

Lemma search_unfold (r : re.regex) (s : string) :
  re.search r s =
  match re.match_at r s Some with
  | Some rest => Some (re.take (String.length s - String.length rest) s)
  | None =>
      match s with
      | String _ s' => re.search r s'
      | EmptyString => None
      end
  end.
Proof. destruct s; reflexivity. Qed.

Lemma money_search_none (s : string) :
  has_digit s = false -> re.search _money_re s = None.
Proof.
  induction s as [| c s IH]; intros H.
  - reflexivity.
  - rewrite search_unfold, (money_no_match_at _ _ H).
    simpl in H. apply orb_false_elim in H as [_ Hs]. auto.
Qed.

Lemma int_search_none (s : string) :
  has_digit s = false -> re.search _int_re s = None.
Proof.
  induction s as [| c s IH]; intros H.
  - reflexivity.
  - rewrite search_unfold, (int_no_match_at _ _ H).
    simpl in H. apply orb_false_elim in H as [_ Hs]. auto.
Qed.

(** Where the continuation always answers, so do a star and an option. *)
Lemma star_match_total {A : Type} (p : ascii -> bool)
  (k : string -> option A) :
  (forall s, exists r, k s = Some r) ->
  forall s, exists r, re.star_match p s k = Some r.
Proof.
  intros Hk. induction s as [| c s [r IH]]; simpl; [apply Hk |].
  destruct (p c); [| apply Hk]. rewrite IH. eauto.
Qed.

Lemma digit_not_sign (c : ascii) : isdigit c = true -> is_sign c = false.
Proof.
  intros H. unfold is_sign.
  destruct (Ascii.eqb_spec c "-") as [-> | _]; [discriminate H |].
  destruct (Ascii.eqb_spec c "+") as [-> | _]; [discriminate H |].
  reflexivity.
Qed.

Lemma money_match_at_digit (c : ascii) (s : string) :
  isdigit c = true ->
  exists rest, re.match_at _money_re (String c s) Some = Some rest.
Proof.
  intros Hc. unfold _money_re. simpl.
  rewrite (digit_not_sign c Hc), Hc.
  apply star_match_total. intros s1.
  assert (Hd : exists r, re.star_match isdigit s1 Some = Some r)
    by (apply star_match_total; eauto).
  destruct s1 as [| c1 s1']; [exact Hd |].
  destruct (is_dot c1); [| exact Hd].
  destruct (star_match_total isdigit Some
              (fun s => ex_intro _ s eq_refl) s1') as [r ->].
  eauto.
Qed.

Lemma int_match_at_digit (c : ascii) (s : string) :
  isdigit c = true ->
  exists rest, re.match_at _int_re (String c s) Some = Some rest.
Proof.
  intros Hc. unfold _int_re, re.Plus. simpl. rewrite Hc.
  apply star_match_total. eauto.
Qed.

(** A text has a match of either pattern exactly when it has a digit. *)
Lemma money_search_some (s : string) :
  has_digit s = true -> exists g, re.search _money_re s = Some g.
Proof.
  induction s as [| c s IH]; intros H; [discriminate |].
  rewrite search_unfold.
  destruct (re.match_at _money_re (String c s) Some) as [rest |] eqn:E;
    [eauto |].
  simpl in H. destruct (isdigit c) eqn:Hc.
  - destruct (money_match_at_digit c s Hc) as [rest E']. congruence.
  - auto.
Qed.

Lemma int_search_some (s : string) :
  has_digit s = true -> exists g, re.search _int_re s = Some g.
Proof.
  induction s as [| c s IH]; intros H; [discriminate |].
  rewrite search_unfold.
  destruct (re.match_at _int_re (String c s) Some) as [rest |] eqn:E;
    [eauto |].
  simpl in H. destruct (isdigit c) eqn:Hc.
  - destruct (int_match_at_digit c s Hc) as [rest E']. congruence.
  - auto.
Qed.

Lemma no_match_iff_no_digit (s : string) :
  (re.search _money_re s = None <-> has_digit s = false) /\
  (re.search _int_re s = None <-> has_digit s = false).
Proof.
  split; (split; [| first [apply money_search_none | apply int_search_none]]).
  - intros H. destruct (has_digit s) eqn:Hd; [| reflexivity].
    destruct (money_search_some s Hd) as [g Hg]. congruence.
  - intros H. destruct (has_digit s) eqn:Hd; [| reflexivity].
    destruct (int_search_some s Hd) as [g Hg]. congruence.
Qed.

(** What [Decimal] and [int] can raise. *)
Lemma py_Decimal_raises (s : string) (e : exn) :
  py_Decimal s = Raise e -> e = InvalidOperation.
Proof.
  unfold py_Decimal.
  destruct (split_sign s) as [sg s1].
  destruct (span_digits s1) as [ip s2].
  destruct (match s2 with
            | String "." t => span_digits t
            | _ => (EmptyString, s2)
            end) as [fp s3].
  destruct (is_empty s3 && negb (is_empty ip && is_empty fp)).
  - destruct (digits_value 0 (ip ++ fp)); congruence.
  - congruence.
Qed.

Lemma py_int_raises (s : string) (e : exn) :
  py_int s = Raise e -> e = ValueError.
Proof.
  unfold py_int.
  destruct (is_empty s); [congruence |].
  destruct (int_max_str_digits <? String.length s)%nat; [congruence |].
  destruct (digits_value 0 s); congruence.
Qed.

(** No exception leaves a parser. *)
Lemma parse_price_total (text : string) :
  exists r, parse_price text = Ok r.
Proof.
  unfold parse_price.
  destruct (is_empty (strip text)); [eauto |].
  destruct (re.search _money_re _) as [g1 |]; [| eauto].
  destruct (py_Decimal (replace_char "," "" g1)) as [d | e] eqn:E; simpl.
  - eauto.
  - apply py_Decimal_raises in E. subst e. simpl. eauto.
Qed.

Lemma parse_rating_cases (text : string) :
  parse_rating text = Ok None \/
  exists d, parse_rating text
            = Ok (Some (steps.clamp_round (float_of_Decimal d))).
Proof.
  unfold parse_rating.
  destruct (is_empty (strip text)); [auto |].
  destruct (re.search _money_re _) as [g1 |]; [| auto].
  destruct (py_Decimal g1) as [d | e] eqn:E; simpl.
  - right. exists d. reflexivity.
  - apply py_Decimal_raises in E. subst e. simpl. auto.
Qed.

Lemma parse_rating_total (text : string) :
  exists r, parse_rating text = Ok r.
Proof.
  destruct (parse_rating_cases text) as [H | [d H]]; rewrite H; eauto.
Qed.

Lemma parse_reviews_count_total (text : string) :
  exists r, parse_reviews_count text = Ok r.
Proof.
  unfold parse_reviews_count.
  destruct (is_empty (strip text)); [eauto |].
  destruct (re.search _int_re _) as [g1 |]; [| eauto].
  destruct (py_int g1) as [n | e] eqn:E; simpl.
  - eauto.
  - apply py_int_raises in E. subst e. simpl. eauto.
Qed.

Lemma parse_price_no_digit (text : string) :
  has_digit text = false -> parse_price text = Ok None.
Proof.
  intros H. unfold parse_price.
  destruct (is_empty (strip text)); [reflexivity |].
  rewrite money_search_none; [reflexivity |].
  apply no_digit_replace_char; [reflexivity |]. now apply no_digit_strip.
Qed.

Lemma parse_rating_no_digit (text : string) :
  has_digit text = false -> parse_rating text = Ok None.
Proof.
  intros H. unfold parse_rating.
  destruct (is_empty (strip text)); [reflexivity |].
  rewrite money_search_none; [reflexivity |]. now apply no_digit_strip.
Qed.

Lemma parse_reviews_count_no_digit (text : string) :
  has_digit text = false -> parse_reviews_count text = Ok None.
Proof.
  intros H. unfold parse_reviews_count.
  destruct (is_empty (strip text)); [reflexivity |].
  rewrite int_search_none; [reflexivity |].
  apply no_digit_replace_char; [reflexivity |]. now apply no_digit_strip.
Qed.

(** The parsers on the texts their docstrings name. *)
Example parse_price_dollars :
  parse_price "$1,299.99"
  = Ok (Some (float_of_Decimal (mkDecimal false 129999 (-2)))).
Proof. vm_compute. reflexivity. Qed.

Example parse_price_cad :
  parse_price "CAD 24.50"
  = Ok (Some (float_of_Decimal (mkDecimal false 245 (-1)))).
Proof. vm_compute. reflexivity. Qed.

Example parse_rating_out_of :
  parse_rating "4.6 out of 5"
  = Ok (Some (float_of_Decimal (mkDecimal false 46 (-1)))).
Proof. vm_compute. reflexivity. Qed.

Example parse_reviews_count_parens :
  parse_reviews_count "(1,024 reviews)" = Ok (Some 1024).
Proof. vm_compute. reflexivity. Qed.

End text_facts.

(** ** What a returned record is made of *)

Module card_facts.

Import pystr pynum parsers steps.

Tactic Notation "bind_inv" hyp(H) "as" ident(x) ident(E) :=
  apply bind_ok_inv in H as (x & E & H); cbv beta zeta in H.

Lemma parse_product_card_inv (driver : WebDriver) (card : WebElement)
  (selectors : Selectors) (r : ProductRecord) :
  parse_product_card driver card selectors = Ok r ->
  exists name_el nm sk st lt pl ps rtxt rt0 vtxt rv0 rt rv url,
    _find_optional card (product_name selectors) = Ok name_el /\
    match name_el with
    | Some el => get_text_content driver el
    | None => Ok ""
    end = Ok nm /\
    extract_value card (product_sku selectors) = Ok sk /\
    extract_value card (product_sale_price selectors) = Ok st /\
    extract_value card (product_list_price selectors) = Ok lt /\
    (if is_empty lt then Ok None else parse_price lt) = Ok pl /\
    (if is_empty st then Ok None else parse_price st) = Ok ps /\
    extract_value card (product_rating selectors) = Ok rtxt /\
    parse_rating rtxt = Ok rt0 /\
    extract_value card (product_reviews_count selectors) = Ok vtxt /\
    parse_reviews_count vtxt = Ok rv0 /\
    aria_fallback card selectors rt0 rv0 = Ok (rt, rv) /\
    link_step card = Ok url /\
    r = mkProductRecord (if is_empty sk then "UNKNOWN" else sk) nm pl
          match ps with
          | None => pl
          | Some _ => ps
          end rt rv url.
Proof.
  unfold parse_product_card. intros H.
  bind_inv H as name_el E1. bind_inv H as nm E2. bind_inv H as sk E3.
  bind_inv H as st E4. bind_inv H as lt E5. bind_inv H as pl E6.
  bind_inv H as ps E7. bind_inv H as rtxt E8. bind_inv H as rt0 E9.
  bind_inv H as vtxt E10. bind_inv H as rv0 E11. bind_inv H as rr E12.
  destruct rr as [rt rv]. bind_inv H as url E13.
  injection H as <-.
  exists name_el, nm, sk, st, lt, pl, ps, rtxt, rt0, vtxt, rv0, rt, rv, url.
  repeat (split; [assumption |]). reflexivity.
Qed.




Section NoFault.

Variables (driver : WebDriver) (card : WebElement).

(** The reads [parse_product_card] does not guard do not fault. *)
Hypothesis card_attributes :
  forall a, exists v, get_attribute card a = Ok v.
Hypothesis found_elements :
  forall sel el,
    find_element card sel = Ok el ->
    (exists t, text el = Ok t) /\
    (exists v, get_attribute el "aria-label" = Ok v).





End NoFault.

End card_facts.

(** ** Masks, counters and the validator *)

Module validation_facts.

Import validations.

Lemma mask_or_map {A : Type} (f g : A -> bool) (l : list A) :
  mask_or (map f l) (map g l) = map (fun x => f x || g x) l.
Proof.
  induction l as [| x l IH]; simpl; [reflexivity | now rewrite IH].
Qed.

Lemma mask_and_map {A : Type} (f g : A -> bool) (l : list A) :
  mask_and (map f l) (map g l) = map (fun x => f x && g x) l.
Proof.
  induction l as [| x l IH]; simpl; [reflexivity | now rewrite IH].
Qed.

Lemma mask_sum_map (f : Row -> bool) (l : list Row) :
  mask_sum (map f l) = count_rows f l.
Proof.
  unfold count_rows.
  induction l as [| x l IH]; simpl; [reflexivity |].
  rewrite IH. destruct (f x); simpl List.length; lia.
Qed.

Lemma loc_not_map (f : Row -> bool) (l : list Row) :
  loc l (mask_not (map f l)) = filter (fun r => negb (f r)) l.
Proof.
  unfold mask_not.
  induction l as [| x l IH]; simpl; [reflexivity |].
  rewrite IH. reflexivity.
Qed.

Lemma count_rows_nonneg (f : Row -> bool) (l : list Row) :
  0 <= count_rows f l.
Proof. unfold count_rows. lia. Qed.

(** The rows that trigger [f] and those that do not make up the batch. *)
Lemma count_rows_split (f : Row -> bool) (l : list Row) :
  Z.of_nat (List.length (filter (fun r => negb (f r)) l)) + count_rows f l
  = Z.of_nat (List.length l).
Proof.
  unfold count_rows.
  induction l as [| x l IH]; simpl; [reflexivity |].
  destruct (f x); simpl List.length; lia.
Qed.

Lemma count_rows_app (f : Row -> bool) (l1 l2 : list Row) :
  count_rows f (l1 ++ l2) = count_rows f l1 + count_rows f l2.
Proof.
  unfold count_rows. rewrite filter_app, length_app. lia.
Qed.

Lemma count_rows_cons (f : Row -> bool) (r : Row) (l : list Row) :
  count_rows f (r :: l) = (if f r then 1 else 0) + count_rows f l.
Proof.
  unfold count_rows. simpl. destruct (f r); simpl List.length; lia.
Qed.

Lemma dict_get_set (d : dict) (k k' : string) (v x : Z) :
  dict_get (dict_set d k v) k' x
  = if String.eqb k k' then v else dict_get d k' x.
Proof.
  induction d as [| [k0 v0] d IH]; simpl.
  - reflexivity.
  - destruct (String.eqb_spec k0 k) as [-> | Hne]; simpl.
    + destruct (String.eqb k k'); reflexivity.
    + rewrite IH.
      destruct (String.eqb_spec k0 k') as [-> | Hne'];
        [| reflexivity].
      destruct (String.eqb_spec k k') as [-> | _]; [congruence | reflexivity].
Qed.

Lemma dict_get_add_reason (d : dict) (f : Row -> bool) (l : list Row)
  (k k' : string) :
  dict_get (add_reason d (map f l) k) k' 0
  = dict_get d k' 0 + (if String.eqb k k' then count_rows f l else 0).
Proof.
  unfold add_reason. rewrite mask_sum_map.
  pose proof (count_rows_nonneg f l) as Hc.
  destruct (0 <? count_rows f l) eqn:E.
  - rewrite dict_get_set.
    destruct (String.eqb_spec k k') as [-> | _]; lia.
  - apply Z.ltb_ge in E.
    destruct (String.eqb k k'); lia.
Qed.

Lemma text_invalid_map (cell : Row -> option string) (l : list Row) :
  text_invalid (map cell l)
  = map (fun r => isna (cell r)
                  || String.eqb (pystr.strip (astype_str (cell r))) "") l.
Proof.
  unfold text_invalid. rewrite !map_map. apply mask_or_map.
Qed.

Lemma mask_or_if (b : bool) (f g : Row -> bool) (l : list Row) :
  (if b then mask_or (map f l) (map g l) else map f l)
  = map (fun r => f r || b && g r) l.
Proof.
  destruct b.
  - apply mask_or_map.
  - apply map_ext. intros r. now rewrite orb_false_r.
Qed.

Lemma dict_get_add_reason_if (b : bool) (d : dict) (f : Row -> bool)
  (l : list Row) (k k' : string) :
  dict_get (if b then add_reason d (map f l) k else d) k' 0
  = dict_get d k' 0 + (if b && String.eqb k k' then count_rows f l else 0).
Proof.
  destruct b; simpl; [apply dict_get_add_reason | lia].
Qed.

Lemma count_rows_ext (f g : Row -> bool) (l : list Row) :
  (forall r, f r = g r) -> count_rows f l = count_rows g l.
Proof.
  intros H. unfold count_rows. now rewrite (filter_ext f g H).
Qed.

Lemma triggers_any_unfold (df : DataFrame) (r : Row) :
  triggers_any df r
  = has_column df "name" && name_rule r
    || (has_column df "sku" && sku_rule r
        || (has_column df "price_list" && price_list_rule r
            || (has_column df "price_sale" && price_sale_rule r
                || (has_column df "rating" && rating_rule r
                    || (has_column df "reviews_count" && reviews_rule r
                        || false))))).
Proof. reflexivity. Qed.

(** The frame and the report [validate_products] returns, rule by rule. *)
Lemma validate_products_eq (df : DataFrame) :
  has_column df "name" = true ->
  has_column df "sku" = true ->
  exists reasons,
    validate_products df
    = Ok (mkDataFrame (columns df)
            (filter (fun r => negb (triggers_any df r)) (rows df)),
          mkValidationReport
            (Z.of_nat (List.length (rows df)))
            (Z.of_nat (List.length
               (filter (fun r => negb (triggers_any df r)) (rows df))))
            (count_rows (triggers_any df) (rows df))
            reasons) /\
    forall reason rule,
      In (reason, rule) rules ->
      dict_get reasons reason 0
      = if has_column df (rule_column reason)
        then count_rows rule (rows df) else 0.
Proof.
  intros Hname Hsku.
  unfold validate_products, column. rewrite Hname, Hsku. simpl bind.
  destruct (has_column df "price_list") eqn:Hpl,
    (has_column df "price_sale") eqn:Hps,
    (has_column df "rating") eqn:Hrt,
    (has_column df "reviews_count") eqn:Hrv;
    cbv zeta;
    rewrite !text_invalid_map;
    repeat rewrite ?mask_and_map, ?mask_or_map;
    rewrite loc_not_map, mask_sum_map;
    match goal with
    | |- exists _, Ok (_, mkValidationReport _ _ (count_rows ?F _) _) = _
                   /\ _ =>
        assert (HF : forall r, F r = triggers_any df r)
          by (intros r;
              rewrite triggers_any_unfold, Hname, Hsku, Hpl, Hps, Hrt, Hrv;
              unfold name_rule, sku_rule, price_list_rule, price_sale_rule,
                rating_rule, reviews_rule;
              btauto);
        rewrite (count_rows_ext F (triggers_any df) (rows df) HF);
        rewrite (filter_ext (fun r => negb (F r))
                   (fun r => negb (triggers_any df r))
                   (fun r => f_equal negb (HF r)))
    end;
    (eexists; split; [reflexivity |]);
    intros reason rule Hin;
    rewrite !dict_get_add_reason;
    change (dict_get [] reason 0) with 0;
    simpl in Hin;
    destruct Hin as [E | [E | [E | [E | [E | [E | []]]]]]];
    injection E as <- <-;
    change (rule_column "invalid_name") with "name";
    change (rule_column "invalid_sku") with "sku";
    change (rule_column "invalid_price_list") with "price_list";
    change (rule_column "invalid_price_sale") with "price_sale";
    change (rule_column "invalid_rating") with "rating";
    change (rule_column "invalid_reviews_count") with "reviews_count";
    rewrite ?Hname, ?Hsku, ?Hpl, ?Hps, ?Hrt, ?Hrv;
    simpl String.eqb;
    unfold name_rule, sku_rule, price_list_rule, price_sale_rule,
      rating_rule, reviews_rule;
    lia.
Qed.

End validation_facts.

(** ** The crawl loop *)

Module crawl_facts.

Import pynum parsers run_scraper.

Lemma pages_scraped_app (l1 l2 : log) :
  pages_scraped (l1 ++ l2)%list = pages_scraped l1 + pages_scraped l2.
Proof.
  unfold pages_scraped. rewrite filter_app, length_app. lia.
Qed.

Lemma pages_scraped_one (r : log_record) :
  pages_scraped [r] = if is_page_record r then 1 else 0.
Proof.
  unfold pages_scraped. simpl. now destruct (is_page_record r).
Qed.

Lemma pages_scraped_nonneg (lg : log) : 0 <= pages_scraped lg.
Proof. unfold pages_scraped. lia. Qed.

(** The card loop appends the accepted records of the cards that parsed. *)
Lemma scrape_cards_results (driver : WebDriver) (selectors : Selectors)
  (cards : list WebElement) :
  forall results lg,
    fst (scrape_cards driver selectors cards results lg)
    = (results ++ filter accepted (parsed_records driver selectors cards))%list.
Proof.
  induction cards as [| card rest IH]; intros results lg; simpl.
  - now rewrite app_nil_r.
  - destruct (parse_product_card driver card selectors) as [record | e].
    + simpl filter. destruct (accepted record).
      * rewrite IH, <- app_assoc. reflexivity.
      * apply IH.
    + apply IH.
Qed.

(** It logs warnings only. *)
Lemma scrape_cards_pages (driver : WebDriver) (selectors : Selectors)
  (cards : list WebElement) :
  forall results lg,
    pages_scraped (snd (scrape_cards driver selectors cards results lg))
    = pages_scraped lg.
Proof.
  induction cards as [| card rest IH]; intros results lg; simpl.
  - reflexivity.
  - destruct (parse_product_card driver card selectors) as [record | e].
    + destruct (accepted record); apply IH.
    + rewrite IH, pages_scraped_app, pages_scraped_one. simpl. lia.
Qed.

(** Each page still to come is entered at most once. *)
Lemma scrape_pages_bound (max_pages : Z) (sleep_s : float)
  (selectors : Selectors) (pages : list Z) :
  forall driver results lg,
    pages_scraped
      (fst (scrape_pages pages max_pages sleep_s selectors driver results lg))
    <= pages_scraped lg + Z.of_nat (List.length pages).
Proof.
  induction pages as [| page later IH]; intros driver results lg.
  - simpl. lia.
  - cbn [scrape_pages].
    set (lg1 := (lg ++ _)%list).
    assert (H1 : pages_scraped lg1 = pages_scraped lg + 1)
      by (subst lg1; now rewrite pages_scraped_app, pages_scraped_one).
    destruct (wait_presence driver (product_card selectors)) as [[] | e];
      [| cbn [fst]; simpl List.length; lia].
    destruct (driver_find_elements driver (product_card selectors))
      as [cards | e]; [| cbn [fst]; simpl List.length; lia].
    set (lg2 := (lg1 ++ _)%list).
    assert (H2 : pages_scraped lg2 = pages_scraped lg + 1)
      by (subst lg2; rewrite pages_scraped_app, pages_scraped_one, H1;
          simpl; lia).
    pose proof (scrape_cards_pages driver selectors cards results lg2) as H3.
    destruct (scrape_cards driver selectors cards results lg2)
      as [results' lg3].
    cbn [snd] in H3.
    assert (Hstop : forall msg,
               is_page_record (INFO msg []) = false ->
               pages_scraped (lg3 ++ [INFO msg []])%list
               <= pages_scraped lg + Z.of_nat (List.length (page :: later))).
    { intros msg Hmsg.
      rewrite pages_scraped_app, pages_scraped_one, Hmsg, H3, H2.
      simpl List.length. lia. }
    destruct (page =? 0); [now apply Hstop |].
    destruct (driver_find_element driver (next_page_button selectors))
      as [btn | e]; [| now apply Hstop].
    destruct (catch _ Exception (Ok None)) as [[driver' |] | e];
      try (now apply Hstop).
    specialize (IH driver' results' lg3). simpl List.length. lia.
Qed.

Lemma range_length (a b : Z) :
  Z.of_nat (List.length (range a b)) = Z.max 0 (b - a).
Proof.
  unfold range. rewrite length_map, length_seq. lia.
Qed.

End crawl_facts.

(** * The claims *)

Import pystr pynum parsers examples.

(** C1. When the primary selectors leave the rating or the review count
    absent and the fallback element is found, the extractor reads its
    [aria-label] as one text and runs [parse_rating] and
    [parse_reviews_count] over it, each only if its value is still absent; a
    value the primary selector gave is kept.  On the label
    "4.6 out of 5 stars, 812 reviews" this yields rating 4.6 and review count
    4: the first run of digits of the label is the "4" of "4.6", and that is
    what [parse_reviews_count] reads, not 812. *)
Theorem fallback_label_rerun :
  (forall driver card selectors r rtxt vtxt a l,
      parse_product_card driver card selectors = Ok r ->
      extract_value card (product_rating selectors) = Ok rtxt ->
      extract_value card (product_reviews_count selectors) = Ok vtxt ->
      find_element card (bv_aria_source selectors) = Ok a ->
      get_attribute a "aria-label" = Ok l ->
      (parse_rating rtxt = Ok None ->
       parse_rating (strip (or_empty l)) = Ok (rating r)) /\
      (parse_reviews_count vtxt = Ok None ->
       parse_reviews_count (strip (or_empty l)) = Ok (reviews_count r)) /\
      (forall v, parse_rating rtxt = Ok (Some v) -> rating r = Some v) /\
      (forall n, parse_reviews_count vtxt = Ok (Some n) ->
                 reviews_count r = Some n)) /\
  (forall driver,
      parse_product_card driver card_fallback_label default_selectors
      = Ok (mkProductRecord "UNKNOWN" "Bench Vise" None None
              (Some (float_of_Decimal (mkDecimal false 46 (-1))))
              (Some 4) "")) /\
  parse_reviews_count "4.6 out of 5 stars, 812 reviews" = Ok (Some 4).
Proof.
  split; [| split].
  - intros driver card selectors r rtxt vtxt a l H Hr Hv Ha Hl.
    apply card_facts.parse_product_card_inv in H
      as (name_el & nm & sk & st & lt & pl & ps & rtxt' & rt0 & vtxt' & rv0
          & rt & rv & url & _ & _ & _ & _ & _ & _ & _ & Hr' & Hrt & Hv'
          & Hrv & Hfb & _ & ->).
    rewrite Hr in Hr'. injection Hr' as <-.
    rewrite Hv in Hv'. injection Hv' as <-.
    simpl rating. simpl reviews_count.
    rewrite Hrt, Hrv.
    assert (Hfb' :
      (rating <- if_not_none rt0 (parse_rating (strip (or_empty l))) ;;
       reviews_count <-
         if_not_none rv0 (parse_reviews_count (strip (or_empty l))) ;;
       Ok (rating, reviews_count)) = Ok (rt, rv)).
    { unfold steps.aria_fallback, _find_optional in Hfb.
      rewrite Ha in Hfb. simpl in Hfb. rewrite Hl in Hfb. simpl in Hfb.
      destruct rt0, rv0; exact Hfb. }
    clear Hfb.
    destruct (if_not_none rt0 _) as [x | e] eqn:Ex; [| discriminate].
    simpl in Hfb'.
    destruct (if_not_none rv0 _) as [y | e] eqn:Ey; [| discriminate].
    simpl in Hfb'. injection Hfb' as -> ->.
    repeat split.
    + intros [= ->]. exact Ex.
    + intros [= ->]. exact Ey.
    + intros v [= ->]. simpl in Ex. congruence.
    + intros n [= ->]. simpl in Ey. congruence.
  - intros driver. vm_compute. reflexivity.
  - vm_compute. reflexivity.
Qed.

(** C8. [parse_price], [parse_rating] and [parse_reviews_count] are total
    functions of the text: each returns, and no exception leaves it; on a
    text with no numeric substring each returns none.  A text has no numeric
    substring (no match of the numeric or of the integer pattern) exactly
    when it has no digit. *)
Theorem parsers_total_none_without_digit :
  (forall text, exists r, parse_price text = Ok r) /\
  (forall text, exists r, parse_rating text = Ok r) /\
  (forall text, exists r, parse_reviews_count text = Ok r) /\
  (forall text,
      has_digit text = false ->
      parse_price text = Ok None /\
      parse_rating text = Ok None /\
      parse_reviews_count text = Ok None) /\
  (forall text,
      (re.search _money_re text = None <-> has_digit text = false) /\
      (re.search _int_re text = None <-> has_digit text = false)).
Proof.
  split; [| split; [| split; [| split]]].
  - apply text_facts.parse_price_total.
  - apply text_facts.parse_rating_total.
  - apply text_facts.parse_reviews_count_total.
  - intros text H. split; [| split].
    + now apply text_facts.parse_price_no_digit.
    + now apply text_facts.parse_rating_no_digit.
    + now apply text_facts.parse_reviews_count_no_digit.
  - apply text_facts.no_match_iff_no_digit.
Qed.

Lemma parsers_total_none_without_digit_witness :
  parse_price "call for price" = Ok None /\
  parse_rating "call for price" = Ok None /\
  parse_reviews_count "call for price" = Ok None.
Proof.
  apply (proj1 (proj2 (proj2 (proj2 parsers_total_none_without_digit)))).
  reflexivity.
Defined.

(** C4. A returned record never has its sale price absent while its list
    price is present: when the sale-price text is empty or parses to nothing,
    the parsed list price takes its place. *)
Theorem price_sale_falls_back_to_list (driver : WebDriver)
  (card : WebElement) (selectors : Selectors) (r : ProductRecord) :
  parse_product_card driver card selectors = Ok r ->
  (price_sale r = None -> price_list r = None) /\
  exists st ps,
    extract_value card (product_sale_price selectors) = Ok st /\
    (if is_empty st then Ok None else parse_price st) = Ok ps /\
    price_sale r = match ps with
                   | None => price_list r
                   | Some _ => ps
                   end.
Proof.
  intros H.
  apply card_facts.parse_product_card_inv in H
    as (name_el & nm & sk & st & lt & pl & ps & rtxt & rt0 & vtxt & rv0
        & rt & rv & url & _ & _ & _ & Hst & _ & _ & Hps & _ & _ & _ & _
        & _ & _ & ->).
  simpl. split.
  - destruct ps; [discriminate | auto].
  - exists st, ps. auto.
Qed.

(** The card with an empty sale-price text and the list-price text "$10.00":
    both prices are 10.0. *)
Lemma price_sale_falls_back_to_list_witness :
  let r := mkProductRecord "UNKNOWN" "Bench Vise"
             (Some (float_of_int 10)) (Some (float_of_int 10))
             None None "" in
  parse_product_card (page [] None) card_list_price_only default_selectors
  = Ok r /\
  price_sale r = price_list r /\
  (price_sale r = None -> price_list r = None).
Proof.
  assert (E : parse_product_card (page [] None) card_list_price_only
                default_selectors
              = Ok (mkProductRecord "UNKNOWN" "Bench Vise"
                      (Some (float_of_int 10)) (Some (float_of_int 10))
                      None None ""))
    by (vm_compute; reflexivity).
  cbv zeta. split; [exact E |]. split; [reflexivity |].
  exact (proj1 (price_sale_falls_back_to_list _ _ _ _ E)).
Defined.






Import run_scraper.

(** C5. The crawl loop enters at most [max_pages] pages, whatever the
    pagination control does; with a cap of 1 it scrapes exactly one page, the
    one the start URL opens, and returns the accepted records of its cards,
    whether or not that page has a pagination control. *)
Theorem crawl_halts_at_page_cap :
  (forall build start_url selectors max_pages sleep_s,
      pages_scraped
        (fst (scrape_listing build start_url selectors max_pages sleep_s))
      <= Z.max 0 max_pages) /\
  (forall browser first start_url selectors sleep_s cards,
      get browser start_url = Ok first ->
      wait_presence first (product_card selectors) = Ok tt ->
      driver_find_elements first (product_card selectors) = Ok cards ->
      let out :=
        scrape_listing (Ok browser) start_url selectors 1 sleep_s in
      snd out = Ok (filter accepted (parsed_records first selectors cards))
      /\ pages_scraped (fst out) = 1).
Proof.
  split.
  - intros build start_url selectors max_pages sleep_s.
    unfold scrape_listing.
    destruct build as [driver | e]; [| cbn; lia].
    cbv zeta.
    destruct (get driver start_url) as [first | e]; [| cbn; lia].
    pose proof (crawl_facts.scrape_pages_bound max_pages sleep_s selectors
                  (range 1 (max_pages + 1)) first []
                  [INFO "Opening: %s" [ArgStr start_url]]) as H.
    rewrite crawl_facts.range_length in H.
    change (pages_scraped [INFO "Opening: %s" [ArgStr start_url]])
      with 0 in H.
    lia.
  - intros browser first start_url selectors sleep_s cards Hget Hwait Hfind.
    unfold scrape_listing. cbv zeta. rewrite Hget.
    change (range 1 (1 + 1)) with [1].
    cbn [scrape_pages]. rewrite Hwait, Hfind.
    match goal with
    | |- context [scrape_cards first selectors cards [] ?lg] =>
        pose proof (crawl_facts.scrape_cards_results first selectors cards
                      [] lg) as Hres;
        pose proof (crawl_facts.scrape_cards_pages first selectors cards
                      [] lg) as Hlog;
        destruct (scrape_cards first selectors cards [] lg)
          as [results lg']
    end.
    cbn [fst snd] in Hres, Hlog. cbn [app] in Hres. subst results.
    rewrite !crawl_facts.pages_scraped_app in Hlog.
    rewrite !crawl_facts.pages_scraped_one in Hlog.
    cbn in Hlog.
    change (1 =? 0) with false. cbv iota.
    destruct (driver_find_element first (next_page_button selectors))
      as [btn | e].
    + destruct (catch _ Exception (Ok None)) as [[driver' |] | e];
        cbn [fst snd];
        rewrite ?crawl_facts.pages_scraped_app,
          ?crawl_facts.pages_scraped_one;
        cbn [is_page_record String.eqb]; (split; [reflexivity | ]);
        rewrite Hlog; reflexivity.
    + cbn [fst snd].
      rewrite crawl_facts.pages_scraped_app, crawl_facts.pages_scraped_one.
      split; [reflexivity |]. rewrite Hlog. reflexivity.
Qed.

(** A first page with two cards and a pagination control leading to a second
    page: with a cap of 1 only the first page is scraped. *)
Lemma crawl_halts_at_page_cap_witness :
  let out :=
    scrape_listing (Ok (browser page_one)) "https://shop.example/sale"
      default_selectors 1 float_1_0 in
  snd out
  = Ok (filter accepted
          (parsed_records page_one default_selectors
             [card_name_only; card_empty])) /\
  pages_scraped (fst out) = 1 /\
  snd out
  = Ok [mkProductRecord "UNKNOWN" "Bench Vise" None None None None ""].
Proof.
  cbv zeta.
  destruct (proj2 crawl_halts_at_page_cap (browser page_one) page_one
              "https://shop.example/sale" default_selectors float_1_0
              [card_name_only; card_empty] eq_refl eq_refl eq_refl)
    as [H1 H2].
  split; [exact H1 |]. split; [exact H2 |]. reflexivity.
Defined.

Import validations.

(** C10. The report agrees with the valid frame: [total_rows] is the number
    of input rows, [valid_rows] the number of rows of the valid frame,
    [valid_rows + invalid_rows = total_rows], and the valid frame holds, in
    their original order, exactly the input rows that trigger no rule.  (A
    frame without a [name] or [sku] column is not a batch of products:
    [validate_products] raises [KeyError] on it.) *)
Theorem report_consistent (df : DataFrame) :
  has_column df "name" = true ->
  has_column df "sku" = true ->
  exists valid report,
    validate_products df = Ok (valid, report) /\
    total_rows report = Z.of_nat (List.length (rows df)) /\
    valid_rows report = Z.of_nat (List.length (rows valid)) /\
    valid_rows report + invalid_rows report = total_rows report /\
    rows valid = filter (fun r => negb (triggers_any df r)) (rows df) /\
    columns valid = columns df.
Proof.
  intros Hname Hsku.
  destruct (validation_facts.validate_products_eq df Hname Hsku)
    as (reasons & E & _).
  do 2 eexists. split; [exact E |]. cbn.
  repeat split.
  apply validation_facts.count_rows_split.
Qed.

Lemma report_consistent_witness :
  exists report,
    validate_products
      (mkDataFrame record_columns [row_two_reasons; row_valid])
    = Ok (mkDataFrame record_columns [row_valid], report) /\
    total_rows report = 2 /\ valid_rows report = 1 /\
    invalid_rows report = 1.
Proof.
  destruct (report_consistent
              (mkDataFrame record_columns [row_two_reasons; row_valid])
              eq_refl eq_refl)
    as (valid & report & E & Ht & Hv & Hsum & Hrows & Hcols).
  exists report.
  destruct valid as [cols rs]. cbn in Hrows, Hcols. subst cols rs.
  split; [exact E |].
  cbn in Ht, Hv. rewrite Ht, Hv in Hsum. rewrite Ht, Hv.
  repeat split. lia.
Defined.

(** C2. A row is left out of the valid frame exactly when it triggers at
    least one rule; [invalid_rows] counts each such row once; and each reason
    counter is the number of rows that trigger its rule, whatever else those
    rows trigger.  So a row with [price_list = -5] and [rating = 6.0] and its
    other fields valid, added to a batch, adds 1 to [invalid_price_list], 1
    to [invalid_rating], 1 to [invalid_rows], and nothing to the valid
    frame. *)
Theorem reasons_counted_independently :
  (forall df,
      has_column df "name" = true ->
      has_column df "sku" = true ->
      exists valid report,
        validate_products df = Ok (valid, report) /\
        (forall r, In r (rows valid)
                   <-> In r (rows df) /\ triggers_any df r = false) /\
        invalid_rows report = count_rows (triggers_any df) (rows df) /\
        invalid_rows report
        = Z.of_nat (List.length (rows df))
          - Z.of_nat (List.length (rows valid)) /\
        (forall reason rule,
            In (reason, rule) rules ->
            has_column df (rule_column reason) = true ->
            dict_get (invalid_reasons report) reason 0
            = count_rows rule (rows df))) /\
  (forall before after,
      exists valid0 report0 valid1 report1,
        validate_products (mkDataFrame record_columns (before ++ after))
        = Ok (valid0, report0) /\
        validate_products
          (mkDataFrame record_columns (before ++ row_two_reasons :: after))
        = Ok (valid1, report1) /\
        dict_get (invalid_reasons report1) "invalid_price_list" 0
        = dict_get (invalid_reasons report0) "invalid_price_list" 0 + 1 /\
        dict_get (invalid_reasons report1) "invalid_rating" 0
        = dict_get (invalid_reasons report0) "invalid_rating" 0 + 1 /\
        invalid_rows report1 = invalid_rows report0 + 1 /\
        valid_rows report1 = valid_rows report0 /\
        rows valid1 = rows valid0).
Proof.
  split.
  - intros df Hname Hsku.
    destruct (validation_facts.validate_products_eq df Hname Hsku)
      as (reasons & E & Hreasons).
    do 2 eexists. split; [exact E |].
    cbn [rows invalid_rows invalid_reasons valid_rows total_rows columns].
    split; [| split; [| split]].
    + intros r. rewrite filter_In, negb_true_iff. reflexivity.
    + reflexivity.
    + pose proof (validation_facts.count_rows_split (triggers_any df)
                    (rows df)). lia.
    + intros reason rule Hin Hcol.
      rewrite (Hreasons reason rule Hin), Hcol. reflexivity.
  - intros before after.
    destruct (validation_facts.validate_products_eq
                (mkDataFrame record_columns (before ++ after))
                eq_refl eq_refl) as (reasons0 & E0 & H0).
    destruct (validation_facts.validate_products_eq
                (mkDataFrame record_columns
                   (before ++ row_two_reasons :: after))
                eq_refl eq_refl) as (reasons1 & E1 & H1).
    do 4 eexists. split; [exact E0 |]. split; [exact E1 |].
    cbn [rows invalid_rows invalid_reasons valid_rows total_rows columns].
    assert (Hin_pl : In ("invalid_price_list", price_list_rule) rules)
      by (simpl; tauto).
    assert (Hin_rt : In ("invalid_rating", rating_rule) rules)
      by (simpl; tauto).
    pose proof (H0 _ _ Hin_pl) as P0. pose proof (H1 _ _ Hin_pl) as P1.
    pose proof (H0 _ _ Hin_rt) as R0. pose proof (H1 _ _ Hin_rt) as R1.
    change (has_column _ (rule_column "invalid_price_list"))
      with true in P0, P1.
    change (has_column _ (rule_column "invalid_rating")) with true in R0, R1.
    cbv iota in P0, P1, R0, R1. cbn [rows] in P0, P1, R0, R1 |- *.
    rewrite P0, P1, R0, R1.
    assert (Hcols : forall rs1 rs2 r,
               triggers_any (mkDataFrame record_columns rs1) r
               = triggers_any (mkDataFrame record_columns rs2) r)
      by reflexivity.
    rewrite (filter_ext _ _
               (fun r => f_equal negb
                           (Hcols (before ++ row_two_reasons :: after)%list
                              (before ++ after)%list r))).
    rewrite (validation_facts.count_rows_ext _ _ _
               (Hcols (before ++ row_two_reasons :: after)%list
                  (before ++ after)%list)).
    rewrite !filter_app. cbn [filter].
    rewrite !validation_facts.count_rows_app,
      !validation_facts.count_rows_cons.
    change (price_list_rule row_two_reasons) with true.
    change (rating_rule row_two_reasons) with true.
    change (triggers_any (mkDataFrame record_columns (before ++ after))
              row_two_reasons) with true.
    cbn [negb]. rewrite <- !filter_app.
    repeat split; lia.
Qed.

Lemma reasons_counted_independently_witness :
  exists valid report,
    validate_products (mkDataFrame record_columns [row_two_reasons])
    = Ok (valid, report) /\
    rows valid = [] /\
    invalid_rows report = 1 /\
    dict_get (invalid_reasons report) "invalid_price_list" 0 = 1 /\
    dict_get (invalid_reasons report) "invalid_rating" 0 = 1.
Proof.
  destruct (proj1 reasons_counted_independently
              (mkDataFrame record_columns [row_two_reasons])
              eq_refl eq_refl)
    as (valid & report & E & Hin & Hinv & _ & Hreasons).
  exists valid, report. split; [exact E |].
  split; [| split; [| split]].
  - destruct (rows valid) as [| r rs] eqn:Hr; [reflexivity |].
    destruct (proj1 (Hin r) (or_introl eq_refl)) as [[<- | []] Hfalse].
    discriminate Hfalse.
  - rewrite Hinv. reflexivity.
  - rewrite (Hreasons "invalid_price_list" price_list_rule);
      [reflexivity | simpl; tauto | reflexivity].
  - rewrite (Hreasons "invalid_rating" rating_rule);
      [reflexivity | simpl; tauto | reflexivity].
Defined.

(** C6. The crawl loop appends a record exactly when its name or its product
    URL is not empty; the SKU plays no part.  A record with an empty name and
    a product URL (say with SKU "ABC123") passes this filter; put in a batch,
    it adds exactly 1 to the validator's [invalid_name] counter and is not in
    the valid frame. *)
Theorem crawl_filter_then_invalid_name :
  (forall driver selectors cards results lg,
      fst (scrape_cards driver selectors cards results lg)
      = (results
         ++ filter accepted (parsed_records driver selectors cards))%list) /\
  (forall record,
      accepted record = true
      <-> parsers.name record <> "" \/ parsers.product_url record <> "") /\
  (forall record before after,
      parsers.name record = "" ->
      parsers.product_url record <> "" ->
      accepted record = true /\
      exists valid0 report0 valid1 report1,
        validate_products (frame_of_records (before ++ after))
        = Ok (valid0, report0) /\
        validate_products (frame_of_records (before ++ record :: after))
        = Ok (valid1, report1) /\
        dict_get (invalid_reasons report1) "invalid_name" 0
        = dict_get (invalid_reasons report0) "invalid_name" 0 + 1 /\
        ~ In (row_of_record record) (rows valid1)).
Proof.
  assert (Hacc : forall record,
             accepted record = true
             <-> parsers.name record <> ""
                 \/ parsers.product_url record <> "").
  { intros record. unfold accepted.
    rewrite orb_true_iff, !negb_true_iff.
    destruct (parsers.name record), (parsers.product_url record); simpl;
      split; intros [H | H]; try discriminate; try congruence;
      auto; try (left; discriminate); try (right; discriminate). }
  split; [| split].
  - apply crawl_facts.scrape_cards_results.
  - exact Hacc.
  - intros record before after Hname Hurl.
    split; [apply Hacc; now right |].
    assert (Hrule : name_rule (row_of_record record) = true)
      by (unfold name_rule, row_of_record; cbn [validations.name];
          rewrite Hname; reflexivity).
    unfold frame_of_records.
    destruct (validation_facts.validate_products_eq
                (mkDataFrame record_columns
                   (map row_of_record (before ++ after)))
                eq_refl eq_refl) as (reasons0 & E0 & H0).
    destruct (validation_facts.validate_products_eq
                (mkDataFrame record_columns
                   (map row_of_record (before ++ record :: after)))
                eq_refl eq_refl) as (reasons1 & E1 & H1).
    do 4 eexists. split; [exact E0 |]. split; [exact E1 |].
    cbn [rows invalid_rows invalid_reasons valid_rows total_rows columns].
    assert (Hin : In ("invalid_name", name_rule) rules) by (simpl; tauto).
    pose proof (H0 _ _ Hin) as P0. pose proof (H1 _ _ Hin) as P1.
    change (has_column _ (rule_column "invalid_name")) with true in P0, P1.
    cbv iota in P0, P1. cbn [rows] in P0, P1.
    rewrite P0, P1. split.
    + rewrite !map_app. cbn [map].
      rewrite !validation_facts.count_rows_app,
        validation_facts.count_rows_cons, Hrule.
      lia.
    + rewrite filter_In, negb_true_iff.
      intros [_ Hfalse].
      rewrite validation_facts.triggers_any_unfold, Hrule in Hfalse.
      discriminate Hfalse.
Qed.

(** The record with name "", SKU "ABC123" and a product URL, alone in its
    batch. *)
Lemma crawl_filter_then_invalid_name_witness :
  let record :=
    mkProductRecord "ABC123" "" None None None None
      "https://shop.example/product/abc123" in
  accepted record = true /\
  exists valid report,
    validate_products (frame_of_records [record]) = Ok (valid, report) /\
    dict_get (invalid_reasons report) "invalid_name" 0 = 1 /\
    ~ In (row_of_record record) (rows valid).
Proof.
  cbv zeta.
  destruct (proj2 (proj2 crawl_filter_then_invalid_name)
              (mkProductRecord "ABC123" "" None None None None
                 "https://shop.example/product/abc123")
              [] [] eq_refl ltac:(discriminate))
    as (Hacc & valid0 & report0 & valid1 & report1 & E0 & E1 & Hcount & Hout).
  split; [exact Hacc |].
  exists valid1, report1. split; [exact E1 |]. split; [| exact Hout].
  rewrite Hcount.
  injection E0 as _ <-. reflexivity.
Defined.

(** * Further properties of the code *)

(** ** Trimming *)

Module strip_facts.

Import pystr.

Lemma lstrip_head (s : string) :
  lstrip s = "" \/ exists c t, lstrip s = String c t /\ isspace c = false.
Proof.
  induction s as [| c s IH]; simpl; [now left |].
  destruct (isspace c) eqn:E; [exact IH |]. right. eauto.
Qed.

Lemma lstrip_nonspace (c : ascii) (s : string) :
  isspace c = false -> lstrip (String c s) = String c s.
Proof. intros H. simpl. now rewrite H. Qed.

Lemma rstrip_nonspace (c : ascii) (s : string) :
  isspace c = false -> rstrip (String c s) = String c (rstrip s).
Proof.
  intros H. simpl. rewrite H. now destruct (rstrip s).
Qed.

Lemma rstrip_idem (s : string) : rstrip (rstrip s) = rstrip s.
Proof.
  induction s as [| c s IH]; [reflexivity |].
  simpl. destruct (rstrip s) as [| c' t] eqn:E.
  - destruct (isspace c) eqn:Hc; [reflexivity |].
    simpl. now rewrite Hc.
  - change (rstrip (String c (String c' t)))
      with (match rstrip (String c' t) with
            | EmptyString =>
                if isspace c then EmptyString else String c EmptyString
            | u => String c u
            end).
    rewrite IH. reflexivity.
Qed.

(** [strip] is idempotent: a trimmed text has nothing left to trim. *)
Lemma strip_idem (s : string) : strip (strip s) = strip s.
Proof.
  unfold strip.
  destruct (lstrip_head s) as [E | (c & t & E & Hc)]; rewrite E.
  - reflexivity.
  - rewrite (rstrip_nonspace c t Hc), (lstrip_nonspace c _ Hc).
    rewrite <- (rstrip_nonspace c t Hc). apply rstrip_idem.
Qed.

Lemma strip_empty : strip "" = "".
Proof. reflexivity. Qed.

Lemma length_lstrip (s : string) :
  (String.length (lstrip s) <= String.length s)%nat.
Proof.
  induction s as [| c s IH]; simpl; [lia |].
  destruct (isspace c); simpl; lia.
Qed.

Lemma length_rstrip (s : string) :
  (String.length (rstrip s) <= String.length s)%nat.
Proof.
  induction s as [| c s IH]; simpl; [lia |].
  destruct (rstrip s); [destruct (isspace c) |]; simpl in *; lia.
Qed.

Lemma length_strip (s : string) :
  (String.length (strip s) <= String.length s)%nat.
Proof.
  unfold strip.
  pose proof (length_rstrip (lstrip s)). pose proof (length_lstrip s). lia.
Qed.

Lemma digit_not_space (c : ascii) : isdigit c = true -> isspace c = false.
Proof.
  unfold isdigit, isspace. cbv zeta.
  intros H. apply andb_prop in H as [H1 H2].
  apply N.leb_le in H1. apply N.leb_le in H2.
  repeat rewrite orb_false_iff. repeat split.
  - apply andb_false_iff. right. apply N.leb_gt. lia.
  - apply andb_false_iff. right. apply N.leb_gt. lia.
  - apply N.eqb_neq. lia.
  - apply N.eqb_neq. lia.
Qed.

(** Trimming removes no digit. *)
Lemma has_digit_lstrip (s : string) : has_digit (lstrip s) = has_digit s.
Proof.
  induction s as [| c s IH]; simpl; [reflexivity |].
  destruct (isspace c) eqn:E; [| reflexivity].
  destruct (isdigit c) eqn:D; [| exact IH].
  apply digit_not_space in D. congruence.
Qed.

Lemma has_digit_rstrip (s : string) : has_digit (rstrip s) = has_digit s.
Proof.
  induction s as [| c s IH]; simpl; [reflexivity |].
  destruct (rstrip s) as [| c' t] eqn:E.
  - simpl in IH. rewrite <- IH, orb_false_r.
    destruct (isspace c) eqn:Hc; simpl.
    + destruct (isdigit c) eqn:D; [| reflexivity].
      apply digit_not_space in D. congruence.
    + now rewrite orb_false_r.
  - simpl. simpl in IH. now rewrite IH.
Qed.

Lemma has_digit_strip (s : string) : has_digit (strip s) = has_digit s.
Proof.
  unfold strip. now rewrite has_digit_rstrip, has_digit_lstrip.
Qed.

End strip_facts.

(** ** What an extracted record holds *)

Module record_facts.

Import pystr pynum parsers steps.

Definition trimmed (s : string) : Prop := strip s = s.

Lemma trimmed_strip (s : string) : trimmed (strip s).
Proof. apply strip_facts.strip_idem. Qed.

Lemma get_text_content_cases (driver : WebDriver) (el : WebElement) :
  match execute_script driver "return arguments[0].textContent;" el with
  | Ok txt => get_text_content driver el = Ok (strip (or_empty txt))
  | Raise _ =>
      match text el with
      | Ok t => get_text_content driver el = Ok (strip t)
      | Raise e => get_text_content driver el = Raise e
      end
  end.
Proof.
  unfold get_text_content.
  destruct (execute_script driver _ el) as [txt | e]; simpl; [reflexivity |].
  destruct (text el) as [t | e']; reflexivity.
Qed.

Lemma get_text_content_trimmed (driver : WebDriver) (el : WebElement)
  (t : string) :
  get_text_content driver el = Ok t -> trimmed t.
Proof.
  intros H. pose proof (get_text_content_cases driver el) as C.
  destruct (execute_script driver _ el) as [txt | e].
  - rewrite C in H. injection H as <-. apply trimmed_strip.
  - destruct (text el) as [u | e']; rewrite C in H; [| discriminate].
    injection H as <-. apply trimmed_strip.
Qed.

Lemma extract_value_trimmed (card : WebElement) (sel t : string) :
  extract_value card sel = Ok t -> trimmed t.
Proof.
  unfold extract_value.
  destruct (is_empty sel); [now intros [= <-] |].
  destruct (startswith "@" sel).
  - destruct (get_attribute card (tail sel)) as [a | e]; simpl;
      [| discriminate].
    intros [= <-]. apply trimmed_strip.
  - unfold _find_optional.
    destruct (find_element card sel) as [el | e]; simpl.
    + destruct (text el) as [u | e]; simpl; [| discriminate].
      intros [= <-]. apply trimmed_strip.
    + now intros [= <-].
Qed.

(** The hyperlink loop answers the first trimmed [href] that contains
    ["/product/"]. *)
Lemma first_product_link_spec (links : list WebElement) (u : string) :
  first_product_link links = Ok u ->
  trimmed u /\ (u = "" \/ contains "/product/" u = true).
Proof.
  induction links as [| link rest IH]; simpl.
  - intros [= <-]. split; [reflexivity | now left].
  - destruct (get_attribute link "href") as [h | e]; simpl;
      [| discriminate].
    destruct (contains "/product/" (strip (or_empty h))) eqn:E.
    + intros [= <-]. split; [apply trimmed_strip | now right].
    + exact IH.
Qed.

Lemma link_step_spec (card : WebElement) (u : string) :
  link_step card = Ok u ->
  trimmed u /\ (u = "" \/ contains "/product/" u = true).
Proof.
  unfold link_step.
  destruct (find_elements card "a[href]") as [links | e]; simpl.
  - destruct (first_product_link links) as [v | e] eqn:E; simpl.
    + intros [= <-]. now apply (first_product_link_spec links).
    + intros [= <-]. split; [reflexivity | now left].
  - intros [= <-]. split; [reflexivity | now left].
Qed.

(** With every [href] readable, the answer is the head of the qualifying
    ones. *)
Lemma first_product_link_head (links : list WebElement)
  (hs : list (option string)) :
  Forall2 (fun link h => get_attribute link "href" = Ok h) links hs ->
  first_product_link links
  = Ok (hd "" (filter (contains "/product/")
                 (map (fun h => strip (or_empty h)) hs))).
Proof.
  induction 1 as [| link h links hs Hh _ IH]; simpl; [reflexivity |].
  rewrite Hh. simpl.
  destruct (contains "/product/" (strip (or_empty h))); [reflexivity | exact IH].
Qed.

(** A count read by [int] from digits is not negative. *)
Lemma digits_value_nonneg (s : string) :
  forall acc n, 0 <= acc -> digits_value acc s = Some n -> 0 <= n.
Proof.
  induction s as [| c s IH]; simpl; intros acc n Hacc H.
  - injection H as <-. exact Hacc.
  - destruct (isdigit c) eqn:D; [| discriminate].
    apply (IH (10 * acc + digit_value c)); [| exact H].
    unfold isdigit in D. cbv zeta in D.
    apply andb_prop in D as [D1 _]. apply N.leb_le in D1.
    unfold digit_value. lia.
Qed.

Lemma parse_reviews_count_nonneg (text : string) (n : Z) :
  parse_reviews_count text = Ok (Some n) -> 0 <= n.
Proof.
  unfold parse_reviews_count.
  destruct (is_empty (strip text)); [discriminate |].
  destruct (re.search _int_re _) as [g1 |]; [| discriminate].
  unfold py_int.
  destruct (is_empty g1); [discriminate |].
  destruct (int_max_str_digits <? String.length g1)%nat; [discriminate |].
  destruct (digits_value 0 g1) as [m |] eqn:E; simpl; [| discriminate].
  intros [= <-]. apply (digits_value_nonneg g1 0 m); [lia | exact E].
Qed.

Lemma parse_rating_in_range (text : string) (v : float) :
  parse_rating text = Ok (Some v) -> in_rating_range v.
Proof.
  intros H.
  destruct (text_facts.parse_rating_cases text) as [E | [d E]];
    rewrite E in H; [discriminate |].
  injection H as <-.
  apply rating_facts.clamp_round_ok, float_facts.float_of_Decimal_not_nan.
Qed.

(** Where the rating and the count of a record come from. *)
Lemma aria_fallback_origin (card : WebElement) (selectors : Selectors)
  (rt0 rt : option float) (rv0 rv : option Z) :
  aria_fallback card selectors rt0 rv0 = Ok (rt, rv) ->
  (rt = rt0 \/ exists t, parse_rating t = Ok rt) /\
  (rv = rv0 \/ exists t, parse_reviews_count t = Ok rv).
Proof.
  intros H.
  assert (H' :
    (a <- _find_optional card (bv_aria_source selectors) ;;
     match a with
     | Some a =>
         l <- get_attribute a "aria-label" ;;
         let aria := strip (or_empty l) in
         rating <- if_not_none rt0 (parse_rating aria) ;;
         reviews_count <- if_not_none rv0 (parse_reviews_count aria) ;;
         Ok (rating, reviews_count)
     | None => Ok (rt0, rv0)
     end) = Ok (rt, rv) \/ (rt, rv) = (rt0, rv0)).
  { unfold aria_fallback in H. destruct rt0, rv0; auto.
    right. now injection H as <- <-. }
  clear H. destruct H' as [H | H]; [| injection H as -> ->; auto].
  apply bind_ok_inv in H as (a & _ & H).
  destruct a as [a |]; [| injection H as <- <-; auto].
  apply bind_ok_inv in H as (l & _ & H). cbv zeta in H.
  apply bind_ok_inv in H as (x & Hx & H).
  apply bind_ok_inv in H as (y & Hy & H).
  injection H as <- <-.
  split.
  - destruct rt0; simpl in Hx; [injection Hx as <-; auto | eauto].
  - destruct rv0; simpl in Hy; [injection Hy as <-; auto | eauto].
Qed.

End record_facts.

(** X1. The texts of an extracted record are trimmed: its name, its SKU and
    its product URL carry no leading or trailing whitespace. *)
Theorem record_texts_trimmed (driver : WebDriver) (card : WebElement)
  (selectors : parsers.Selectors) (r : parsers.ProductRecord) :
  parsers.parse_product_card driver card selectors = Ok r ->
  pystr.strip (parsers.name r) = parsers.name r /\
  pystr.strip (parsers.sku r) = parsers.sku r /\
  pystr.strip (parsers.product_url r) = parsers.product_url r.
Proof.
  intros H.
  apply card_facts.parse_product_card_inv in H
    as (name_el & nm & sk & st & lt & pl & ps & rtxt & rt0 & vtxt & rv0
        & rt & rv & url & _ & Hnm & Hsk & _ & _ & _ & _ & _ & _ & _ & _
        & _ & Hurl & ->).
  cbn [parsers.name parsers.sku parsers.product_url].
  split; [| split].
  - destruct name_el as [el |].
    + now apply (record_facts.get_text_content_trimmed driver el).
    + now injection Hnm as <-.
  - apply record_facts.extract_value_trimmed in Hsk.
    destruct (pystr.is_empty sk); [reflexivity | exact Hsk].
  - now apply (record_facts.link_step_spec card).
Qed.

(** A card whose name, SKU and link carry blanks around their texts. *)
Lemma record_texts_trimmed_witness :
  let r := parsers.mkProductRecord "8507667" "Bench Vise" None None None None
             "https://shop.example/product/8507667" in
  parsers.parse_product_card (page [] None) more_examples.card_blanks
    parsers.default_selectors = Ok r /\
  pystr.strip (parsers.name r) = parsers.name r /\
  pystr.strip (parsers.sku r) = parsers.sku r /\
  pystr.strip (parsers.product_url r) = parsers.product_url r.
Proof.
  assert (E : parsers.parse_product_card (page [] None)
                more_examples.card_blanks parsers.default_selectors
              = Ok (parsers.mkProductRecord "8507667" "Bench Vise" None None
                      None None "https://shop.example/product/8507667"))
    by reflexivity.
  cbv zeta. split; [exact E |].
  exact (record_texts_trimmed _ _ _ _ E).
Defined.

(** X2. The product URL of an extracted record is empty or contains
    ["/product/"]; when every hyperlink of the card lets its [href] be read,
    it is the first trimmed [href], in document order, that contains
    ["/product/"], and empty if there is none. *)
Theorem product_url_first_product_link (driver : WebDriver)
  (card : WebElement) (selectors : parsers.Selectors)
  (r : parsers.ProductRecord) :
  parsers.parse_product_card driver card selectors = Ok r ->
  (parsers.product_url r = ""
   \/ pystr.contains "/product/" (parsers.product_url r) = true) /\
  (forall links hs,
      find_elements card "a[href]" = Ok links ->
      Forall2 (fun link h => get_attribute link "href" = Ok h) links hs ->
      parsers.product_url r
      = hd "" (filter (pystr.contains "/product/")
                 (map (fun h => pystr.strip (pystr.or_empty h)) hs))).
Proof.
  intros H.
  apply card_facts.parse_product_card_inv in H
    as (name_el & nm & sk & st & lt & pl & ps & rtxt & rt0 & vtxt & rv0
        & rt & rv & url & _ & _ & _ & _ & _ & _ & _ & _ & _ & _ & _
        & _ & Hurl & ->).
  cbn [parsers.product_url]. split.
  - now apply (record_facts.link_step_spec card).
  - intros links hs Hlinks Hhs.
    unfold steps.link_step in Hurl. rewrite Hlinks in Hurl. simpl in Hurl.
    rewrite (record_facts.first_product_link_head links hs Hhs) in Hurl.
    simpl in Hurl. now injection Hurl as <-.
Qed.

(** Three links, a category page and then two product pages: the URL is
    the first product page. *)
Lemma product_url_first_product_link_witness :
  let r := parsers.mkProductRecord "UNKNOWN" "" None None None None
             "https://shop.example/product/1" in
  parsers.parse_product_card (page [] None) more_examples.card_three_links
    parsers.default_selectors = Ok r /\
  parsers.product_url r
  = hd "" (filter (pystr.contains "/product/")
             ["https://shop.example/category/sale";
              "https://shop.example/product/1";
              "https://shop.example/product/2"]).
Proof.
  assert (E : parsers.parse_product_card (page [] None)
                more_examples.card_three_links parsers.default_selectors
              = Ok (parsers.mkProductRecord "UNKNOWN" "" None None None None
                      "https://shop.example/product/1"))
    by reflexivity.
  cbv zeta. split; [exact E |].
  refine (proj2 (product_url_first_product_link _ _ _ _ E)
            _ [Some "https://shop.example/category/sale";
               Some "https://shop.example/product/1";
               Some "https://shop.example/product/2"] eq_refl _).
  repeat constructor.
Defined.

(** X3. An extracted record never triggers the validator's SKU, rating or
    review-count rule: its SKU is a non-blank text, its rating is absent or
    within [0, 5], and its review count is absent or not negative.  (The name
    rule and the two price rules are the ones it can trigger.) *)
Theorem extracted_record_passes_rules (driver : WebDriver)
  (card : WebElement) (selectors : parsers.Selectors)
  (r : parsers.ProductRecord) :
  parsers.parse_product_card driver card selectors = Ok r ->
  sku_rule (row_of_record r) = false /\
  rating_rule (row_of_record r) = false /\
  reviews_rule (row_of_record r) = false.
Proof.
  intros H.
  pose proof (record_texts_trimmed driver card selectors r H)
    as (_ & Hsku & _).
  apply card_facts.parse_product_card_inv in H
    as (name_el & nm & sk & st & lt & pl & ps & rtxt & rt0 & vtxt & rv0
        & rt & rv & url & _ & _ & _ & _ & _ & _ & _ & _ & Hrt & _ & Hrv
        & Hfb & _ & ->).
  apply record_facts.aria_fallback_origin in Hfb as [Hrt' Hrv'].
  assert (Hrating : exists t, parsers.parse_rating t = Ok rt)
    by (destruct Hrt' as [-> | ?]; eauto).
  assert (Hcount : exists t, parsers.parse_reviews_count t = Ok rv)
    by (destruct Hrv' as [-> | ?]; eauto).
  unfold sku_rule, rating_rule, reviews_rule, row_of_record.
  cbn [validations.sku validations.rating validations.reviews_count
       parsers.sku parsers.rating parsers.reviews_count isna astype_str]
    in Hsku |- *.
  split; [| split].
  - rewrite Hsku. now destruct sk.
  - destruct rt as [v |]; [| reflexivity].
    destruct Hrating as [t Ht].
    destruct (record_facts.parse_rating_in_range t v Ht) as [Hge Hle].
    unfold pynum.ge_int, pynum.le_int in Hge, Hle.
    unfold pynum.lt_int, pynum.gt_int.
    destruct (pynum.compare_int v 0) as [[] |]; try discriminate;
      destruct (pynum.compare_int v 5) as [[] |]; try discriminate;
      now rewrite andb_false_r.
  - destruct rv as [n |]; [| reflexivity].
    destruct Hcount as [t Ht].
    apply record_facts.parse_reviews_count_nonneg in Ht.
    simpl. apply Z.ltb_ge. exact Ht.
Qed.

Lemma extracted_record_passes_rules_witness :
  let r := parsers.mkProductRecord "UNKNOWN" "Bench Vise" None None
             (Some (pynum.float_of_Decimal (pynum.mkDecimal false 46 (-1))))
             (Some 4) "" in
  parsers.parse_product_card (page [] None) card_fallback_label
    parsers.default_selectors = Ok r /\
  sku_rule (row_of_record r) = false /\
  rating_rule (row_of_record r) = false /\
  reviews_rule (row_of_record r) = false.
Proof.
  assert (E : parsers.parse_product_card (page [] None) card_fallback_label
                parsers.default_selectors
              = Ok (parsers.mkProductRecord "UNKNOWN" "Bench Vise" None None
                      (Some (pynum.float_of_Decimal
                               (pynum.mkDecimal false 46 (-1))))
                      (Some 4) ""))
    by (vm_compute; reflexivity).
  cbv zeta. split; [exact E |].
  exact (extracted_record_passes_rules _ _ _ _ E).
Defined.

(** X4. [get_text_content] fails exactly when both the script and the
    element's own text fail, and then with the exception of the text; a
    script that returns [null] gives the empty text. *)
Theorem get_text_content_fails_when_both_fail :
  (forall driver el e,
      parsers.get_text_content driver el = Raise e
      <-> (exists e',
              execute_script driver "return arguments[0].textContent;" el
              = Raise e')
          /\ text el = Raise e) /\
  (forall driver el,
      execute_script driver "return arguments[0].textContent;" el = Ok None ->
      parsers.get_text_content driver el = Ok "").
Proof.
  split.
  - intros driver el e.
    pose proof (record_facts.get_text_content_cases driver el) as C.
    destruct (execute_script driver _ el) as [txt | e0].
    + rewrite C. split; [discriminate |]. intros [[e' He'] _]. discriminate.
    + destruct (text el) as [t | e1]; rewrite C.
      * split; [discriminate |]. intros [_ He]. discriminate.
      * split; [intros [= ->]; eauto | intros [_ [= ->]]; reflexivity].
  - intros driver el H.
    pose proof (record_facts.get_text_content_cases driver el) as C.
    rewrite H in C. exact C.
Qed.

Lemma get_text_content_fails_when_both_fail_witness :
  parsers.get_text_content (page [] None) stale_element
  = Raise StaleElementReferenceException.
Proof.
  apply (proj1 get_text_content_fails_when_both_fail).
  split; [exists StaleElementReferenceException |]; reflexivity.
Defined.

(** ** The matcher finds the leftmost number and the leftmost digit run *)

Module scan_facts.

Import pystr pynum parsers scan.

Lemma take_drop_while (p : ascii -> bool) (s : string) :
  (take_while p s ++ drop_while p s)%string = s.
Proof.
  induction s as [| c s IH]; simpl; [reflexivity |].
  destruct (p c); simpl; [now rewrite IH | reflexivity].
Qed.

Lemma strlen_app (a b : string) :
  String.length (a ++ b) = (String.length a + String.length b)%nat.
Proof.
  induction a as [| c a IH]; simpl; [reflexivity | now rewrite IH].
Qed.

Lemma str_app_empty_r (a : string) : (a ++ "")%string = a.
Proof.
  induction a as [| c a IH]; simpl; [reflexivity | now rewrite IH].
Qed.

Lemma str_app_assoc (a b c : string) :
  ((a ++ b) ++ c)%string = (a ++ (b ++ c))%string.
Proof.
  induction a as [| x a IH]; simpl; [reflexivity | now rewrite IH].
Qed.

Lemma take_app_length (a b : string) :
  re.take (String.length (a ++ b) - String.length b) (a ++ b)%string = a.
Proof.
  rewrite strlen_app.
  replace (String.length a + String.length b - String.length b)%nat
    with (String.length a) by lia.
  induction a as [| c a IH]; simpl.
  - now destruct b.
  - now rewrite IH.
Qed.

(** A star under a continuation that always answers takes all it can. *)
Lemma star_match_greedy {A : Type} (p : ascii -> bool)
  (k : string -> option A) :
  (forall x, exists r, k x = Some r) ->
  forall s, re.star_match p s k = k (drop_while p s).
Proof.
  intros Hk. induction s as [| c s IH]; simpl; [reflexivity |].
  destruct (p c); [| reflexivity].
  rewrite IH. now destruct (Hk (drop_while p s)) as [r ->].
Qed.

Lemma star_match_Some (p : ascii -> bool) (s : string) :
  re.star_match p s Some = Some (drop_while p s).
Proof. apply star_match_greedy. eauto. Qed.

Lemma digit_is_digit_or_comma (c : ascii) :
  isdigit c = true -> digit_or_comma c = true.
Proof. intros H. unfold digit_or_comma. now rewrite H. Qed.

Lemma dot_not_digit (c : ascii) : is_dot c = true -> isdigit c = false.
Proof.
  unfold is_dot. intros H. apply Ascii.eqb_eq in H. now subst c.
Qed.

Lemma drop_while_digit_or_comma_head (s : string) :
  drop_while isdigit (drop_while digit_or_comma s)
  = drop_while digit_or_comma s.
Proof.
  induction s as [| c s IH]; simpl; [reflexivity |].
  destruct (digit_or_comma c) eqn:E; [exact IH |].
  simpl. destruct (isdigit c) eqn:D; [| reflexivity].
  apply digit_is_digit_or_comma in D. congruence.
Qed.

(** The tail of the numeric pattern, matched at [s], leaves [number_rest s]. *)
Lemma tail_match (s : string) :
  re.star_match digit_or_comma s
    (fun s1 =>
       re.match_at (re.Cat (re.Opt (re.Cls is_dot)) (re.Star isdigit)) s1
         Some)
  = Some (number_rest s).
Proof.
  assert (Hk : forall s1,
             re.match_at (re.Cat (re.Opt (re.Cls is_dot)) (re.Star isdigit))
               s1 Some
             = Some match s1 with
                    | String c t =>
                        if is_dot c then drop_while isdigit t
                        else drop_while isdigit s1
                    | EmptyString => EmptyString
                    end).
  { intros s1. simpl re.match_at.
    destruct s1 as [| c t]; [reflexivity |].
    destruct (is_dot c); rewrite !star_match_Some; reflexivity. }
  rewrite star_match_greedy by (intros x; rewrite Hk; eauto).
  rewrite Hk. unfold number_rest.
  pose proof (drop_while_digit_or_comma_head s) as Hd.
  destruct (drop_while digit_or_comma s) as [| c t]; [reflexivity |].
  destruct (is_dot c); [reflexivity | now rewrite Hd].
Qed.

Lemma number_tail_rest (s : string) :
  (number_tail s ++ number_rest s)%string = s.
Proof.
  unfold number_tail, number_rest.
  pose proof (take_drop_while digit_or_comma s) as H.
  destruct (drop_while digit_or_comma s) as [| c t].
  - now rewrite str_app_empty_r in H |- *.
  - destruct (is_dot c); [| exact H].
    rewrite str_app_assoc. simpl. now rewrite take_drop_while.
Qed.

Lemma sign_not_digit (c : ascii) : is_sign c = true -> isdigit c = false.
Proof.
  intros H. destruct (isdigit c) eqn:D; [| reflexivity].
  apply text_facts.digit_not_sign in D. congruence.
Qed.

(** The numeric pattern at the head of a text. *)
Lemma money_match_at (c : ascii) (s : string) :
  re.match_at _money_re (String c s) Some
  = if isdigit c then Some (number_rest s)
    else
      match s with
      | String d s' =>
          if is_sign c && isdigit d then Some (number_rest s') else None
      | EmptyString => None
      end.
Proof.
  unfold _money_re.
  change (re.match_at (re.Cat (re.Opt (re.Cls is_sign)) ?r) ?x Some)
    with (match (if is_sign c then re.match_at r s Some else None) with
          | Some y => Some y
          | None => re.match_at r x Some
          end).
  assert (Hd : forall d t,
             re.match_at
               (re.Cat (re.Cls isdigit)
                  (re.Cat (re.Star digit_or_comma)
                     (re.Cat (re.Opt (re.Cls is_dot)) (re.Star isdigit))))
               (String d t) Some
             = if isdigit d then Some (number_rest t) else None).
  { intros d t.
    change (re.match_at (re.Cat (re.Cls isdigit) ?r) (String d t) Some)
      with (if isdigit d then re.match_at r t Some else None).
    destruct (isdigit d); [| reflexivity].
    exact (tail_match t). }
  destruct (isdigit c) eqn:Dc.
  - rewrite (text_facts.digit_not_sign c Dc), Hd, Dc. reflexivity.
  - rewrite Hd, Dc. destruct s as [| d s'].
    + now destruct (is_sign c).
    + rewrite Hd. now destruct (is_sign c), (isdigit d).
Qed.

Lemma money_search_first_number (s : string) :
  re.search _money_re s = first_number s.
Proof.
  induction s as [| c s IH]; [reflexivity |].
  rewrite text_facts.search_unfold, money_match_at.
  cbn [first_number].
  destruct (isdigit c).
  - f_equal.
    change (String c s) with (String c EmptyString ++ s)%string.
    rewrite <- (number_tail_rest s) at 1 3.
    rewrite <- str_app_assoc.
    apply take_app_length.
  - destruct s as [| d s']; [reflexivity |].
    destruct (is_sign c && isdigit d); [| exact IH].
    f_equal.
    change (String c (String d s'))
      with (String c (String d EmptyString) ++ s')%string.
    rewrite <- (number_tail_rest s') at 1 3.
    rewrite <- str_app_assoc.
    apply take_app_length.
Qed.

Lemma int_search_first_digit_run (s : string) :
  re.search _int_re s = first_digit_run s.
Proof.
  induction s as [| c s IH]; [reflexivity |].
  rewrite text_facts.search_unfold.
  unfold _int_re, re.Plus.
  change (re.match_at (re.Cat (re.Cls isdigit) (re.Star isdigit))
            (String c s) Some)
    with (if isdigit c then re.star_match isdigit s Some else None).
  cbn [first_digit_run].
  destruct (isdigit c); [| exact IH].
  rewrite star_match_Some. f_equal.
  change (String c s) with (String c EmptyString ++ s)%string.
  rewrite <- (take_drop_while isdigit s) at 1 3.
  rewrite <- str_app_assoc.
  apply take_app_length.
Qed.

End scan_facts.

(** ** What [Decimal] accepts *)

Module decimal_facts.

Import pystr pynum parsers scan.

Lemma all_digits_app (a b : string) :
  all_digits (a ++ b) = all_digits a && all_digits b.
Proof.
  induction a as [| c a IH]; simpl; [reflexivity |].
  now rewrite IH, andb_assoc.
Qed.

Lemma all_digits_take_while (s : string) :
  all_digits (take_while isdigit s) = true.
Proof.
  induction s as [| c s IH]; simpl; [reflexivity |].
  destruct (isdigit c) eqn:D; simpl; [now rewrite D | reflexivity].
Qed.

Lemma comma_not_digit (c : ascii) :
  Ascii.eqb c "," = true -> isdigit c = false.
Proof. intros H. apply Ascii.eqb_eq in H. now subst c. Qed.

Lemma all_digits_no_comma (s : string) :
  all_digits s = true -> has_comma s = false.
Proof.
  induction s as [| c s IH]; simpl; [reflexivity |].
  intros H. apply andb_prop in H as [D H].
  rewrite (IH H), orb_false_r.
  destruct (Ascii.eqb c ",") eqn:E; [| reflexivity].
  apply comma_not_digit in E. congruence.
Qed.

Lemma replace_char_app (a : ascii) (b x y : string) :
  replace_char a b (x ++ y)
  = (replace_char a b x ++ replace_char a b y)%string.
Proof.
  induction x as [| c x IH]; simpl; [reflexivity |].
  destruct (Ascii.eqb c a); simpl; rewrite IH;
    [now rewrite scan_facts.str_app_assoc | reflexivity].
Qed.

Lemma replace_comma_id (s : string) :
  has_comma s = false -> replace_char "," "" s = s.
Proof.
  induction s as [| c s IH]; simpl; [reflexivity |].
  intros H. apply orb_false_elim in H as [E H].
  rewrite E, (IH H). reflexivity.
Qed.

(** Without their commas, digits and commas are digits. *)
Lemma all_digits_without_commas (s : string) :
  all_digits (replace_char "," "" (take_while digit_or_comma s)) = true.
Proof.
  induction s as [| c s IH]; simpl; [reflexivity |].
  unfold digit_or_comma at 1.
  destruct (isdigit c) eqn:D; simpl.
  - destruct (Ascii.eqb c ",") eqn:E.
    + apply comma_not_digit in E. congruence.
    + simpl. now rewrite D.
  - destruct (Ascii.eqb c ",") eqn:E; simpl; [| reflexivity].
    rewrite E. exact IH.
Qed.

Lemma span_digits_spec (s : string) :
  (fst (span_digits s) ++ snd (span_digits s))%string = s /\
  all_digits (fst (span_digits s)) = true.
Proof.
  induction s as [| c s [IH1 IH2]]; simpl; [auto |].
  destruct (isdigit c) eqn:D; [| auto].
  destruct (span_digits s) as [d r]. simpl in *.
  rewrite IH1, D, IH2. auto.
Qed.

(** A run of digits is spanned whole when what follows is not a digit. *)
Lemma span_digits_app (x r : string) :
  all_digits x = true ->
  match r with
  | String c _ => isdigit c = false
  | EmptyString => True
  end ->
  span_digits (x ++ r) = (x, r).
Proof.
  intros Hx Hr. induction x as [| c x IH]; simpl.
  - destruct r as [| c r]; [reflexivity |]. simpl. now rewrite Hr.
  - simpl in Hx. apply andb_prop in Hx as [D Hx].
    rewrite D, (IH Hx). reflexivity.
Qed.

Lemma span_digits_all (x : string) :
  all_digits x = true -> span_digits x = (x, EmptyString).
Proof.
  intros H. rewrite <- (scan_facts.str_app_empty_r x) at 1.
  now apply span_digits_app.
Qed.

Lemma digits_value_all_digits (x : string) :
  all_digits x = true -> forall acc, exists n, digits_value acc x = Some n.
Proof.
  induction x as [| c x IH]; simpl; intros H acc; [eauto |].
  apply andb_prop in H as [D H]. rewrite D. apply IH, H.
Qed.

Lemma split_sign_digit (c : ascii) (s : string) :
  isdigit c = true -> split_sign (String c s) = (false, String c s).
Proof.
  intros H.
  destruct c as [b0 b1 b2 b3 b4 b5 b6 b7].
  destruct b0, b1, b2, b3, b4, b5, b6, b7;
    first [discriminate H | reflexivity].
Qed.

Lemma split_sign_sign (c : ascii) (s : string) :
  is_sign c = true -> exists sg, split_sign (String c s) = (sg, s).
Proof.
  unfold is_sign. intros H. apply orb_prop in H as [H | H];
    apply Ascii.eqb_eq in H; subst c; simpl; eauto.
Qed.

Lemma split_sign_spec (s : string) :
  snd (split_sign s) = s
  \/ exists c, is_sign c = true /\ s = String c (snd (split_sign s)).
Proof.
  destruct s as [| c s]; [now left |].
  destruct (is_sign c) eqn:E.
  - right. exists c. split; [exact E |].
    destruct (split_sign_sign c s E) as [sg ->]. reflexivity.
  - left. unfold is_sign in E. apply orb_false_elim in E as [E1 E2].
    apply Ascii.eqb_neq in E1. apply Ascii.eqb_neq in E2.
    destruct c as [b0 b1 b2 b3 b4 b5 b6 b7].
    destruct b0, b1, b2, b3, b4, b5, b6, b7;
      first [reflexivity | exfalso; apply E1; reflexivity
            | exfalso; apply E2; reflexivity].
Qed.

(** Digits, then nothing or a point and digits: [Decimal] takes it. *)
Lemma py_Decimal_unsigned (c : ascii) (x b : string) (point : bool) :
  isdigit c = true -> all_digits x = true -> all_digits b = true ->
  exists d,
    py_Decimal (String c x ++ (if point then String "." b else ""))
    = Ok d.
Proof.
  intros Hc Hx Hb. unfold py_Decimal.
  change (String c x ++ ?t)%string with (String c (x ++ t)).
  rewrite (split_sign_digit c _ Hc).
  change (String c (x ++ ?t)) with (String c x ++ t)%string.
  rewrite span_digits_app;
    [| simpl; now rewrite Hc, Hx | now destruct point].
  destruct point.
  - rewrite (span_digits_all b Hb).
    simpl is_empty. cbn [andb negb].
    destruct (digits_value_all_digits (String c x ++ b)
                ltac:(simpl; rewrite Hc, all_digits_app, Hx, Hb; reflexivity)
                0) as [n ->].
    eauto.
  - simpl is_empty. cbn [andb negb].
    rewrite scan_facts.str_app_empty_r.
    destruct (digits_value_all_digits (String c x)
                ltac:(simpl; rewrite Hc, Hx; reflexivity) 0) as [n ->].
    eauto.
Qed.

Lemma py_Decimal_signed (sg c : ascii) (x b : string) (point : bool) :
  is_sign sg = true ->
  isdigit c = true -> all_digits x = true -> all_digits b = true ->
  exists d,
    py_Decimal
      (String sg (String c x ++ (if point then String "." b else "")))
    = Ok d.
Proof.
  intros Hs Hc Hx Hb.
  destruct (py_Decimal_unsigned c x b point Hc Hx Hb) as [d Hd].
  unfold py_Decimal in Hd |- *.
  destruct (split_sign_sign sg (String c x ++ (if point then String "." b else "")) Hs)
    as [s' ->].
  change (String c x ++ ?t)%string with (String c (x ++ t)) in Hd |- *.
  rewrite (split_sign_digit c _ Hc) in Hd.
  destruct (span_digits (String c (x ++ (if point then String "." b else ""))))
    as [ip s2].
  destruct (match s2 with
            | String "." t => span_digits t
            | _ => (EmptyString, s2)
            end) as [fp s3].
  destruct (is_empty s3 && negb (is_empty ip && is_empty fp));
    [| discriminate].
  destruct (digits_value 0 (ip ++ fp)); [eauto | discriminate].
Qed.

(** [Decimal] takes no comma. *)
Lemma py_Decimal_no_comma (s : string) (d : Decimal) :
  py_Decimal s = Ok d -> has_comma s = false.
Proof.
  unfold py_Decimal.
  pose proof (split_sign_spec s) as Hs.
  destruct (split_sign s) as [sg s1]. simpl in Hs.
  pose proof (span_digits_spec s1) as [H1 D1].
  destruct (span_digits s1) as [ip s2]. simpl in H1, D1.
  assert (H2 : forall fp s3,
             match s2 with
             | String "." t => span_digits t
             | _ => (EmptyString, s2)
             end = (fp, s3) ->
             s3 = "" -> has_comma s2 = false).
  { intros fp s3 E ->.
    destruct s2 as [| c t]; [reflexivity |].
    destruct (Ascii.eqb_spec c ".") as [-> | Hne].
    - pose proof (span_digits_spec t) as [Ht Dt]. rewrite E in Ht, Dt.
      simpl in Ht, Dt. rewrite scan_facts.str_app_empty_r in Ht. subst fp.
      simpl. now apply all_digits_no_comma.
    - exfalso.
      destruct c as [b0 b1 b2 b3 b4 b5 b6 b7].
      destruct b0, b1, b2, b3, b4, b5, b6, b7;
        first [discriminate E | apply Hne; reflexivity]. }
  destruct (match s2 with
            | String "." t => span_digits t
            | _ => (EmptyString, s2)
            end) as [fp s3] eqn:E.
  destruct s3; simpl; [| discriminate].
  intros _. specialize (H2 fp "" eq_refl eq_refl).
  assert (Hs1 : has_comma s1 = false).
  { rewrite <- H1.
    assert (Happ : forall a b, has_comma (a ++ b)
                               = has_comma a || has_comma b).
    { intros a b. induction a as [| x a IH]; simpl; [reflexivity |].
      now rewrite IH, orb_assoc. }
    now rewrite Happ, (all_digits_no_comma ip D1), H2. }
  destruct Hs as [<- | (c & Hc & ->)]; [exact Hs1 |].
  simpl. rewrite Hs1, orb_false_r.
  unfold is_sign in Hc. apply orb_prop in Hc as [Hc | Hc];
    apply Ascii.eqb_eq in Hc; now subst c.
Qed.

End decimal_facts.

(** ** When the parsers answer *)

Module answer_facts.

Import pystr pynum parsers scan.

Lemma has_digit_replace_char (a : ascii) (b s : string) :
  isdigit a = false -> has_digit b = false ->
  has_digit (replace_char a b s) = has_digit s.
Proof.
  intros Ha Hb. induction s as [| c s IH]; simpl; [reflexivity |].
  destruct (Ascii.eqb_spec c a) as [-> | _].
  - now rewrite text_facts.has_digit_app, Hb, Ha, IH.
  - simpl. now rewrite IH.
Qed.

Lemma has_digit_nonempty (s : string) :
  has_digit s = true -> is_empty s = false.
Proof. now destruct s. Qed.

Lemma number_tail_without_commas (u : string) :
  exists x b (point : bool),
    all_digits x = true /\ all_digits b = true /\
    replace_char "," "" (number_tail u)
    = (x ++ (if point then String "."%char b else ""))%string.
Proof.
  unfold number_tail.
  exists (replace_char "," "" (take_while digit_or_comma u)).
  destruct (drop_while digit_or_comma u) as [| c t].
  - exists EmptyString, false.
    rewrite scan_facts.str_app_empty_r.
    auto using decimal_facts.all_digits_without_commas.
  - destruct (is_dot c) eqn:E.
    + exists (take_while isdigit t), true.
      split; [apply decimal_facts.all_digits_without_commas |].
      split; [apply decimal_facts.all_digits_take_while |].
      rewrite decimal_facts.replace_char_app.
      unfold is_dot in E. apply Ascii.eqb_eq in E. subst c.
      simpl.
      rewrite (decimal_facts.replace_comma_id (take_while isdigit t));
        [reflexivity |].
      apply decimal_facts.all_digits_no_comma,
        decimal_facts.all_digits_take_while.
    + exists EmptyString, false.
      rewrite scan_facts.str_app_empty_r.
      auto using decimal_facts.all_digits_without_commas.
Qed.

Lemma digit_not_comma (c : ascii) :
  isdigit c = true -> Ascii.eqb c "," = false.
Proof.
  intros H. destruct (Ascii.eqb c ",") eqn:E; [| reflexivity].
  apply decimal_facts.comma_not_digit in E. congruence.
Qed.

Lemma sign_not_comma (c : ascii) :
  is_sign c = true -> Ascii.eqb c "," = false.
Proof.
  unfold is_sign. intros H. apply orb_prop in H as [H | H];
    apply Ascii.eqb_eq in H; now subst c.
Qed.

(** Without its commas, the leftmost number of a text is a [Decimal]. *)
Lemma first_number_decimal (s g : string) :
  first_number s = Some g ->
  exists d, py_Decimal (replace_char "," "" g) = Ok d.
Proof.
  revert g. induction s as [| c s IH]; intros g H; [discriminate |].
  cbn [first_number] in H.
  destruct (isdigit c) eqn:Dc.
  - injection H as <-.
    destruct (number_tail_without_commas s) as (x & b & point & Hx & Hb & E).
    simpl. rewrite (digit_not_comma c Dc), E.
    apply (decimal_facts.py_Decimal_unsigned c x b point Dc Hx Hb).
  - destruct s as [| d s']; [discriminate |].
    destruct (is_sign c && isdigit d) eqn:E; [| now apply IH].
    apply andb_prop in E as [Hs Dd]. injection H as <-.
    destruct (number_tail_without_commas s')
      as (x & b & point & Hx & Hb & E).
    simpl. rewrite (sign_not_comma c Hs), (digit_not_comma d Dd), E.
    apply (decimal_facts.py_Decimal_signed c d x b point Hs Dd Hx Hb).
Qed.

Lemma parse_price_some (text : string) :
  has_digit text = true -> exists v, parse_price text = Ok (Some v).
Proof.
  intros H. unfold parse_price.
  assert (H1 : has_digit (strip text) = true)
    by now rewrite strip_facts.has_digit_strip.
  rewrite (has_digit_nonempty _ H1).
  assert (H2 : has_digit (replace_char nbsp " " (strip text)) = true)
    by now rewrite has_digit_replace_char.
  destruct (text_facts.money_search_some _ H2) as [g Hg].
  rewrite Hg.
  rewrite scan_facts.money_search_first_number in Hg.
  destruct (first_number_decimal _ _ Hg) as [d ->].
  simpl. eauto.
Qed.

Lemma parse_price_not_nan (text : string) (v : float) :
  parse_price text = Ok (Some v) -> v <> S754_nan.
Proof.
  unfold parse_price.
  destruct (is_empty (strip text)); [discriminate |].
  destruct (re.search _money_re _) as [g |]; [| discriminate].
  destruct (py_Decimal _) as [d | e]; simpl.
  - intros [= <-]. apply float_facts.float_of_Decimal_not_nan.
  - destruct (decimal_errors e); discriminate.
Qed.

Lemma length_take_while (p : ascii -> bool) (s : string) :
  (String.length (take_while p s) <= String.length s)%nat.
Proof.
  induction s as [| c s IH]; simpl; [lia |].
  destruct (p c); simpl; lia.
Qed.

Lemma first_digit_run_spec (s g : string) :
  first_digit_run s = Some g ->
  all_digits g = true /\ is_empty g = false /\
  (String.length g <= String.length s)%nat.
Proof.
  revert g. induction s as [| c s IH]; intros g H; [discriminate |].
  cbn [first_digit_run] in H.
  destruct (isdigit c) eqn:D.
  - injection H as <-. simpl.
    rewrite D, decimal_facts.all_digits_take_while.
    pose proof (length_take_while isdigit s). repeat split. lia.
  - destruct (IH g H) as (H1 & H2 & H3). repeat split; auto.
    simpl. lia.
Qed.

Lemma length_replace_char_empty (a : ascii) (s : string) :
  (String.length (replace_char a "" s) <= String.length s)%nat.
Proof.
  induction s as [| c s IH]; simpl; [lia |].
  destruct (Ascii.eqb c a); simpl; lia.
Qed.

Lemma parse_reviews_count_some (text : string) :
  (String.length text <= int_max_str_digits)%nat ->
  has_digit text = true ->
  exists n, parse_reviews_count text = Ok (Some n).
Proof.
  intros Hlen H. unfold parse_reviews_count.
  assert (H1 : has_digit (strip text) = true)
    by now rewrite strip_facts.has_digit_strip.
  rewrite (has_digit_nonempty _ H1).
  assert (H2 : has_digit (replace_char "," "" (strip text)) = true)
    by now rewrite has_digit_replace_char.
  destruct (text_facts.int_search_some _ H2) as [g Hg].
  rewrite Hg.
  rewrite scan_facts.int_search_first_digit_run in Hg.
  destruct (first_digit_run_spec _ _ Hg) as (Hd & He & Hl).
  unfold py_int. rewrite He.
  pose proof (length_replace_char_empty "," (strip text)).
  pose proof (strip_facts.length_strip text).
  replace (int_max_str_digits <? String.length g)%nat with false
    by (symmetry; apply Nat.ltb_ge; lia).
  destruct (decimal_facts.digits_value_all_digits g Hd 0) as [n ->].
  simpl. eauto.
Qed.

End answer_facts.

(** ** The clamp of [parse_rating] *)

(** C3. Whenever [parse_rating] returns a value, the value lies in the closed
    interval [0.0, 5.0] and is the float of a decimal with one place, also
    when the text encodes a number out of range: such a number is clamped,
    not rejected.  For every text whose first number [Decimal] reads, and
    it reads every first number without a comma, [parse_rating] returns a
    value: 5.0 when the number is above 5, 0.0 when it is below 0, and the
    number rounded to one place otherwise ("7.2 out of 5" gives 5.0, "-3"
    gives 0.0).  An empty text (after trimming) gives none, and so does a
    text the pattern does not match or whose match [Decimal] refuses. *)
Theorem parse_rating_clamped :
  (forall text v,
      parse_rating text = Ok (Some v) ->
      in_rating_range v /\ one_decimal v) /\
  (forall text g1 d,
      re.search _money_re (strip text) = Some g1 ->
      py_Decimal g1 = Ok d ->
      let val := float_of_Decimal d in
      (exists v, parse_rating text = Ok (Some v)) /\
      (gt_int val 5 = true -> parse_rating text = Ok (Some float_5_0)) /\
      (lt_int val 0 = true -> parse_rating text = Ok (Some float_0_0)) /\
      (lt_int val 0 = false -> gt_int val 5 = false ->
       parse_rating text = Ok (Some (py_round val 1)))) /\
  (forall text g1,
      re.search _money_re (strip text) = Some g1 ->
      scan.has_comma g1 = false ->
      exists d, py_Decimal g1 = Ok d) /\
  parse_rating "7.2 out of 5" = Ok (Some float_5_0) /\
  parse_rating "-3" = Ok (Some float_0_0) /\
  (forall text, strip text = "" -> parse_rating text = Ok None) /\
  (forall text,
      re.search _money_re (strip text) = None ->
      parse_rating text = Ok None) /\
  (forall text g1 e,
      re.search _money_re (strip text) = Some g1 ->
      py_Decimal g1 = Raise e ->
      parse_rating text = Ok None).
Proof.
  split; [| split; [| split; [| split; [| split; [| split; [| split]]]]]].
  - intros text v H.
    destruct (text_facts.parse_rating_cases text) as [E | [d E]];
      rewrite E in H; [discriminate |].
    injection H as <-.
    apply rating_facts.clamp_round_ok, float_facts.float_of_Decimal_not_nan.
  - intros text g1 d H E val.
    assert (P : parse_rating text = Ok (Some (steps.clamp_round val))).
    { unfold parse_rating. rewrite H, E.
      destruct (strip text); [discriminate | reflexivity]. }
    rewrite P.
    destruct (rating_facts.clamp_round_cases val) as (L & G & M).
    split; [eauto |]. split; [| split].
    + intros Hgt. now rewrite (G Hgt).
    + intros Hlt. now rewrite (L Hlt).
    + intros Hlt Hgt. now rewrite (M Hlt Hgt).
  - intros text g1 H C.
    rewrite scan_facts.money_search_first_number in H.
    destruct (answer_facts.first_number_decimal _ _ H) as [d Hd].
    rewrite (decimal_facts.replace_comma_id g1 C) in Hd. eauto.
  - vm_compute. reflexivity.
  - vm_compute. reflexivity.
  - intros text H. unfold parse_rating. now rewrite H.
  - intros text H. unfold parse_rating. rewrite H.
    now destruct (is_empty (strip text)).
  - intros text g1 e H E. unfold parse_rating. rewrite H, E.
    apply text_facts.py_Decimal_raises in E. subst e.
    now destruct (is_empty (strip text)).
Qed.

Lemma parse_rating_clamped_witness :
  parse_rating "9.99 stars" = Ok (Some float_5_0) /\
  in_rating_range float_5_0 /\ one_decimal float_5_0 /\
  parse_rating "11 stars" = Ok (Some float_5_0) /\
  parse_rating "rated -250" = Ok (Some float_0_0) /\
  (exists d, py_Decimal "7.2" = Ok d) /\
  parse_rating "   " = Ok None /\
  parse_rating "n/a" = Ok None /\
  parse_rating "1,299" = Ok None.
Proof.
  destruct parse_rating_clamped
    as (Hrange & Hclamp & Hread & _ & _ & Hempty & Hnone & Hbad).
  assert (E : parse_rating "9.99 stars" = Ok (Some float_5_0))
    by (vm_compute; reflexivity).
  destruct (Hrange _ _ E) as [H1 H2].
  destruct (Hclamp "11 stars" "11" (mkDecimal false 11 0) eq_refl eq_refl)
    as (_ & Habove & _ & _).
  destruct (Hclamp "rated -250" "-250" (mkDecimal true 250 0)
              eq_refl eq_refl)
    as (_ & _ & Hbelow & _).
  split; [exact E |].
  split; [exact H1 |].
  split; [exact H2 |].
  split; [apply Habove; vm_compute; reflexivity |].
  split; [apply Hbelow; vm_compute; reflexivity |].
  split; [apply (Hread "7.2 out of 5"); reflexivity |].
  split; [apply Hempty; reflexivity |].
  split; [apply Hnone; reflexivity |].
  apply (Hbad _ "1,299" InvalidOperation); reflexivity.
Defined.

(** X5. [parse_price] returns none exactly when the text has no digit: a
    text with a digit always yields a price (the commas of its first number
    are dropped before [Decimal] reads it), and that price is never a NaN. *)
Theorem parse_price_none_iff_no_digit :
  (forall text,
      parsers.parse_price text = Ok None <-> pystr.has_digit text = false) /\
  (forall text v,
      parsers.parse_price text = Ok (Some v) -> v <> S754_nan).
Proof.
  split.
  - intros text. split.
    + intros H. destruct (pystr.has_digit text) eqn:D; [| reflexivity].
      destruct (answer_facts.parse_price_some text D) as [v Hv]. congruence.
    + apply text_facts.parse_price_no_digit.
  - apply answer_facts.parse_price_not_nan.
Qed.

Lemma parse_price_none_iff_no_digit_witness :
  parsers.parse_price "price on request" = Ok None /\
  pynum.float_of_Decimal (pynum.mkDecimal true 1299 0) <> S754_nan.
Proof.
  split.
  - apply (proj1 parse_price_none_iff_no_digit). reflexivity.
  - apply (proj2 parse_price_none_iff_no_digit "-1,299 CAD").
    vm_compute. reflexivity.
Defined.

(** X6. On a text of at most 4300 characters (the interpreter's limit on the
    digits [int] reads), [parse_reviews_count] returns none exactly when the
    text has no digit; the count it returns is never negative, whatever the
    text. *)
Theorem parse_reviews_count_none_iff_no_digit :
  (forall text,
      (String.length text <= pynum.int_max_str_digits)%nat ->
      (parsers.parse_reviews_count text = Ok None
       <-> pystr.has_digit text = false)) /\
  (forall text n, parsers.parse_reviews_count text = Ok (Some n) -> 0 <= n).
Proof.
  split.
  - intros text Hlen. split.
    + intros H. destruct (pystr.has_digit text) eqn:D; [| reflexivity].
      destruct (answer_facts.parse_reviews_count_some text Hlen D) as [n Hn].
      congruence.
    + apply text_facts.parse_reviews_count_no_digit.
  - intros text n. apply record_facts.parse_reviews_count_nonneg.
Qed.

Lemma parse_reviews_count_none_iff_no_digit_witness :
  parsers.parse_reviews_count "(no reviews yet)" = Ok None /\
  0 <= 1024.
Proof.
  split.
  - apply (proj1 parse_reviews_count_none_iff_no_digit "(no reviews yet)"
             ltac:(vm_compute; lia)).
    reflexivity.
  - apply (proj2 parse_reviews_count_none_iff_no_digit "(1,024 reviews)").
    vm_compute. reflexivity.
Defined.

(** X7. [parse_rating] returns none exactly when the trimmed text has no
    number or its first number holds a comma: unlike [parse_price] it hands
    the match to [Decimal] with its commas, and [Decimal] refuses them. *)
Theorem parse_rating_none_iff_comma (text : string) :
  parsers.parse_rating text = Ok None
  <-> match re.search parsers._money_re (pystr.strip text) with
      | Some g1 => scan.has_comma g1 = true
      | None => True
      end.
Proof.
  unfold parsers.parse_rating.
  destruct (pystr.is_empty (pystr.strip text)) eqn:E.
  - destruct (pystr.strip text); [| discriminate]. simpl. tauto.
  - destruct (re.search parsers._money_re (pystr.strip text)) as [g |] eqn:Hg;
      [| tauto].
    destruct (pynum.py_Decimal g) as [d | e] eqn:Hd; simpl.
    + rewrite (decimal_facts.py_Decimal_no_comma g d Hd).
      split; discriminate.
    + pose proof (text_facts.py_Decimal_raises _ _ Hd) as ->. simpl.
      split; [| reflexivity]. intros _.
      destruct (scan.has_comma g) eqn:C; [reflexivity |].
      rewrite scan_facts.money_search_first_number in Hg.
      destruct (answer_facts.first_number_decimal _ _ Hg) as [d Hd'].
      rewrite (decimal_facts.replace_comma_id g C) in Hd'.
      congruence.
Qed.

(** ** The reasons dict, entry by entry *)

Module reasons_facts.

Import validations reasons.

Lemma add_reason_map (d : dict) (f : Row -> bool) (l : list Row)
  (k : string) :
  add_reason d (map f l) k
  = if 0 <? count_rows f l
    then dict_set d k (dict_get d k 0 + count_rows f l)
    else d.
Proof.
  unfold add_reason. now rewrite validation_facts.mask_sum_map.
Qed.

Lemma listed_unfold (df : DataFrame) :
  listed df
  = ((if has_column df "name" && (0 <? count_rows name_rule (rows df))
      then [("invalid_name", count_rows name_rule (rows df))] else [])
     ++ (if has_column df "sku" && (0 <? count_rows sku_rule (rows df))
         then [("invalid_sku", count_rows sku_rule (rows df))] else [])
     ++ (if has_column df "price_list"
            && (0 <? count_rows price_list_rule (rows df))
         then [("invalid_price_list", count_rows price_list_rule (rows df))]
         else [])
     ++ (if has_column df "price_sale"
            && (0 <? count_rows price_sale_rule (rows df))
         then [("invalid_price_sale", count_rows price_sale_rule (rows df))]
         else [])
     ++ (if has_column df "rating" && (0 <? count_rows rating_rule (rows df))
         then [("invalid_rating", count_rows rating_rule (rows df))] else [])
     ++ (if has_column df "reviews_count"
            && (0 <? count_rows reviews_rule (rows df))
         then [("invalid_reviews_count", count_rows reviews_rule (rows df))]
         else [])
     ++ [])%list.
Proof. reflexivity. Qed.

(** The dict [validate_products] builds is [listed]. *)
Lemma validate_products_reasons (df : DataFrame) (valid : DataFrame)
  (report : ValidationReport) :
  validate_products df = Ok (valid, report) ->
  invalid_reasons report = listed df.
Proof.
  unfold validate_products, column.
  destruct (has_column df "name") eqn:Hname; [| discriminate].
  destruct (has_column df "sku") eqn:Hsku; [| discriminate].
  simpl bind. cbv zeta. intros [= _ <-].
  cbn [invalid_reasons].
  rewrite listed_unfold, Hname, Hsku.
  rewrite !validation_facts.text_invalid_map.
  repeat rewrite ?validation_facts.mask_and_map,
    ?validation_facts.mask_or_map.
  change (fun r => isna (name r)
                   || String.eqb (pystr.strip (astype_str (name r))) "")
    with name_rule.
  change (fun r => isna (sku r)
                   || String.eqb (pystr.strip (astype_str (sku r))) "")
    with sku_rule.
  change (fun x => float_notna (price_list x)
                   && pynum.le_int (price_list x) 0)
    with price_list_rule.
  change (fun x => float_notna (price_sale x)
                   && pynum.le_int (price_sale x) 0)
    with price_sale_rule.
  change (fun x => float_notna (rating x)
                   && (pynum.lt_int (rating x) 0
                       || pynum.gt_int (rating x) 5))
    with rating_rule.
  change (fun x => negb (isna (reviews_count x))
                   && match reviews_count x with
                      | Some n => n <? 0
                      | None => false
                      end)
    with reviews_rule.
  rewrite !add_reason_map.
  generalize (count_rows name_rule (rows df)) as c1.
  generalize (count_rows sku_rule (rows df)) as c2.
  generalize (count_rows price_list_rule (rows df)) as c3.
  generalize (count_rows price_sale_rule (rows df)) as c4.
  generalize (count_rows rating_rule (rows df)) as c5.
  generalize (count_rows reviews_rule (rows df)) as c6.
  intros c6 c5 c4 c3 c2 c1.
  destruct (has_column df "price_list"), (has_column df "price_sale"),
    (has_column df "rating"), (has_column df "reviews_count");
    destruct (0 <? c1), (0 <? c2), (0 <? c3), (0 <? c4), (0 <? c5),
      (0 <? c6); reflexivity.
Qed.

End reasons_facts.
(** ** Counting rows *)

Module count_facts.

Import validations reasons.

Lemma ok_columns (df : DataFrame) (out : DataFrame * ValidationReport) :
  validate_products df = Ok out ->
  has_column df "name" = true /\ has_column df "sku" = true.
Proof.
  unfold validate_products, column.
  destruct (has_column df "name"); [| discriminate].
  destruct (has_column df "sku"); [auto | discriminate].
Qed.

Lemma count_rows_le (f g : Row -> bool) (l : list Row) :
  (forall r, f r = true -> g r = true) ->
  count_rows f l <= count_rows g l.
Proof.
  intros H. induction l as [| r l IH].
  - unfold count_rows. simpl. lia.
  - rewrite !validation_facts.count_rows_cons.
    destruct (f r) eqn:E; [rewrite (H r E) | destruct (g r)]; lia.
Qed.

Lemma count_rows_or (f g : Row -> bool) (l : list Row) :
  count_rows (fun r => f r || g r) l <= count_rows f l + count_rows g l.
Proof.
  induction l as [| r l IH].
  - unfold count_rows. simpl. lia.
  - rewrite !validation_facts.count_rows_cons. cbv beta.
    destruct (f r), (g r); cbn [orb]; lia.
Qed.

Lemma count_rows_false (l : list Row) : count_rows (fun _ => false) l = 0.
Proof.
  induction l as [| r l IH]; [reflexivity |].
  now rewrite validation_facts.count_rows_cons, IH.
Qed.

Lemma count_rows_if (b : bool) (f : Row -> bool) (l : list Row) :
  count_rows (fun r => b && f r) l = if b then count_rows f l else 0.
Proof.
  destruct b; [reflexivity | apply count_rows_false].
Qed.

Lemma dict_sum_app (a b : dict) :
  dict_sum (a ++ b)%list = dict_sum a + dict_sum b.
Proof.
  unfold dict_sum. induction a as [| x a IH]; simpl; [reflexivity |].
  rewrite IH. lia.
Qed.

Lemma dict_sum_one (k : string) (v : Z) : dict_sum [(k, v)] = v.
Proof. unfold dict_sum. simpl. lia. Qed.

(** The rows that trigger some rule are at most the sum of the counters. *)
Lemma count_any_le_sum (df : DataFrame)
  (rs : list (string * (Row -> bool))) :
  count_rows
    (fun r => existsb (fun cr => has_column df (rule_column (fst cr))
                                 && snd cr r) rs) (rows df)
  <= dict_sum
       (flat_map
          (fun cr : string * (Row -> bool) =>
             let n := count_rows (snd cr) (rows df) in
             if has_column df (rule_column (fst cr)) && (0 <? n)
             then [(fst cr, n)] else []) rs).
Proof.
  induction rs as [| cr rs IH].
  - simpl. rewrite count_rows_false. reflexivity.
  - cbn [existsb flat_map].
    pose proof (count_rows_or
                  (fun r => has_column df (rule_column (fst cr)) && snd cr r)
                  (fun r => existsb
                              (fun cr => has_column df (rule_column (fst cr))
                                         && snd cr r) rs)
                  (rows df)) as Hor.
    rewrite count_rows_if in Hor.
    pose proof (validation_facts.count_rows_nonneg (snd cr) (rows df)) as Hn.
    rewrite dict_sum_app. etransitivity; [exact Hor |]. clear Hor.
    cbv zeta in IH |- *.
    destruct (has_column df (rule_column (fst cr))); cbn [andb].
    + destruct (0 <? count_rows (snd cr) (rows df)) eqn:E.
      * rewrite dict_sum_one. lia.
      * apply Z.ltb_ge in E. change (dict_sum []) with 0. lia.
    + change (dict_sum []) with 0. lia.
Qed.

Lemma any_le_sum (df : DataFrame) :
  count_rows (triggers_any df) (rows df) <= dict_sum (listed df).
Proof. exact (count_any_le_sum df rules). Qed.

(** An entry of the dict is the positive count of a rule the frame has the
    column of. *)
Lemma listed_entry (df : DataFrame) (k : string) (v : Z) :
  In (k, v) (listed df) ->
  exists rule,
    In (k, rule) rules /\ has_column df (rule_column k) = true /\
    v = count_rows rule (rows df) /\ 0 < v.
Proof.
  unfold listed. rewrite in_flat_map.
  intros [[k' rule] [Hin H]]. cbv zeta in H. cbn [fst snd] in H.
  destruct (has_column df (rule_column k')) eqn:Hc; [| destruct H].
  destruct (0 <? count_rows rule (rows df)) eqn:E; [| destruct H].
  destruct H as [[= <- <-] | []].
  exists rule. apply Z.ltb_lt in E. auto.
Qed.

Lemma rule_le_any (df : DataFrame) (k : string) (rule : Row -> bool) :
  In (k, rule) rules -> has_column df (rule_column k) = true ->
  count_rows rule (rows df) <= count_rows (triggers_any df) (rows df).
Proof.
  intros Hin Hc. apply count_rows_le. intros r Hr.
  unfold triggers_any. apply existsb_exists.
  exists (k, rule). split; [exact Hin |]. cbn [fst snd].
  now rewrite Hc, Hr.
Qed.

Lemma listed_nil_iff (df : DataFrame) :
  listed df = [] <-> count_rows (triggers_any df) (rows df) = 0.
Proof.
  pose proof (validation_facts.count_rows_nonneg (triggers_any df) (rows df)).
  split.
  - intros E. pose proof (any_le_sum df) as Hle. rewrite E in Hle.
    change (dict_sum []) with 0 in Hle. lia.
  - intros E. destruct (listed df) as [| [k v] d] eqn:L; [reflexivity |].
    destruct (listed_entry df k v) as (rule & Hin & Hc & -> & Hpos);
      [rewrite L; now left |].
    pose proof (rule_le_any df k rule Hin Hc). lia.
Qed.

Lemma filter_idem {A : Type} (f : A -> bool) (l : list A) :
  filter f (filter f l) = filter f l.
Proof.
  induction l as [| x l IH]; [reflexivity |].
  simpl. destruct (f x) eqn:E; [| exact IH].
  simpl. now rewrite E, IH.
Qed.

Lemma filter_all {A : Type} (f : A -> bool) (l : list A) :
  List.length (filter f l) = List.length l -> filter f l = l.
Proof.
  induction l as [| x l IH]; [reflexivity |].
  simpl. destruct (f x); simpl; intros H.
  - f_equal. apply IH. lia.
  - pose proof (filter_length_le f l). lia.
Qed.

End count_facts.

(** X9. The reasons dict of the report lists, in the order of the rules
    (name, sku, price_list, price_sale, rating, reviews_count), exactly the
    reason codes with a non-zero count, each with the number of rows that
    trigger its rule; a reason no row triggers has no entry. *)
Theorem reasons_listed_in_rule_order (df valid : DataFrame)
  (report : ValidationReport) :
  validate_products df = Ok (valid, report) ->
  invalid_reasons report = reasons.listed df.
Proof. apply reasons_facts.validate_products_reasons. Qed.

Lemma reasons_listed_in_rule_order_witness :
  exists valid report,
    validate_products
      (mkDataFrame record_columns [row_valid; row_two_reasons])
    = Ok (valid, report) /\
    invalid_reasons report
    = [("invalid_price_list", 1); ("invalid_rating", 1)].
Proof.
  destruct (validate_products
              (mkDataFrame record_columns [row_valid; row_two_reasons]))
    as [[valid report] | e] eqn:E; [| discriminate E].
  exists valid, report. split; [reflexivity |].
  rewrite (reasons_listed_in_rule_order _ _ _ E). reflexivity.
Defined.

(** X10. Every counter of the reasons dict is positive and at most
    [invalid_rows], and [invalid_rows] is at most the sum of the counters: a
    row invalid for several reasons is in several counters but counted once
    in [invalid_rows]. *)
Theorem invalid_rows_between_counters (df valid : DataFrame)
  (report : ValidationReport) :
  validate_products df = Ok (valid, report) ->
  (forall k v, In (k, v) (invalid_reasons report) ->
               0 < v <= invalid_rows report) /\
  invalid_rows report <= reasons.dict_sum (invalid_reasons report).
Proof.
  intros H.
  rewrite (reasons_facts.validate_products_reasons df valid report H).
  destruct (count_facts.ok_columns df _ H) as [Hname Hsku].
  destruct (validation_facts.validate_products_eq df Hname Hsku)
    as (rs & E & _).
  rewrite E in H. injection H as _ <-. cbn [invalid_rows].
  split.
  - intros k v Hin.
    destruct (count_facts.listed_entry df k v Hin)
      as (rule & Hr & Hc & -> & Hpos).
    split; [exact Hpos | now apply (count_facts.rule_le_any df k)].
  - apply count_facts.any_le_sum.
Qed.

Lemma invalid_rows_between_counters_witness :
  exists valid report,
    validate_products
      (mkDataFrame record_columns [row_valid; row_two_reasons])
    = Ok (valid, report) /\
    invalid_rows report = 1 /\
    reasons.dict_sum (invalid_reasons report) = 2 /\
    invalid_rows report <= reasons.dict_sum (invalid_reasons report).
Proof.
  destruct (validate_products
              (mkDataFrame record_columns [row_valid; row_two_reasons]))
    as [[valid report] | e] eqn:E; [| discriminate E].
  exists valid, report. split; [reflexivity |].
  pose proof (proj2 (invalid_rows_between_counters _ _ _ E)) as H.
  injection E as <- <-.
  split; [reflexivity |]. split; [reflexivity | exact H].
Defined.

(** X11. The reasons dict is empty exactly when [invalid_rows] is 0, and
    then the valid frame holds every input row. *)
Theorem reasons_empty_iff_all_valid (df valid : DataFrame)
  (report : ValidationReport) :
  validate_products df = Ok (valid, report) ->
  (invalid_reasons report = [] <-> invalid_rows report = 0) /\
  (invalid_rows report = 0 -> rows valid = rows df).
Proof.
  intros H.
  rewrite (reasons_facts.validate_products_reasons df valid report H).
  destruct (count_facts.ok_columns df _ H) as [Hname Hsku].
  destruct (validation_facts.validate_products_eq df Hname Hsku)
    as (rs & E & _).
  rewrite E in H. injection H as <- <-.
  cbn [invalid_rows rows]. split.
  - apply count_facts.listed_nil_iff.
  - intros H0.
    pose proof (validation_facts.count_rows_split (triggers_any df)
                  (rows df)) as Hs.
    rewrite H0, Z.add_0_r in Hs. apply Nat2Z.inj in Hs.
    now apply count_facts.filter_all.
Qed.

Lemma reasons_empty_iff_all_valid_witness :
  exists valid report,
    validate_products (mkDataFrame record_columns [row_valid])
    = Ok (valid, report) /\
    invalid_reasons report = [] /\ rows valid = [row_valid].
Proof.
  destruct (validate_products (mkDataFrame record_columns [row_valid]))
    as [[valid report] | e] eqn:E; [| discriminate E].
  exists valid, report. split; [reflexivity |].
  destruct (reasons_empty_iff_all_valid _ _ _ E) as [Hiff Hrows].
  assert (H0 : invalid_rows report = 0)
    by (injection E as _ <-; reflexivity).
  split; [apply Hiff, H0 | apply Hrows, H0].
Defined.

(** X12. Validating the valid frame again changes nothing: it is returned
    whole, with no invalid row and an empty reasons dict. *)
Theorem validate_products_idempotent (df valid : DataFrame)
  (report : ValidationReport) :
  validate_products df = Ok (valid, report) ->
  validate_products valid
  = Ok (valid,
        mkValidationReport (valid_rows report) (valid_rows report) 0 []).
Proof.
  intros H.
  destruct (count_facts.ok_columns df _ H) as [Hname Hsku].
  destruct (validation_facts.validate_products_eq df Hname Hsku)
    as (rs & E & _).
  rewrite E in H. injection H as <- <-. cbn [valid_rows].
  set (valid := mkDataFrame (columns df)
                  (filter (fun r => negb (triggers_any df r)) (rows df))).
  assert (Hany : forall r, triggers_any valid r = triggers_any df r)
    by reflexivity.
  destruct (validation_facts.validate_products_eq valid Hname Hsku)
    as (rs' & E' & _).
  assert (Hfilter : filter (fun r => negb (triggers_any valid r)) (rows valid)
                    = rows valid).
  { subst valid. cbn [rows]. apply count_facts.filter_idem. }
  assert (Hzero : count_rows (triggers_any valid) (rows valid) = 0).
  { pose proof (validation_facts.count_rows_split (triggers_any valid)
                  (rows valid)) as Hs.
    rewrite Hfilter in Hs. lia. }
  pose proof (reasons_facts.validate_products_reasons valid _ _ E') as Hrs.
  cbn [invalid_reasons] in Hrs.
  rewrite (proj2 (count_facts.listed_nil_iff valid) Hzero) in Hrs.
  rewrite E', Hfilter, Hzero, Hrs. reflexivity.
Qed.

Lemma validate_products_idempotent_witness :
  validate_products (mkDataFrame record_columns [row_valid])
  = Ok (mkDataFrame record_columns [row_valid],
        mkValidationReport 1 1 0 []).
Proof.
  assert (E : validate_products
                (mkDataFrame record_columns [row_two_reasons; row_valid])
              = Ok (mkDataFrame record_columns [row_valid],
                    mkValidationReport 2 1 1
                      [("invalid_price_list", 1); ("invalid_rating", 1)]))
    by (vm_compute; reflexivity).
  exact (validate_products_idempotent _ _ _ E).
Defined.

(** ** [dedupe_latest] *)

Module dedupe_facts.

Import validations transform.

Lemma cell_eqb_eq (a b : option string) : cell_eqb a b = true <-> a = b.
Proof.
  destruct a as [x |], b as [y |]; simpl; try (split; congruence).
  rewrite String.eqb_eq. split; congruence.
Qed.

Lemma later_sku_iff (r : Row) (rs : list Row) :
  existsb (fun r' => cell_eqb (sku r') (sku r)) rs = true
  <-> In (sku r) (map sku rs).
Proof.
  rewrite existsb_exists, in_map_iff.
  split; intros (x & H1 & H2).
  - exists x. split; [now apply cell_eqb_eq | exact H1].
  - exists x. split; [exact H2 | now apply cell_eqb_eq].
Qed.

Lemma drop_keeps_skus (rs : list Row) (k : option string) :
  In k (map sku (drop_duplicates_last rs)) <-> In k (map sku rs).
Proof.
  induction rs as [| r rs IH]; simpl; [tauto |].
  destruct (existsb _ rs) eqn:E.
  - rewrite IH. split; [auto |]. intros [<- | H]; [| exact H].
    now apply later_sku_iff.
  - simpl. now rewrite IH.
Qed.

Lemma drop_unique (rs : list Row) :
  NoDup (map sku (drop_duplicates_last rs)).
Proof.
  induction rs as [| r rs IH]; simpl; [constructor |].
  destruct (existsb _ rs) eqn:E; [exact IH |].
  simpl. constructor; [| exact IH].
  rewrite drop_keeps_skus. intros H. apply later_sku_iff in H. congruence.
Qed.

Lemma drop_app (before after : list Row) :
  drop_duplicates_last (before ++ after)
  = (filter (fun x => negb (existsb (fun y => cell_eqb (sku y) (sku x)) after))
       (drop_duplicates_last before)
     ++ drop_duplicates_last after)%list.
Proof.
  induction before as [| r before IH]; [reflexivity |].
  cbn [app drop_duplicates_last]. rewrite existsb_app.
  destruct (existsb _ before); cbn [orb]; [exact IH |].
  cbn [filter].
  destruct (existsb _ after); cbn [negb]; [exact IH |].
  cbn [app]. now rewrite IH.
Qed.

Lemma drop_unchanged (rs : list Row) :
  NoDup (map sku rs) -> drop_duplicates_last rs = rs.
Proof.
  induction rs as [| r rs IH]; simpl; intros H; [reflexivity |].
  inversion H as [| k ks Hnotin Hrest]; subst.
  destruct (existsb _ rs) eqn:E.
  - apply later_sku_iff in E. contradiction.
  - now rewrite IH.
Qed.

Lemma dedupe_rows (df : DataFrame) :
  has_column df "sku" = true ->
  rows (dedupe_latest df) = drop_duplicates_last (rows df).
Proof. intros H. unfold dedupe_latest. now rewrite H. Qed.

End dedupe_facts.

(** X13. After [dedupe_latest], on a frame with a [sku] column, no two rows
    share a SKU, and the SKUs present are those of the input; the columns are
    kept. *)
Theorem dedupe_latest_unique_skus (df : DataFrame) :
  has_column df "sku" = true ->
  NoDup (map sku (rows (transform.dedupe_latest df))) /\
  (forall k, In k (map sku (rows (transform.dedupe_latest df)))
             <-> In k (map sku (rows df))) /\
  columns (transform.dedupe_latest df) = columns df.
Proof.
  intros H. unfold transform.dedupe_latest. rewrite H. cbn.
  split; [apply dedupe_facts.drop_unique |].
  split; [apply dedupe_facts.drop_keeps_skus | reflexivity].
Qed.

Lemma dedupe_latest_unique_skus_witness :
  rows (transform.dedupe_latest
          (mkDataFrame record_columns
             [row_valid; row_two_reasons; more_examples.row_repriced]))
  = [row_two_reasons; more_examples.row_repriced] /\
  NoDup [sku row_two_reasons; sku more_examples.row_repriced].
Proof.
  split; [reflexivity |].
  exact (proj1 (dedupe_latest_unique_skus
                  (mkDataFrame record_columns
                     [row_valid; row_two_reasons;
                      more_examples.row_repriced]) eq_refl)).
Defined.

(** X14. The latest row of a SKU wins: deduplicating a batch followed by a
    later batch gives the deduplicated earlier batch without the rows whose
    SKU comes again in the later one, then the deduplicated later batch. *)
Theorem dedupe_latest_later_batch_wins (cols : list string)
  (before after : list Row) :
  existsb (String.eqb "sku") cols = true ->
  rows (transform.dedupe_latest (mkDataFrame cols (before ++ after)))
  = (filter
       (fun x =>
          negb (existsb (fun y => transform.cell_eqb (sku y) (sku x)) after))
       (rows (transform.dedupe_latest (mkDataFrame cols before)))
     ++ rows (transform.dedupe_latest (mkDataFrame cols after)))%list.
Proof.
  intros H. unfold transform.dedupe_latest, has_column. cbn [columns rows].
  rewrite H. cbn. apply dedupe_facts.drop_app.
Qed.

Lemma dedupe_latest_later_batch_wins_witness :
  rows (transform.dedupe_latest
          (mkDataFrame record_columns
             ([row_valid; row_two_reasons] ++ [more_examples.row_repriced])))
  = [row_two_reasons; more_examples.row_repriced].
Proof.
  rewrite (dedupe_latest_later_batch_wins record_columns
             [row_valid; row_two_reasons] [more_examples.row_repriced]
             eq_refl).
  reflexivity.
Defined.

(** X15. [dedupe_latest] is idempotent, and it returns the frame as it is
    when the frame has no [sku] column or no SKU twice. *)
Theorem dedupe_latest_idempotent :
  (forall df,
      transform.dedupe_latest (transform.dedupe_latest df)
      = transform.dedupe_latest df) /\
  (forall df,
      has_column df "sku" = false -> transform.dedupe_latest df = df) /\
  (forall df,
      NoDup (map sku (rows df)) -> transform.dedupe_latest df = df).
Proof.
  assert (Hid : forall df, NoDup (map sku (rows df)) ->
                           transform.dedupe_latest df = df).
  { intros [cols rs] H. unfold transform.dedupe_latest. cbn [rows] in H.
    destruct (negb _); [reflexivity |]. cbn [columns rows].
    now rewrite dedupe_facts.drop_unchanged. }
  split; [| split; [| exact Hid]].
  - intros df. destruct (has_column df "sku") eqn:H.
    + apply Hid. rewrite (dedupe_facts.dedupe_rows df H).
      apply dedupe_facts.drop_unique.
    + unfold transform.dedupe_latest. rewrite H. cbn. now rewrite H.
  - intros df H. unfold transform.dedupe_latest. now rewrite H.
Qed.

Lemma dedupe_latest_idempotent_witness :
  transform.dedupe_latest
    (mkDataFrame record_columns [row_valid; row_two_reasons])
  = mkDataFrame record_columns [row_valid; row_two_reasons].
Proof.
  apply (proj2 (proj2 dedupe_latest_idempotent)).
  cbn [rows map]. repeat constructor; simpl; intuition discriminate.
Defined.

(** ** The delays [time.sleep] takes *)

Module sleep_facts.

Import pynum.

Lemma shr_1_half (mrs : shr_record) :
  0 <= shr_m mrs -> shr_m (shr_1 mrs) = shr_m mrs / 2.
Proof.
  destruct mrs as [m r s]; cbn [shr_m shr_1].
  destruct m as [| p | p]; [reflexivity | | lia]. intros _.
  destruct p as [p | p |]; cbn [shr_m].
  - rewrite Pos2Z.inj_xI. apply (Z.div_unique _ 2 _ 1); lia.
  - rewrite Pos2Z.inj_xO. apply (Z.div_unique _ 2 _ 0); lia.
  - reflexivity.
Qed.

Lemma iter_shr_1 (p : positive) :
  forall mrs, 0 <= shr_m mrs ->
              shr_m (iter_pos shr_1 p mrs) = shr_m mrs / 2 ^ Zpos p.
Proof.
  assert (Hdiv : forall a b c, 0 < b -> 0 < c -> a / b / c = a / (b * c))
    by (intros; apply Z.div_div; lia).
  assert (Hinv : forall q x, 0 <= shr_m x -> 0 <= shr_m (iter_pos shr_1 q x))
    by (intros q x; apply (float_facts.iter_pos_invariant
                             (fun x => 0 <= shr_m x));
        apply float_facts.shr_1_nonneg).
  induction p as [p IH | p IH |]; intros mrs H; cbn [iter_pos].
  - pose proof (float_facts.shr_1_nonneg _ H) as H1.
    rewrite (IH _ (Hinv p _ H1)), (IH _ H1), shr_1_half by exact H.
    assert (Hp : 0 < 2 ^ Zpos p) by (apply Z.pow_pos_nonneg; lia).
    rewrite !Hdiv by lia. f_equal.
    replace (Zpos p~1) with (1 + Zpos p + Zpos p) by lia.
    rewrite !Z.pow_add_r by lia. lia.
  - rewrite (IH _ (Hinv p _ H)), (IH _ H).
    assert (Hp : 0 < 2 ^ Zpos p) by (apply Z.pow_pos_nonneg; lia).
    rewrite !Hdiv by lia. f_equal.
    replace (Zpos p~0) with (Zpos p + Zpos p) by lia.
    rewrite !Z.pow_add_r by lia. lia.
  - now rewrite shr_1_half.
Qed.

(** [shr] divides the mantissa by a power of two and raises the exponent by
    as much. *)
Lemma shr_spec (mrs : shr_record) (e n : Z) :
  0 <= shr_m mrs ->
  shr_m (fst (shr mrs e n)) = shr_m mrs / 2 ^ Z.max 0 n /\
  snd (shr mrs e n) = e + Z.max 0 n.
Proof.
  intros H. unfold shr. destruct n as [| p | p]; cbn [fst snd].
  - change (2 ^ Z.max 0 0) with 1. rewrite Z.div_1_r. lia.
  - rewrite iter_shr_1 by exact H. split; [f_equal; f_equal |]; lia.
  - replace (Z.max 0 (Z.neg p)) with 0 by lia.
    change (2 ^ 0) with 1. rewrite Z.div_1_r. lia.
Qed.

Lemma round_nearest_even_le (m : Z) (l : location) :
  round_nearest_even m l <= m + 1.
Proof.
  destruct l as [| []]; cbn [round_nearest_even]; try lia.
  destruct (Z.even m); lia.
Qed.

Lemma digits2_pos_le (p : positive) :
  2 ^ Zpos (digits2_pos p) <= 2 * Zpos p.
Proof.
  induction p as [p IH | p IH |]; cbn [digits2_pos].
  - rewrite Pos2Z.inj_succ, Z.pow_succ_r by lia. lia.
  - rewrite Pos2Z.inj_succ, Z.pow_succ_r by lia. lia.
  - reflexivity.
Qed.

Lemma fexp_eq (x : Z) : fexp prec emax x = Z.max (x - 53) (-1074).
Proof. reflexivity. Qed.

Lemma pow2_pos (a : Z) : 0 <= a -> 0 < 2 ^ a.
Proof. intros H. apply Z.pow_pos_nonneg; lia. Qed.

(** The rounded product of a delay of at most a million seconds, at most
    10^15 nanoseconds before rounding, is far below 2^63.  The exponents may
    be negative: [N] scales both sides to integers. *)
Lemma binary_round_aux_small (M : positive) (E N : Z) :
  0 <= N -> 0 <= E + N ->
  Zpos M * 2 ^ (E + N) <= 10 ^ 15 * 2 ^ N ->
  let d := binary_round_aux prec emax false (Zpos M) E loc_Exact in
  lt_int d (2 ^ 63) = true /\ ge_int d (- 2 ^ 63) = true.
Proof.
  intros HN HE HM. cbv zeta. unfold binary_round_aux, shr_fexp.
  set (k1 := fexp prec emax (Zdigits2 (Zpos M) + E) - E).
  destruct (shr_spec (shr_record_of_loc (Zpos M) loc_Exact) E k1
              ltac:(cbn; lia)) as [Hm1 He1].
  destruct (shr (shr_record_of_loc (Zpos M) loc_Exact) E k1) as [mrs1 e1].
  cbn [fst snd shr_record_of_loc shr_m] in Hm1, He1.
  set (mr := round_nearest_even (shr_m mrs1) (loc_of_shr_record mrs1)).
  set (k2 := fexp prec emax (Zdigits2 mr + e1) - e1).
  assert (H1 : 0 <= shr_m mrs1)
    by (rewrite Hm1; apply Z.div_pos; [lia | apply pow2_pos; lia]).
  assert (Hr0 : 0 <= mr)
    by (apply float_facts.round_nearest_even_nonneg; exact H1).
  assert (Hr1 : mr <= shr_m mrs1 + 1) by apply round_nearest_even_le.
  destruct (shr_spec (shr_record_of_loc mr loc_Exact) e1 k2
              ltac:(cbn; lia)) as [Hm2 He2].
  destruct (shr (shr_record_of_loc mr loc_Exact) e1 k2) as [mrs2 e2].
  cbn [fst snd shr_record_of_loc shr_m] in Hm2, He2.
  set (j1 := Z.max 0 k1) in *. set (j2 := Z.max 0 k2) in *.
  assert (Hj1 : 0 <= j1) by (subst j1; lia).
  assert (Hj2 : 0 <= j2) by (subst j2; lia).
  assert (A1 : shr_m mrs1 * 2 ^ j1 <= Zpos M).
  { rewrite Hm1, Z.mul_comm. apply Z.mul_div_le, pow2_pos; lia. }
  assert (A2 : shr_m mrs2 * 2 ^ j2 <= mr).
  { rewrite Hm2, Z.mul_comm. apply Z.mul_div_le, pow2_pos; lia. }
  assert (H2 : 0 <= shr_m mrs2)
    by (rewrite Hm2; apply Z.div_pos; [lia | apply pow2_pos; lia]).
  pose proof (pow2_pos N HN) as PN.
  pose proof (pow2_pos (E + N) HE) as PE.
  pose proof (pow2_pos j1 Hj1) as P1.
  pose proof (pow2_pos j2 Hj2) as P2.
  assert (He1N : 0 <= e1 + N) by lia.
  pose proof (pow2_pos (e1 + N) He1N) as Pe1.
  (* the unit in the last place is small *)
  assert (Hulp : 2 ^ (e1 + N) <= 10 ^ 15 * 2 ^ N).
  { destruct (Z.leb_spec k1 0) as [Hk | Hk].
    - replace e1 with E by lia. nia.
    - assert (Hd : Zpos (digits2_pos M) + E < 52).
      { pose proof (digits2_pos_le M) as Hdig.
        assert (Hlt : 2 ^ (Zpos (digits2_pos M) + (E + N)) < 2 ^ (52 + N)).
        { rewrite (Z.pow_add_r 2 (Zpos (digits2_pos M)) (E + N)),
            (Z.pow_add_r 2 52 N) by lia.
          assert (Hmul : 2 ^ Zpos (digits2_pos M) * 2 ^ (E + N)
                         <= 2 * Zpos M * 2 ^ (E + N))
            by (apply Z.mul_le_mono_nonneg_r; lia).
          change (2 ^ 52) with 4503599627370496.
          change (10 ^ 15) with 1000000000000000 in HM. lia. }
        apply Z.pow_lt_mono_r_iff in Hlt; lia. }
      assert (He : e1 <= 0).
      { rewrite He1. subst j1 k1. rewrite fexp_eq in *.
        cbn [Zdigits2] in *. lia. }
      transitivity (2 ^ N); [apply Z.pow_le_mono_r; lia |].
      change (10 ^ 15) with 1000000000000000. lia. }
  assert (Hval : shr_m mrs2 * 2 ^ (e2 + N) < 2 ^ 63 * 2 ^ N).
  { replace (e2 + N) with (j2 + (e1 + N)) by lia.
    replace (e1 + N) with (j1 + (E + N)) in * by lia.
    rewrite !Z.pow_add_r in * by lia.
    change (10 ^ 15) with 1000000000000000 in *.
    change (2 ^ 63) with 9223372036854775808.
    nia. }
  destruct (shr_m mrs2) as [| m2 | m2] eqn:Em2; [| | lia].
  - split; reflexivity.
  - assert (He2lt : e2 < 63).
    { assert (Hlt : 2 ^ (e2 + N) < 2 ^ (63 + N)).
      { rewrite (Z.pow_add_r 2 63 N) by lia.
        pose proof (pow2_pos (e2 + N) ltac:(lia)). nia. }
      apply Z.pow_lt_mono_r_iff in Hlt; lia. }
    replace (e2 <=? emax - prec) with true
      by (symmetry; apply Z.leb_le; unfold emax, prec; lia).
    unfold lt_int, ge_int, compare_int. cbn [cond_Zopp].
    destruct (Z.leb_spec 0 e2) as [Hpos | Hneg].
    + assert (Hc : Zpos m2 * 2 ^ e2 < 2 ^ 63).
      { rewrite Z.pow_add_r in Hval by lia. nia. }
      pose proof (pow2_pos e2 Hpos).
      assert (C1 : (Zpos m2 * 2 ^ e2 ?= 2 ^ 63) = Lt)
        by (apply Z.compare_lt_iff; exact Hc).
      assert (C2 : (Zpos m2 * 2 ^ e2 ?= - 2 ^ 63) = Gt)
        by (apply Z.compare_gt_iff; change (- 2 ^ 63) with (-9223372036854775808); nia).
      rewrite C1, C2. split; reflexivity.
    + pose proof (pow2_pos (- e2) ltac:(lia)) as Pn.
      pose proof (pow2_pos (e2 + N) ltac:(lia)) as Pq.
      assert (Hc : Zpos m2 < 2 ^ 63 * 2 ^ (- e2)).
      { replace N with ((- e2) + (e2 + N)) in Hval at 2 by lia.
        rewrite (Z.pow_add_r 2 (- e2)) in Hval by lia. nia. }
      assert (C1 : (Zpos m2 ?= 2 ^ 63 * 2 ^ (- e2)) = Lt)
        by (apply Z.compare_lt_iff; exact Hc).
      assert (C2 : (Zpos m2 ?= - 2 ^ 63 * 2 ^ (- e2)) = Gt)
        by (apply Z.compare_gt_iff; change (- 2 ^ 63) with (-9223372036854775808); nia).
      rewrite C1, C2. split; reflexivity.
Qed.

Lemma ge_not_lt (x : float) (n : Z) : ge_int x n = true -> lt_int x n = false.
Proof.
  unfold ge_int, lt_int. now destruct (compare_int x n) as [[] |].
Qed.

Lemma sec_to_ns :
  float_of_int run_scraper.SEC_TO_NS
  = S754_finite false 8388608000000000 (-23).
Proof. vm_compute. reflexivity. Qed.

(** [time.sleep] takes every delay from 0 to a million seconds. *)
Lemma sleep_accepts (s : float) :
  ge_int s 0 = true -> le_int s 1000000 = true ->
  run_scraper.time_sleep s = Ok tt.
Proof.
  intros Hge Hle. unfold run_scraper.time_sleep.
  rewrite (ge_not_lt s 0 Hge), sec_to_ns.
  destruct s as [sg | sg | | sg m e]; try discriminate.
  - now destruct sg.
  - destruct sg; discriminate.
  - assert (Hsg : sg = false).
    { destruct sg; [| reflexivity]. exfalso.
      unfold ge_int, compare_int in Hge. cbn [cond_Zopp] in Hge.
      destruct (Z.leb_spec 0 e) as [He | He].
      - pose proof (pow2_pos e He) as P.
        destruct (Z.compare_spec (- Zpos m * 2 ^ e) 0); try discriminate;
          nia.
      - destruct (Z.compare_spec (- Zpos m) (0 * 2 ^ (- e)));
          try discriminate; lia. }
    subst sg. cbn [SFmul xorb].
    set (E := e + -23). set (N := Z.max 0 (- E)).
    assert (HM : Zpos (m * 8388608000000000) * 2 ^ (E + N)
                 <= 10 ^ 15 * 2 ^ N).
    { unfold le_int, compare_int in Hle. cbn [cond_Zopp] in Hle.
      rewrite Pos2Z.inj_mul.
      change (10 ^ 15) with 1000000000000000.
      destruct (Z.leb_spec 0 e) as [He | He].
      - assert (Hv : Zpos m * 2 ^ e <= 1000000)
          by (destruct (Z.compare_spec (Zpos m * 2 ^ e) 1000000);
              try discriminate; lia).
        destruct (Z.leb_spec 0 E) as [HE | HE].
        + replace N with 0 by (subst N; lia).
          replace (E + 0) with E by lia. change (2 ^ 0) with 1.
          replace e with (23 + E) in Hv by (subst E; lia).
          rewrite Z.pow_add_r in Hv by lia.
          change (2 ^ 23) with 8388608 in Hv.
          pose proof (pow2_pos E HE). nia.
        + replace (E + N) with 0 by (subst N; lia). change (2 ^ 0) with 1.
          replace N with (23 - e) by (subst N E; lia).
          assert (Hp : 2 ^ (23 - e) * 2 ^ e = 8388608)
            by (rewrite <- Z.pow_add_r by (subst E; lia);
                replace (23 - e + e) with 23 by lia; reflexivity).
          pose proof (pow2_pos e He).
          pose proof (pow2_pos (23 - e) ltac:(subst E; lia)). nia.
      - assert (Hv : Zpos m <= 1000000 * 2 ^ (- e))
          by (destruct (Z.compare_spec (Zpos m) (1000000 * 2 ^ (- e)));
              try discriminate; lia).
        replace (E + N) with 0 by (subst N E; lia). change (2 ^ 0) with 1.
        replace N with (23 + - e) by (subst N E; lia).
        rewrite Z.pow_add_r by lia. change (2 ^ 23) with 8388608.
        pose proof (pow2_pos (- e) ltac:(lia)). nia. }
    destruct (binary_round_aux_small (m * 8388608000000000) E N
                ltac:(subst N; lia) ltac:(subst N; lia) HM) as [Hlt Hge'].
    change (- run_scraper.PyTime_MIN) with (2 ^ 63).
    change run_scraper.PyTime_MIN with (- 2 ^ 63).
    now rewrite Hlt, Hge'.
Qed.

End sleep_facts.

(** ** Following the pages *)

Module follow_facts.

Import pynum parsers run_scraper site.

Lemma range_cons (a b : Z) : a < b -> range a b = a :: range (a + 1) b.
Proof.
  intros H. unfold range.
  replace (Z.to_nat (b - a)) with (S (Z.to_nat (b - (a + 1)))) by lia.
  cbn [seq map]. f_equal; [lia |].
  rewrite <- seq_shift, map_map. apply map_ext. intros i. lia.
Qed.

Lemma range_nil (a b : Z) : b <= a -> range a b = [].
Proof.
  intros H. unfold range. now replace (Z.to_nat (b - a)) with 0%nat by lia.
Qed.

Lemma range_positive (a b : Z) : 0 < a -> Forall (fun p => p <> 0) (range a b).
Proof.
  intros H. unfold range. apply Forall_forall. intros p Hp.
  apply in_map_iff in Hp as (i & <- & _). lia.
Qed.

Lemma sleep_fifth : time_sleep (float_of_Decimal (mkDecimal false 2 (-1))) = Ok tt.
Proof. vm_compute. reflexivity. Qed.

(** One turn of the page loop, as far as the pagination. *)
Lemma scrape_pages_turn (page : Z) (later : list Z) (max_pages : Z)
  (sleep_s : float) (selectors : Selectors) (driver : WebDriver)
  (cards : list WebElement) (results : list ProductRecord) (lg : log) :
  page <> 0 ->
  wait_presence driver (product_card selectors) = Ok tt ->
  driver_find_elements driver (product_card selectors) = Ok cards ->
  exists lg',
    pages_scraped lg' = pages_scraped lg + 1 /\
    scrape_pages (page :: later) max_pages sleep_s selectors driver results lg
    = let results' :=
        (results ++ page_records selectors (driver, cards))%list in
      match driver_find_element driver (next_page_button selectors) with
      | Raise _ =>
          ((lg' ++ [INFO "No next page button found. Stopping." []])%list,
           Ok results')
      | Ok next_btn =>
          match
            catch
              (_ <- execute_script driver scroll_script next_btn ;;
               _ <- time_sleep (float_of_Decimal (mkDecimal false 2 (-1))) ;;
               driver' <- click next_btn ;;
               _ <- time_sleep sleep_s ;;
               Ok (Some driver'))
              Exception (Ok None)
          with
          | Ok (Some driver') =>
              scrape_pages later max_pages sleep_s selectors driver'
                results' lg'
          | _ =>
              ((lg' ++ [INFO "Pagination ended or failed to click next" []])%list,
               Ok results')
          end
      end.
Proof.
  intros Hpage Hwait Hcards.
  cbn [scrape_pages]. rewrite Hwait, Hcards.
  match goal with
  | |- context [scrape_cards driver selectors cards results ?l] =>
      pose proof (crawl_facts.scrape_cards_results driver selectors cards
                    results l) as Hres;
      pose proof (crawl_facts.scrape_cards_pages driver selectors cards
                    results l) as Hlog;
      destruct (scrape_cards driver selectors cards results l)
        as [results' lg']
  end.
  cbn [fst snd] in Hres, Hlog. subst results'.
  exists lg'. split.
  - rewrite Hlog, !crawl_facts.pages_scraped_app,
      !crawl_facts.pages_scraped_one.
    cbn. lia.
  - apply Z.eqb_neq in Hpage. rewrite Hpage. cbv zeta.
    unfold page_records. cbn [fst snd].
    destruct (driver_find_element driver (next_page_button selectors));
      reflexivity.
Qed.

(** The crawl along a chain of pages. *)
Lemma scrape_pages_chain (max_pages : Z) (sleep_s : float)
  (selectors : Selectors) (pages : list Z) :
  time_sleep sleep_s = Ok tt ->
  Forall (fun p => p <> 0) pages ->
  forall pcs driver results lg,
    chain selectors driver pcs ->
    let out :=
      scrape_pages pages max_pages sleep_s selectors driver results lg in
    snd out
    = Ok (results
          ++ flat_map (page_records selectors)
               (firstn (List.length pages) pcs))%list /\
    pages_scraped (fst out)
    = pages_scraped lg
      + Z.of_nat (Nat.min (List.length pages) (List.length pcs)).
Proof.
  intros Hsleep Hpages. induction Hpages as [| page later Hpage _ IH].
  - intros pcs driver results lg _. cbn. rewrite app_nil_r. split; [reflexivity | lia].
  - intros pcs driver results lg Hchain. cbv zeta.
    destruct pcs as [| [d cards] rest]; [destruct Hchain |].
    cbn [chain] in Hchain. destruct Hchain as (-> & Hwait & Hcards & Hnext).
    destruct (scrape_pages_turn page later max_pages sleep_s selectors driver
                cards results lg Hpage Hwait Hcards) as (lg' & Hlg' & ->).
    cbv zeta. cbn [List.length firstn flat_map].
    destruct rest as [| [d' cards'] rest'].
    + destruct Hnext as [e ->]. cbn [fst snd].
      rewrite crawl_facts.pages_scraped_app, crawl_facts.pages_scraped_one,
        Hlg'.
      rewrite firstn_nil. cbn [flat_map]. rewrite app_nil_r.
      split; [reflexivity |]. cbn. lia.
    + destruct Hnext as (btn & v & -> & Hscroll & Hclick & Hrest).
      unfold execute_script. rewrite Hscroll. cbn [bind].
      rewrite sleep_fifth. cbn [bind]. rewrite Hclick. cbn [bind].
      rewrite Hsleep. cbn [bind catch].
      destruct (IH ((d', cards') :: rest') d'
                  (results ++ page_records selectors (driver, cards))%list
                  lg' Hrest) as [H1 H2].
      rewrite H1, H2, Hlg', <- app_assoc. split; [reflexivity |].
      cbn [List.length]. lia.
Qed.

(** Every record kept satisfies what the records so far and the parsed
    records satisfy. *)
Lemma scrape_pages_forall (P : ProductRecord -> Prop) (max_pages : Z)
  (sleep_s : float) (selectors : Selectors) :
  (forall driver card r,
      parse_product_card driver card selectors = Ok r ->
      accepted r = true -> P r) ->
  forall pages driver results lg rs,
    Forall P results ->
    snd (scrape_pages pages max_pages sleep_s selectors driver results lg)
    = Ok rs ->
    Forall P rs.
Proof.
  intros HP.
  assert (Hcards : forall driver cards,
             Forall P (filter accepted (parsed_records driver selectors cards))).
  { intros driver cards. induction cards as [| card rest IH]; simpl;
      [constructor |].
    destruct (parse_product_card driver card selectors) as [r | e] eqn:E;
      [| exact IH].
    simpl. destruct (accepted r) eqn:A; [| exact IH].
    constructor; [now apply (HP driver card) | exact IH]. }
  induction pages as [| page later IH]; intros driver results lg rs Hres H.
  - cbn in H. now injection H as <-.
  - cbn [scrape_pages] in H.
    destruct (wait_presence driver (product_card selectors)) as [[] | e];
      [| discriminate H].
    destruct (driver_find_elements driver (product_card selectors))
      as [cards | e]; [| discriminate H].
    match type of H with
    | context [scrape_cards driver selectors cards results ?l] =>
        pose proof (crawl_facts.scrape_cards_results driver selectors cards
                      results l) as Hr;
        destruct (scrape_cards driver selectors cards results l)
          as [results' lg']
    end.
    cbn [fst] in Hr.
    assert (Hres' : Forall P results')
      by (subst results'; apply Forall_app; auto).
    destruct (page =? 0); [cbn in H; now injection H as <- |].
    destruct (driver_find_element driver (next_page_button selectors))
      as [btn | e]; [| cbn in H; now injection H as <-].
    destruct (catch _ Exception (Ok None)) as [[driver' |] | e];
      try (cbn in H; now injection H as <-).
    now apply (IH driver' results' lg').
Qed.



End follow_facts.

(** X16. Along a listing that is a chain of pages, each but the last with a
    pagination control that works and the last with none, and with a delay
    from 0 to a million seconds, the crawl returns the kept records of the
    first [max_pages] pages, page after page in order, and enters no further
    page: all the pages when [max_pages] is at least their number, none when
    [max_pages] is below 1.  (A delay [time.sleep] refuses, a negative one or
    one of 1e10 seconds, ends the crawl after the first page.) *)
Theorem crawl_follows_chain (browser first : WebDriver)
  (start_url : string) (selectors : parsers.Selectors) (max_pages : Z)
  (sleep_s : float) (pages : list (WebDriver * list WebElement)) :
  get browser start_url = Ok first ->
  site.chain selectors first pages ->
  pynum.ge_int sleep_s 0 = true ->
  pynum.le_int sleep_s 1000000 = true ->
  let out :=
    scrape_listing (Ok browser) start_url selectors max_pages sleep_s in
  snd out
  = Ok (flat_map (site.page_records selectors)
          (firstn (Z.to_nat max_pages) pages)) /\
  pages_scraped (fst out)
  = Z.min (Z.max 0 max_pages) (Z.of_nat (List.length pages)).
Proof.
  intros Hget Hchain Hge Hle.
  pose proof (sleep_facts.sleep_accepts sleep_s Hge Hle) as Hsleep.
  unfold scrape_listing. cbv zeta.
  rewrite Hget.
  destruct (follow_facts.scrape_pages_chain max_pages sleep_s selectors
              (range 1 (max_pages + 1)) Hsleep
              (follow_facts.range_positive 1 (max_pages + 1) ltac:(lia))
              pages first [] [INFO "Opening: %s" [ArgStr start_url]] Hchain)
    as [H1 H2].
  assert (Hlen : List.length (range 1 (max_pages + 1)) = Z.to_nat max_pages).
  { apply Nat2Z.inj. rewrite crawl_facts.range_length. lia. }
  rewrite Hlen in H1, H2.
  split; [exact H1 |]. rewrite H2.
  change (pages_scraped [INFO "Opening: %s" [ArgStr start_url]]) with 0.
  lia.
Qed.

(** The two pages of the examples, the first with a pagination control: with
    a cap of 5 both are scraped, and the crawl stops. *)
Lemma crawl_follows_chain_witness :
  let out :=
    scrape_listing (Ok (browser page_one)) "https://shop.example/sale"
      parsers.default_selectors 5 float_1_0 in
  snd out
  = Ok [parsers.mkProductRecord "UNKNOWN" "Bench Vise" None None None None "";
        parsers.mkProductRecord "ABC123" "" None None None None
          "https://shop.example/product/abc123"] /\
  pages_scraped (fst out) = 2.
Proof.
  cbv zeta.
  assert (Hchain : site.chain parsers.default_selectors page_one
                     [(page_one, [card_name_only; card_empty]);
                      (page_two, [card_no_name])]).
  { cbn. repeat split.
    exists (next_button page_two), None. repeat split.
    exists NoSuchElementException. reflexivity. }
  destruct (crawl_follows_chain (browser page_one) page_one
              "https://shop.example/sale" parsers.default_selectors 5
              float_1_0 _ eq_refl Hchain eq_refl eq_refl) as [H1 H2].
  split; [rewrite H1; reflexivity | rewrite H2; reflexivity].
Defined.

(** X17. Every record [scrape_listing] returns has a non-empty SKU and a
    non-empty name or product URL, whatever the browser does. *)
Theorem crawl_returns_kept_records (build : result WebDriver)
  (start_url : string) (selectors : parsers.Selectors) (max_pages : Z)
  (sleep_s : float) (rs : list parsers.ProductRecord) :
  snd (scrape_listing build start_url selectors max_pages sleep_s) = Ok rs ->
  Forall (fun r => parsers.sku r <> ""
                   /\ (parsers.name r <> "" \/ parsers.product_url r <> ""))
    rs.
Proof.
  unfold scrape_listing.
  destruct build as [driver | e]; [| discriminate].
  cbv zeta.
  destruct (get driver start_url) as [first | e]; [| discriminate].
  apply (follow_facts.scrape_pages_forall _ max_pages sleep_s selectors);
    [| constructor].
  intros d card r Hparse Hacc. split.
  - apply card_facts.parse_product_card_inv in Hparse
      as (name_el & nm & sk & st & lt & pl & ps & rtxt & rt0 & vtxt & rv0
          & rt & rv & url & _ & _ & _ & _ & _ & _ & _ & _ & _ & _ & _
          & _ & _ & ->).
    cbn. now destruct sk.
  - unfold accepted in Hacc. apply orb_prop in Hacc as [H | H];
      apply negb_true_iff in H; [left | right]; intros E; rewrite E in H;
      discriminate H.
Qed.

Lemma crawl_returns_kept_records_witness :
  Forall (fun r => parsers.sku r <> ""
                   /\ (parsers.name r <> "" \/ parsers.product_url r <> ""))
    [parsers.mkProductRecord "UNKNOWN" "Bench Vise" None None None None "";
     parsers.mkProductRecord "ABC123" "" None None None None
       "https://shop.example/product/abc123"].
Proof.
  apply (crawl_returns_kept_records (Ok (browser page_one))
           "https://shop.example/sale" parsers.default_selectors 5
           float_1_0).
  reflexivity.
Defined.

(** X18. A page on which no card appears in time is fatal for the whole
    crawl: when the second page is reached (the pagination control works and
    the delay is from 0 to a million seconds) and the wait on it raises,
    [scrape_listing] raises that exception, and the records of the first page
    are not returned. *)
Theorem crawl_timeout_on_second_page (browser first second : WebDriver)
  (start_url : string) (selectors : parsers.Selectors) (max_pages : Z)
  (sleep_s : float) (cards : list WebElement) (btn : WebElement)
  (v : option string) (e : exn) :
  2 <= max_pages ->
  get browser start_url = Ok first ->
  wait_presence first (parsers.product_card selectors) = Ok tt ->
  driver_find_elements first (parsers.product_card selectors) = Ok cards ->
  driver_find_element first (parsers.next_page_button selectors) = Ok btn ->
  run_script btn site.scroll_script = Ok v ->
  click btn = Ok second ->
  pynum.ge_int sleep_s 0 = true ->
  pynum.le_int sleep_s 1000000 = true ->
  wait_presence second (parsers.product_card selectors) = Raise e ->
  snd (scrape_listing (Ok browser) start_url selectors max_pages sleep_s)
  = Raise e.
Proof.
  intros Hmax Hget Hwait Hcards Hnext Hscroll Hclick Hge Hle Hwait2.
  pose proof (sleep_facts.sleep_accepts sleep_s Hge Hle) as Hsleep.
  unfold scrape_listing. cbv zeta. rewrite Hget.
  rewrite (follow_facts.range_cons 1) by lia.
  rewrite (follow_facts.range_cons (1 + 1)) by lia.
  destruct (follow_facts.scrape_pages_turn 1
              ((1 + 1) :: range (1 + 1 + 1) (max_pages + 1)) max_pages
              sleep_s selectors first cards []
              [INFO "Opening: %s" [ArgStr start_url]]
              ltac:(lia) Hwait Hcards) as (lg' & _ & ->).
  cbv zeta. rewrite Hnext. unfold execute_script. rewrite Hscroll.
  cbn [bind]. rewrite follow_facts.sleep_fifth. cbn [bind].
  rewrite Hclick. cbn [bind]. rewrite Hsleep. cbn [bind catch].
  cbn [scrape_pages]. rewrite Hwait2. reflexivity.
Qed.

Lemma crawl_timeout_on_second_page_witness :
  snd (scrape_listing (Ok (browser more_examples.page_then_timeout))
         "https://shop.example/sale" parsers.default_selectors 3 float_1_0)
  = Raise TimeoutException.
Proof.
  apply (crawl_timeout_on_second_page
           (browser more_examples.page_then_timeout)
           more_examples.page_then_timeout (page [] None)
           "https://shop.example/sale" parsers.default_selectors 3 float_1_0
           [card_name_only] (next_button (page [] None)) None
           TimeoutException);
    first [lia | reflexivity].
Defined.

(** X19. A pagination control that is found but cannot be scrolled to or
    clicked ends the crawl as a missing one does: the records of the pages
    so far are returned.  Here on the first page. *)
Theorem crawl_stops_when_click_fails (browser first : WebDriver)
  (start_url : string) (selectors : parsers.Selectors) (max_pages : Z)
  (sleep_s : float) (cards : list WebElement) (btn : WebElement) :
  1 <= max_pages ->
  get browser start_url = Ok first ->
  wait_presence first (parsers.product_card selectors) = Ok tt ->
  driver_find_elements first (parsers.product_card selectors) = Ok cards ->
  driver_find_element first (parsers.next_page_button selectors) = Ok btn ->
  (exists e, run_script btn site.scroll_script = Raise e)
  \/ (exists e, click btn = Raise e) ->
  let out :=
    scrape_listing (Ok browser) start_url selectors max_pages sleep_s in
  snd out = Ok (site.page_records selectors (first, cards)) /\
  pages_scraped (fst out) = 1.
Proof.
  intros Hmax Hget Hwait Hcards Hnext Hfail.
  unfold scrape_listing. cbv zeta. rewrite Hget.
  rewrite (follow_facts.range_cons 1) by lia.
  destruct (follow_facts.scrape_pages_turn 1 (range (1 + 1) (max_pages + 1))
              max_pages sleep_s selectors first cards []
              [INFO "Opening: %s" [ArgStr start_url]]
              ltac:(lia) Hwait Hcards) as (lg' & Hlg' & ->).
  cbv zeta. rewrite Hnext. unfold execute_script.
  assert (Hcatch :
    catch
      (_ <- run_script btn site.scroll_script ;;
       _ <- time_sleep (pynum.float_of_Decimal (pynum.mkDecimal false 2 (-1))) ;;
       driver' <- click btn ;;
       _ <- time_sleep sleep_s ;;
       Ok (Some driver'))
      Exception (Ok None) = Ok None).
  { destruct Hfail as [[e ->] | [e He]]; [reflexivity |].
    destruct (run_script btn site.scroll_script); [| reflexivity].
    cbn [bind]. rewrite follow_facts.sleep_fifth. cbn [bind].
    rewrite He. reflexivity. }
  rewrite Hcatch. cbn [fst snd app].
  rewrite crawl_facts.pages_scraped_app, crawl_facts.pages_scraped_one, Hlg'.
  split; reflexivity.
Qed.

Lemma crawl_stops_when_click_fails_witness :
  let out :=
    scrape_listing (Ok (browser more_examples.page_dead_button))
      "https://shop.example/sale" parsers.default_selectors 3 float_1_0 in
  snd out
  = Ok [parsers.mkProductRecord "UNKNOWN" "Bench Vise" None None None None ""]
  /\ pages_scraped (fst out) = 1.
Proof.
  cbv zeta.
  destruct (crawl_stops_when_click_fails
              (browser more_examples.page_dead_button)
              more_examples.page_dead_button
              "https://shop.example/sale" parsers.default_selectors 3
              float_1_0 [card_name_only] (leaf [] "Next")
              ltac:(lia) eq_refl eq_refl eq_refl eq_refl
              (or_intror (ex_intro _ WebDriverException eq_refl)))
    as [H1 H2].
  split; [rewrite H1; reflexivity | exact H2].
Defined.





(** ** Batches, faulty cards and faulty links *)

Module batch_facts.

Import validations parsers run_scraper.

Lemma count_rows_perm (f : Row -> bool) (l l' : list Row) :
  Permutation l l' -> count_rows f l = count_rows f l'.
Proof.
  induction 1 as [| x l l' _ IH | x y l | l l' l'' _ IH1 _ IH2].
  - reflexivity.
  - rewrite !validation_facts.count_rows_cons. lia.
  - rewrite !validation_facts.count_rows_cons. lia.
  - lia.
Qed.

Lemma filter_perm {A : Type} (f : A -> bool) (l l' : list A) :
  Permutation l l' -> Permutation (filter f l) (filter f l').
Proof.
  induction 1 as [| x l l' _ IH | x y l | l l' l'' _ IH1 _ IH2]; simpl.
  - constructor.
  - destruct (f x); [now constructor | exact IH].
  - destruct (f x), (f y); try reflexivity. constructor.
  - now transitivity (filter f l').
Qed.

(** The dict depends on the frame through its columns and the counts. *)
Lemma listed_ext (df df' : DataFrame) :
  columns df = columns df' ->
  (forall rule, count_rows rule (rows df) = count_rows rule (rows df')) ->
  reasons.listed df = reasons.listed df'.
Proof.
  intros Hc Hn. unfold reasons.listed, has_column. rewrite Hc.
  apply flat_map_ext. intros [k rule]. cbn [fst snd]. now rewrite Hn.
Qed.

Lemma scrape_cards_app (driver : WebDriver) (selectors : Selectors)
  (cards1 cards2 : list WebElement) :
  forall results lg,
    scrape_cards driver selectors (cards1 ++ cards2) results lg
    = let '(results1, lg1) :=
        scrape_cards driver selectors cards1 results lg in
      scrape_cards driver selectors cards2 results1 lg1.
Proof.
  induction cards1 as [| card rest IH]; intros results lg; [reflexivity |].
  cbn [app scrape_cards].
  destruct (parse_product_card driver card selectors) as [r | e];
    [destruct (accepted r) |]; apply IH.
Qed.

Lemma scrape_cards_log (driver : WebDriver) (selectors : Selectors)
  (cards : list WebElement) :
  forall results lg,
    snd (scrape_cards driver selectors cards results lg)
    = (lg ++ site.card_warnings driver selectors cards)%list.
Proof.
  unfold site.card_warnings.
  induction cards as [| card rest IH]; intros results lg;
    cbn [scrape_cards flat_map].
  - cbn [snd]. now rewrite app_nil_r.
  - destruct (parse_product_card driver card selectors) as [r | e].
    + destruct (accepted r); apply IH.
    + rewrite IH, <- app_assoc. reflexivity.
Qed.

Lemma all_warnings (driver : WebDriver) (selectors : Selectors)
  (cards : list WebElement) :
  filter site.is_warning (site.card_warnings driver selectors cards)
  = site.card_warnings driver selectors cards.
Proof.
  unfold site.card_warnings.
  induction cards as [| card rest IH]; [reflexivity |].
  cbn [flat_map]. rewrite filter_app, IH.
  now destruct (parse_product_card driver card selectors).
Qed.

End batch_facts.

(** X21. The report does not depend on the order of the rows: a frame with
    the same columns and the rows in another order gets the same report, and
    a valid frame with the same rows in another order. *)
Theorem validate_products_row_order (cols : list string)
  (rs rs' : list Row) (valid : DataFrame) (report : ValidationReport) :
  Permutation rs rs' ->
  validate_products (mkDataFrame cols rs) = Ok (valid, report) ->
  exists valid',
    validate_products (mkDataFrame cols rs') = Ok (valid', report) /\
    Permutation (rows valid) (rows valid') /\
    columns valid' = columns valid.
Proof.
  intros Hperm H.
  destruct (count_facts.ok_columns _ _ H) as [Hname Hsku].
  pose proof (reasons_facts.validate_products_reasons _ _ _ H) as Hrs.
  destruct (validation_facts.validate_products_eq (mkDataFrame cols rs)
              Hname Hsku) as (d & E & _).
  destruct (validation_facts.validate_products_eq (mkDataFrame cols rs')
              Hname Hsku) as (d' & E' & _).
  pose proof (reasons_facts.validate_products_reasons _ _ _ E') as Hrs'.
  rewrite E in H. injection H as <- <-. cbn [invalid_reasons] in Hrs, Hrs'.
  cbn [rows columns] in E'.
  eexists. split; [rewrite E'; f_equal; f_equal |].
  - cbn [rows columns]. f_equal.
    + f_equal. symmetry. now apply Permutation_length.
    + f_equal. symmetry. apply Permutation_length.
      now apply (batch_facts.filter_perm
                   (fun r => negb (triggers_any (mkDataFrame cols rs) r))).
    + symmetry. now apply batch_facts.count_rows_perm.
    + rewrite Hrs, Hrs'. apply batch_facts.listed_ext; [reflexivity |].
      intros rule. symmetry. now apply batch_facts.count_rows_perm.
  - cbn [rows columns]. split; [| reflexivity].
    now apply (batch_facts.filter_perm
                 (fun r => negb (triggers_any (mkDataFrame cols rs) r))).
Qed.

Lemma validate_products_row_order_witness :
  exists valid',
    validate_products
      (mkDataFrame record_columns [row_valid; row_two_reasons])
    = Ok (valid',
          mkValidationReport 2 1 1
            [("invalid_price_list", 1); ("invalid_rating", 1)]).
Proof.
  destruct (validate_products_row_order record_columns
              [row_two_reasons; row_valid] [row_valid; row_two_reasons]
              (mkDataFrame record_columns [row_valid])
              (mkValidationReport 2 1 1
                 [("invalid_price_list", 1); ("invalid_rating", 1)])
              (perm_swap _ _ _) ltac:(vm_compute; reflexivity))
    as (valid' & H & _).
  exists valid'. exact H.
Defined.

(** X22. Validating two batches one after the other and adding up is
    validating them together: the valid frame of the joined batch is the two
    valid frames joined, and its totals and each of its reason counters are
    the sums. *)
Theorem validate_products_batches_add_up (cols : list string)
  (rs1 rs2 : list Row) (valid : DataFrame) (report : ValidationReport) :
  validate_products (mkDataFrame cols (rs1 ++ rs2)) = Ok (valid, report) ->
  exists valid1 report1 valid2 report2,
    validate_products (mkDataFrame cols rs1) = Ok (valid1, report1) /\
    validate_products (mkDataFrame cols rs2) = Ok (valid2, report2) /\
    rows valid = (rows valid1 ++ rows valid2)%list /\
    total_rows report = total_rows report1 + total_rows report2 /\
    valid_rows report = valid_rows report1 + valid_rows report2 /\
    invalid_rows report = invalid_rows report1 + invalid_rows report2 /\
    forall reason rule,
      In (reason, rule) rules ->
      dict_get (invalid_reasons report) reason 0
      = dict_get (invalid_reasons report1) reason 0
        + dict_get (invalid_reasons report2) reason 0.
Proof.
  intros H.
  destruct (count_facts.ok_columns _ _ H) as [Hname Hsku].
  destruct (validation_facts.validate_products_eq
              (mkDataFrame cols (rs1 ++ rs2)) Hname Hsku) as (d & E & Hd).
  destruct (validation_facts.validate_products_eq (mkDataFrame cols rs1)
              Hname Hsku) as (d1 & E1 & Hd1).
  destruct (validation_facts.validate_products_eq (mkDataFrame cols rs2)
              Hname Hsku) as (d2 & E2 & Hd2).
  rewrite E in H. injection H as <- <-.
  do 4 eexists. split; [exact E1 |]. split; [exact E2 |].
  cbn [rows columns total_rows valid_rows invalid_rows invalid_reasons]
    in Hd, Hd1, Hd2 |- *.
  assert (Hf : forall l,
             filter (fun r => negb (triggers_any
                                      (mkDataFrame cols (rs1 ++ rs2)) r)) l
             = filter (fun r => negb (triggers_any (mkDataFrame cols rs1) r))
                 l) by reflexivity.
  assert (Hf' : forall l,
             filter (fun r => negb (triggers_any
                                      (mkDataFrame cols (rs1 ++ rs2)) r)) l
             = filter (fun r => negb (triggers_any (mkDataFrame cols rs2) r))
                 l) by reflexivity.
  split; [| split; [| split; [| split]]].
  - rewrite filter_app. reflexivity.
  - rewrite length_app. lia.
  - rewrite filter_app, length_app, Nat2Z.inj_add. reflexivity.
  - rewrite validation_facts.count_rows_app. reflexivity.
  - intros reason rule Hin.
    rewrite (Hd _ _ Hin), (Hd1 _ _ Hin), (Hd2 _ _ Hin).
    change (has_column (mkDataFrame cols (rs1 ++ rs2)) (rule_column reason))
      with (has_column (mkDataFrame cols rs1) (rule_column reason)).
    change (has_column (mkDataFrame cols rs2) (rule_column reason))
      with (has_column (mkDataFrame cols rs1) (rule_column reason)).
    destruct (has_column (mkDataFrame cols rs1) (rule_column reason));
      [apply validation_facts.count_rows_app | reflexivity].
Qed.

Lemma validate_products_batches_add_up_witness :
  exists valid1 report1 valid2 report2,
    validate_products (mkDataFrame record_columns [row_two_reasons])
    = Ok (valid1, report1) /\
    validate_products (mkDataFrame record_columns [row_valid])
    = Ok (valid2, report2) /\
    [row_valid] = (rows valid1 ++ rows valid2)%list /\
    2 = total_rows report1 + total_rows report2.
Proof.
  destruct (validate_products_batches_add_up record_columns
              [row_two_reasons] [row_valid]
              (mkDataFrame record_columns [row_valid])
              (mkValidationReport 2 1 1
                 [("invalid_price_list", 1); ("invalid_rating", 1)])
              ltac:(vm_compute; reflexivity))
    as (v1 & r1 & v2 & r2 & E1 & E2 & Hrows & Htot & _).
  exists v1, r1, v2, r2. auto.
Defined.

(** X23. The card loop adds to the log one warning for each card whose
    extraction raises and nothing else, and every card gives one kept record,
    one warning or nothing.  So a card that raises is skipped: the records
    kept are those of the page without that card, and the log has exactly
    one more warning. *)
Theorem faulty_card_is_skipped (driver : WebDriver)
  (selectors : parsers.Selectors) (before after : list WebElement)
  (bad : WebElement) (e : exn) (results : list parsers.ProductRecord)
  (lg : log) :
  parsers.parse_product_card driver bad selectors = Raise e ->
  let with_bad :=
    scrape_cards driver selectors (before ++ bad :: after) results lg in
  let without :=
    scrape_cards driver selectors (before ++ after) results lg in
  fst with_bad = fst without /\
  snd with_bad
  = (lg ++ site.card_warnings driver selectors before
        ++ WARNING "Failed parsing a card: %s" [ArgExn e]
        :: site.card_warnings driver selectors after)%list /\
  snd without
  = (lg ++ site.card_warnings driver selectors before
        ++ site.card_warnings driver selectors after)%list /\
  (List.length (fst with_bad) + List.length (snd with_bad)
   <= List.length results + List.length lg
      + List.length (before ++ bad :: after))%nat.
Proof.
  intros Hbad with_bad without. subst with_bad without.
  rewrite !batch_facts.scrape_cards_log, !crawl_facts.scrape_cards_results.
  assert (Hw : forall l1 l2,
             site.card_warnings driver selectors (l1 ++ l2)
             = (site.card_warnings driver selectors l1
                  ++ site.card_warnings driver selectors l2)%list)
    by (intros; apply flat_map_app).
  assert (Hp : forall l1 l2,
             parsed_records driver selectors (l1 ++ l2)
             = (parsed_records driver selectors l1
                  ++ parsed_records driver selectors l2)%list).
  { induction l1 as [| c l1 IH]; intros l2; [reflexivity |].
    cbn [app parsed_records].
    destruct (parsers.parse_product_card driver c selectors);
      cbn [app]; now rewrite IH. }
  assert (Hn : forall l,
             (List.length (filter accepted (parsed_records driver selectors l))
              + List.length (site.card_warnings driver selectors l)
              <= List.length l)%nat).
  { unfold site.card_warnings.
    induction l as [| c l IH]; [reflexivity |].
    cbn [parsed_records flat_map].
    destruct (parsers.parse_product_card driver c selectors) as [r | e'].
    - cbn [filter app]. destruct (accepted r); cbn [List.length]; lia.
    - cbn [app List.length]. lia. }
  split; [| split; [| split]].
  - rewrite !Hp. cbn [parsed_records]. now rewrite Hbad.
  - rewrite Hw. unfold site.card_warnings at 2. cbn [flat_map].
    rewrite Hbad. reflexivity.
  - now rewrite Hw.
  - rewrite !length_app. specialize (Hn (before ++ bad :: after)%list).
    rewrite length_app in Hn. lia.
Qed.

Lemma faulty_card_is_skipped_witness :
  fst (scrape_cards (page [] None) parsers.default_selectors
         ([card_name_only] ++ stale_element :: [card_no_name]) [] [])
  = [parsers.mkProductRecord "UNKNOWN" "Bench Vise" None None None None "";
     parsers.mkProductRecord "ABC123" "" None None None None
       "https://shop.example/product/abc123"].
Proof.
  exact (proj1 (faulty_card_is_skipped (page [] None)
                  parsers.default_selectors [card_name_only]
                  [card_no_name] stale_element
                  StaleElementReferenceException [] [] eq_refl)).
Defined.

(** X24. One hyperlink whose [href] cannot be read, met before any product
    link, costs the record its product URL: the scan of the links is given
    up as a whole, also when a product link comes after it. *)
Theorem product_url_lost_on_faulty_link (driver : WebDriver)
  (card : WebElement) (selectors : parsers.Selectors)
  (r : parsers.ProductRecord) (before after : list WebElement)
  (bad : WebElement) (hs : list (option string)) (e : exn) :
  parsers.parse_product_card driver card selectors = Ok r ->
  find_elements card "a[href]" = Ok (before ++ bad :: after)%list ->
  Forall2 (fun link h => get_attribute link "href" = Ok h) before hs ->
  Forall (fun h => pystr.contains "/product/"
                     (pystr.strip (pystr.or_empty h)) = false) hs ->
  get_attribute bad "href" = Raise e ->
  parsers.product_url r = "".
Proof.
  intros H Hlinks Hbefore Hnone Hbad.
  apply card_facts.parse_product_card_inv in H
    as (name_el & nm & sk & st & lt & pl & ps & rtxt & rt0 & vtxt & rv0
        & rt & rv & url & _ & _ & _ & _ & _ & _ & _ & _ & _ & _ & _
        & _ & Hurl & ->).
  cbn [parsers.product_url].
  unfold steps.link_step in Hurl. rewrite Hlinks in Hurl. cbn [bind] in Hurl.
  assert (Hraise : parsers.first_product_link (before ++ bad :: after)
                   = Raise e).
  { clear Hurl Hlinks. induction Hbefore as [| link h links hs' Hh _ IH].
    - cbn. rewrite Hbad. reflexivity.
    - inversion Hnone as [| ? ? Hn Hrest]; subst.
      cbn. rewrite Hh. cbn. rewrite Hn. now apply IH. }
  rewrite Hraise in Hurl. cbn in Hurl. now injection Hurl as <-.
Qed.

Lemma product_url_lost_on_faulty_link_witness :
  exists r,
    parsers.parse_product_card (page [] None) more_examples.card_faulty_link
      parsers.default_selectors = Ok r /\
    parsers.product_url r = "".
Proof.
  exists (parsers.mkProductRecord "UNKNOWN" "" None None None None "").
  split; [reflexivity |].
  apply (product_url_lost_on_faulty_link (page [] None)
           more_examples.card_faulty_link parsers.default_selectors _
           [leaf [("href", "https://shop.example/category/sale")] ""]
           [leaf [("href", "https://shop.example/product/1")] ""]
           stale_element [Some "https://shop.example/category/sale"]
           StaleElementReferenceException);
    try reflexivity; repeat constructor.
Defined.
